(** * DSDE: dynamic speculation-length controller

    A shallow embedding of the [dsde] package of the ChatBT backend
    ([signals.py], [adapter.py], [utils.py], [core.py]) and the properties
    of it that the specification states.

    Conventions of the embedding.
    - Python [int] is [Z].  Python [float] (and numpy's [float64]) is read
      as an exact rational [Q]: every comparison, clamp, truncation and
      rounding step of the source is kept as written, while the rounding
      error of the arithmetic itself is idealised away.
    - A [dict] keyed by sequence id is a [gmap string _]; a
      [collections.deque(maxlen=n)] is a record of its items and its bound.
    - An exception is a value of [exn] carried by the [res] result type;
      [try: ... except Exception] is [try_except].
    - The wall clock ([time.time()]) only feeds timestamps that no modelled
      result depends on; timestamps are left out and measured durations are
      inputs.
    - Tensors and the torch calls on them are an interface ([Torch]); the
      simulated models of [core.py] are collaborators on an abstract world. *)

From Stdlib Require Import Reals Qreals Lra.
From Stdlib Require Import ZArith QArith Qround Qabs Lqa Lia.
From Stdlib Require Import Sorted.
From stdpp Require Import gmap strings list fin_maps pretty.

Local Open Scope Z_scope.

(* ===================================================================== *)
(** * Python and numpy primitives                                          *)
(* ===================================================================== *)

Module Py.

(** Exceptions of the Python runtime that the modelled code can meet. *)
Inductive exn : Type :=
| KeyError (key : string)
| ZeroDivisionError
| TypeError
| ValueError
| RuntimeError (msg : string).

Inductive res (A : Type) : Type :=
| Ok (a : A)
| Raise (e : exn).
Arguments Ok {A} a.
Arguments Raise {A} e.

Definition bind {A B} (m : res A) (k : A -> res B) : res B :=
  match m with
  | Ok a => k a
  | Raise e => Raise e
  end.

(** [try: body  except Exception as e: handler(e)]. *)
Definition try_except {A} (body : res A) (handler : exn -> res A) : res A :=
  match body with
  | Ok a => Ok a
  | Raise e => handler e
  end.

(** [str(e)], as far as the modelled code looks at it. *)
Definition str_exn (e : exn) : string :=
  match e with
  | KeyError k => k
  | ZeroDivisionError => "division by zero"
  | TypeError => "unsupported operand"
  | ValueError => "maxlen must be non-negative"
  | RuntimeError m => m
  end.

Definition Qlt_bool (a b : Q) : bool := negb (Qle_bool b a).

(** [max(a, b)] keeps its first argument unless the second is greater;
    [min(a, b)] keeps its first argument unless the second is smaller. *)
Definition max (a b : Q) : Q := if Qlt_bool a b then b else a.
Definition min (a b : Q) : Q := if Qlt_bool b a then b else a.

(** [int(x)]: truncation toward zero. *)
Definition int (x : Q) : Z := Z.quot (Qnum x) (Zpos (Qden x)).

(** [round(x)] of Python 3 (and of numpy scalars): to the nearest
    integer, a tie going to the even neighbour. *)
Definition round (x : Q) : Z :=
  let f := Qfloor x in
  match Qcompare (x - inject_Z f) (1 # 2) with
  | Lt => f
  | Gt => f + 1
  | Eq => if Z.even f then f else f + 1
  end.

(** [abs(x)]. *)
Definition abs (x : Q) : Q := Qabs x.

(** [len(l)]. *)
Definition len {A} (l : list A) : Z := Z.of_nat (length l).

(** [sum(l)]. *)
Definition sum (l : list Q) : Q := fold_left Qplus l 0%Q.

(** [l[-n:]].  For [n > 0] the last [n] items (all of them when the list
    is shorter); [l[-0:]] is the whole list; for [n < 0] the index [-n] is
    a start from the left. *)
Definition slice_last {A} (n : Z) (l : list A) : list A :=
  if 0 <? n then drop (length l - Z.to_nat n) l
  else drop (Z.to_nat (- n)) l.

(** [l[-1]] of a non-empty list, [None] standing for the [IndexError]. *)
Definition last_item {A} (l : list A) : option A := last l.

(** [collections.deque(maxlen=n)]. *)
Record deque (A : Type) : Type := Deque {
  items : list A;
  maxlen : nat
}.
Arguments Deque {A} items maxlen.
Arguments items {A} d.
Arguments maxlen {A} d.

(** [deque(maxlen=n)] refuses a negative bound. *)
Definition deque_new {A} (n : Z) : res (deque A) :=
  if n <? 0 then Raise ValueError else Ok (Deque [] (Z.to_nat n)).

(** [d.append(x)]: the item goes to the right end, and when that exceeds
    the bound the leftmost item is dropped. *)
Definition append {A} (d : deque A) (x : A) : deque A :=
  let l := items d ++ [x] in
  Deque (if (maxlen d <? length l)%nat then drop 1 l else l) (maxlen d).

(** [d.extend(xs)]. *)
Definition extend {A} (d : deque A) (xs : list A) : deque A :=
  fold_left append xs d.

(** [d.clear()]. *)
Definition clear {A} (d : deque A) : deque A := Deque [] (maxlen d).

(** [sorted(l, key=key, reverse=True)]: descending in the key, the items
    of equal key in the order they had.  An item is put behind the items
    of greater key and before the others. *)
Fixpoint insert_reverse {A} (key : A -> Q) (x : A) (l : list A) : list A :=
  match l with
  | [] => [x]
  | y :: l' =>
      if Qlt_bool (key x) (key y) then y :: insert_reverse key x l'
      else x :: l
  end.

Definition sorted_reverse {A} (key : A -> Q) (l : list A) : list A :=
  foldr (insert_reverse key) [] l.

End Py.

Notation "x <- m ;; k" := (Py.bind m (fun x => k))
  (at level 100, m at next level, right associativity).

(** numpy's [mean], [var] (population variance) on a non-empty list. *)
Module np.

Definition mean (l : list Q) : Q := (Py.sum l / inject_Z (Py.len l))%Q.

Definition var (l : list Q) : Q :=
  let m := mean l in
  mean (map (fun x => (x - m) * (x - m))%Q l).

(** [np.std(l)], the square root of the variance, is a real number. *)
Definition std (l : list Q) : R := sqrt (Q2R (var l)).

(** The source only compares [np.std(l)] with other quantities, and here
    each such comparison is decided on the squares: [std_gt l c] is
    [np.std(l) > c], and [gt_scaled_std a t l] is [a > t * np.std(l)] for
    [a >= 0] ([std_gt_spec] and [gt_scaled_std_spec] below). *)
Definition std_gt (l : list Q) (c : Q) : bool :=
  Py.Qlt_bool c 0 || Py.Qlt_bool (c * c) (var l).

Definition gt_scaled_std (a t : Q) (l : list Q) : bool :=
  if Qle_bool 0 t then Py.Qlt_bool (t * t * var l) (a * a)
  else Py.Qlt_bool 0 a || Py.Qlt_bool 0 (var l).

End np.

(* ===================================================================== *)
(** * signals.py                                                           *)
(* ===================================================================== *)

(** The torch calls of [signals.py], on an abstract tensor type.
    [kl_div_sum d t] is [F.kl_div(softmax(t).log(), softmax(d),
    reduction='sum').item()] and [plogp_sum l] is
    [-torch.sum(p * torch.log(p + 1e-10)).item()] for [p = softmax(l)];
    [Raise] is an exception of the call. *)
Class Torch : Type := {
  tensor : Type;
  kl_div_sum : tensor -> tensor -> Py.res Q;
  plogp_sum : tensor -> Py.res Q
}.

Record SignalConfig : Type := {
  short_window_size : Z;
  long_window_size : Z;
  min_history_length : Z;
  kld_threshold : Q;
  variance_threshold : Q;
  entropy_weight : Q;
  kld_weight : Q
}.

Definition default_SignalConfig : SignalConfig := {|
  short_window_size := 4;
  long_window_size := 12;
  min_history_length := 2;
  kld_threshold := 1 # 10;
  variance_threshold := 5 # 100;
  entropy_weight := 3 # 10;
  kld_weight := 7 # 10
|}.

Module KLDVarianceSignal.

Record t : Type := Build {
  config : SignalConfig;
  kld_history : Py.deque Q;
  sequence_histories : gmap string (Py.deque Q)
}.

(** [__init__] *)
Definition init (cfg : SignalConfig) : Py.res t :=
  d <- Py.deque_new (long_window_size cfg) ;;
  Py.Ok (Build cfg d ∅).

(** [compute_kld] *)
Definition compute_kld `{Torch} (draft_logits target_logits : tensor) : Q :=
  match kl_div_sum draft_logits target_logits with
  | Py.Ok kld => Py.max 0 kld
  | Py.Raise _ => 0%Q
  end.

(** [update_history] *)
Definition update_history (self : t) (sequence_id : string)
    (kld_values : list Q) : Py.res t :=
  d <- match sequence_histories self !! sequence_id with
       | Some d => Py.Ok d
       | None => Py.deque_new (long_window_size (config self))
       end ;;
  Py.Ok (Build (config self) (kld_history self)
           (<[sequence_id := fold_left Py.append kld_values d]>
              (sequence_histories self))).

(** [get_regional_stability] *)
Definition get_regional_stability (self : t) (sequence_id : string) : Q :=
  match sequence_histories self !! sequence_id with
  | None => 1 # 2
  | Some d =>
      let history := Py.items d in
      if Py.len history <? min_history_length (config self) then 1 # 2
      else
        let recent_klds :=
          Py.slice_last (short_window_size (config self)) history in
        if Py.len recent_klds <? 2 then 1 # 2
        else
          let variance := np.var recent_klds in
          let stability := (1 / (1 + variance))%Q in
          Py.min 1 (Py.max 0 stability)
  end.

(** [predict_acceptance_likelihood] *)
Definition predict_acceptance_likelihood (self : t) (sequence_id : string)
    (draft_entropy : option Q) : Q :=
  let stability := get_regional_stability self sequence_id in
  let base_likelihood := stability in
  let combined_likelihood :=
    match draft_entropy with
    | Some e =>
        let entropy_factor := (1 / (1 + e))%Q in
        (kld_weight (config self) * base_likelihood
         + entropy_weight (config self) * entropy_factor)%Q
    | None => base_likelihood
    end in
  Py.min 1 (Py.max 0 combined_likelihood).

End KLDVarianceSignal.

Module WVIRCalculator.

Definition short_window (cfg : SignalConfig) (kld_history : list Q) : list Q :=
  Py.slice_last (short_window_size cfg) kld_history.

Definition long_window (cfg : SignalConfig) (kld_history : list Q) : list Q :=
  if long_window_size cfg <=? Py.len kld_history
  then Py.slice_last (long_window_size cfg) kld_history
  else kld_history.

Definition short_var (cfg : SignalConfig) (kld_history : list Q) : Q :=
  let w := short_window cfg kld_history in
  if 1 <? Py.len w then np.var w else 0%Q.

Definition long_var (cfg : SignalConfig) (kld_history : list Q) : Q :=
  let w := long_window cfg kld_history in
  if 1 <? Py.len w then np.var w else 0%Q.

(** [calculate_wvir] *)
Definition calculate_wvir (cfg : SignalConfig) (kld_history : list Q) : Q :=
  if Py.len kld_history <? short_window_size cfg then 0%Q
  else
    let sv := short_var cfg kld_history in
    let lv := long_var cfg kld_history in
    if Qeq_bool lv 0 then (if Py.Qlt_bool 0 sv then 1%Q else 0%Q)
    else
      let wvir := (sv / lv)%Q in
      Py.min 10 (Py.max 0 wvir).

(** [get_stability_classification] *)
Definition get_stability_classification (wvir : Q) : string :=
  if Py.Qlt_bool wvir (1 # 2) then "highly_stable"
  else if Py.Qlt_bool wvir 1 then "stable"
  else if Py.Qlt_bool wvir 2 then "moderate"
  else if Py.Qlt_bool wvir 4 then "unstable"
  else "highly_unstable".

End WVIRCalculator.

Module EntropySignal.

Record t : Type := Build {
  entropy_history : gmap string (Py.deque Q)
}.

Definition init : t := Build ∅.

(** [compute_entropy] *)
Definition compute_entropy `{Torch} (logits : tensor) : Q :=
  match plogp_sum logits with
  | Py.Ok entropy => Py.max 0 entropy
  | Py.Raise _ => 0%Q
  end.

(** [update_history] *)
Definition update_history (self : t) (sequence_id : string) (entropy : Q) : t :=
  let d := match entropy_history self !! sequence_id with
           | Some d => d
           | None => Py.Deque [] 10
           end in
  Build (<[sequence_id := Py.append d entropy]> (entropy_history self)).

(** [get_trend] *)
Definition get_trend (self : t) (sequence_id : string) : string :=
  match entropy_history self !! sequence_id with
  | None => "stable"
  | Some d =>
      if Py.len (Py.items d) <? 3 then "stable"
      else
        let recent := Py.slice_last 3 (Py.items d) in
        match Py.last_item recent, head recent with
        | Some latest, Some first =>
            if Py.Qlt_bool (first * (11 # 10)) latest then "increasing"
            else if Py.Qlt_bool latest (first * (9 # 10)) then "decreasing"
            else "stable"
        | _, _ => "stable"
        end
  end.

End EntropySignal.

Module CombinedSignalProcessor.

Record t : Type := Build {
  config : SignalConfig;
  kld_signal : KLDVarianceSignal.t;
  wvir_calculator : SignalConfig;
  entropy_signal : EntropySignal.t
}.

(** [__init__] *)
Definition init (cfg : SignalConfig) : Py.res t :=
  k <- KLDVarianceSignal.init cfg ;;
  Py.Ok (Build cfg k cfg EntropySignal.init).

(** The dictionary returned by [process_verification_step]: a key that
    the source leaves out is [None]. *)
Record step_results : Type := StepResults {
  r_stability : Q;
  r_wvir : option Q;
  r_stability_class : option string;
  r_entropy : option Q;
  r_entropy_trend : option string;
  r_acceptance_rate : option Q;
  r_next_acceptance_likelihood : Q
}.

(** [process_verification_step] *)
Definition process_verification_step `{Torch} (self : t)
    (sequence_id : string) (draft_logits target_logits : list tensor)
    (accepted_tokens : Z) : Py.res (t * step_results) :=
  let kld_values :=
    zip_with KLDVarianceSignal.compute_kld draft_logits target_logits in
  kld <- KLDVarianceSignal.update_history (kld_signal self) sequence_id
           kld_values ;;
  let stability := KLDVarianceSignal.get_regional_stability kld sequence_id in
  let wvir :=
    match KLDVarianceSignal.sequence_histories kld !! sequence_id with
    | Some d =>
        Some (WVIRCalculator.calculate_wvir (wvir_calculator self) (Py.items d))
    | None => None
    end in
  let stability_class := WVIRCalculator.get_stability_classification <$> wvir in
  let '(ent, entropy, entropy_trend) :=
    match draft_logits with
    | first :: _ =>
        let e := EntropySignal.compute_entropy first in
        let ent := EntropySignal.update_history (entropy_signal self)
                     sequence_id e in
        (ent, Some e, Some (EntropySignal.get_trend ent sequence_id))
    | [] => (entropy_signal self, None, None)
    end in
  let acceptance_rate :=
    if 0 <? Py.len draft_logits
    then Some (inject_Z accepted_tokens / inject_Z (Py.len draft_logits))%Q
    else None in
  let next_likelihood :=
    KLDVarianceSignal.predict_acceptance_likelihood kld sequence_id entropy in
  Py.Ok (Build (config self) kld (wvir_calculator self) ent,
         StepResults stability wvir stability_class entropy entropy_trend
           acceptance_rate next_likelihood).

(** The dictionary returned by [get_sequence_metrics]. *)
Record metrics : Type := Metrics {
  m_stability : option Q;
  m_wvir : option Q;
  m_mean_kld : option Q;
  m_current_entropy : option Q;
  m_entropy_trend : option string
}.

(** [get_sequence_metrics] *)
Definition get_sequence_metrics (self : t) (sequence_id : string) : metrics :=
  let stability :=
    KLDVarianceSignal.get_regional_stability (kld_signal self) sequence_id in
  let '(wvir, mean_kld) :=
    match KLDVarianceSignal.sequence_histories (kld_signal self)
            !! sequence_id with
    | Some d =>
        let history := Py.items d in
        match history with
        | [] => (None, None)
        | _ :: _ =>
            (Some (WVIRCalculator.calculate_wvir (wvir_calculator self) history),
             Some (if 5 <=? Py.len history
                   then np.mean (Py.slice_last 5 history)
                   else np.mean history))
        end
    | None => (None, None)
    end in
  let '(current_entropy, entropy_trend) :=
    match EntropySignal.entropy_history (entropy_signal self)
            !! sequence_id with
    | Some d =>
        match Py.last_item (Py.items d) with
        | Some e =>
            (Some e,
             Some (EntropySignal.get_trend (entropy_signal self) sequence_id))
        | None => (None, None)
        end
    | None => (None, None)
    end in
  Metrics (Some stability) wvir mean_kld current_entropy entropy_trend.

End CombinedSignalProcessor.

(* ===================================================================== *)
(** * adapter.py                                                           *)
(* ===================================================================== *)

Record AdapterConfig : Type := {
  min_speculation_length : Z;
  max_speculation_length : Z;
  default_speculation_length : Z;
  stability_threshold_high : Q;
  stability_threshold_low : Q;
  wvir_threshold_stable : Q;
  wvir_threshold_unstable : Q;
  adaptation_rate : Q;
  history_weight : Q;
  min_acceptance_rate : Q;
  target_acceptance_rate : Q;
  enable_batch_capping : bool;
  straggler_tolerance : Q
}.

Definition default_AdapterConfig : AdapterConfig := {|
  min_speculation_length := 1;
  max_speculation_length := 8;
  default_speculation_length := 4;
  stability_threshold_high := 7 # 10;
  stability_threshold_low := 3 # 10;
  wvir_threshold_stable := 1;
  wvir_threshold_unstable := 3;
  adaptation_rate := 2 # 10;
  history_weight := 8 # 10;
  min_acceptance_rate := 3 # 10;
  target_acceptance_rate := 7 # 10;
  enable_batch_capping := true;
  straggler_tolerance := 2
|}.

(** A value stored in the [context_info] dictionary. *)
Inductive pyval : Type :=
| PStr (s : string)
| PNum (q : Q)
| PNone.

(** [v == s] for a string literal [s]: false on any other type. *)
Definition pyval_eq_str (v : pyval) (s : string) : bool :=
  match v with
  | PStr s' => String.eqb s' s
  | _ => false
  end.

(** [v > c] and [v < c] for a number [c]: a [TypeError] on a string or
    [None]. *)
Definition pyval_gt (v : pyval) (c : Q) : Py.res bool :=
  match v with
  | PNum q => Py.Ok (Py.Qlt_bool c q)
  | _ => Py.Raise Py.TypeError
  end.

Definition pyval_lt (v : pyval) (c : Q) : Py.res bool :=
  match v with
  | PNum q => Py.Ok (Py.Qlt_bool q c)
  | _ => Py.Raise Py.TypeError
  end.

Module SpeculationLengthAdapter.

(** An entry of [sequence_performance]. *)
Record perf : Type := Perf {
  recent_acceptance_rates : Py.deque Q;
  recent_speculation_lengths : Py.deque Z;
  total_tokens_generated : Z;
  total_tokens_accepted : Z
}.

(** The factory of the [defaultdict]. *)
Definition perf_default : perf := Perf (Py.Deque [] 10) (Py.Deque [] 10) 0 0.

(** An entry of [sequence_states]. *)
Record seq_state : Type := SeqState {
  last_predicted_sl : Q;
  last_metrics : CombinedSignalProcessor.metrics;
  prediction_count : Z
}.

(** The adapter object.  [batch_metrics] is written once by [__init__]
    and never read; it is left out. *)
Record t : Type := Build {
  config : AdapterConfig;
  signal_processor : CombinedSignalProcessor.t;
  sequence_states : gmap string seq_state;
  sequence_performance : gmap string perf
}.

(** [__init__] *)
Definition init (adapter_config : AdapterConfig)
    (signal_config : SignalConfig) : Py.res t :=
  sp <- CombinedSignalProcessor.init signal_config ;;
  Py.Ok (Build adapter_config sp ∅ ∅).

(** [self.sequence_performance[sequence_id]]: a missing key is first
    filled with the default entry. *)
Definition sequence_performance_getitem (self : t) (sequence_id : string)
    : perf * t :=
  match sequence_performance self !! sequence_id with
  | Some p => (p, self)
  | None =>
      (perf_default,
       Build (config self) (signal_processor self) (sequence_states self)
         (<[sequence_id := perf_default]> (sequence_performance self)))
  end.

(** [_predict_from_stability] *)
Definition _predict_from_stability (cfg : AdapterConfig)
    (metrics : CombinedSignalProcessor.metrics) : Py.res Q :=
  let stability := default (1 # 2)%Q (CombinedSignalProcessor.m_stability metrics) in
  let wvir := default 1%Q (CombinedSignalProcessor.m_wvir metrics) in
  let entropy := default 2%Q (CombinedSignalProcessor.m_current_entropy metrics) in
  base_sl <-
    (if Py.Qlt_bool (stability_threshold_high cfg) stability
        && Py.Qlt_bool wvir (wvir_threshold_stable cfg)
     then Py.Ok (inject_Z (max_speculation_length cfg) * (8 # 10))%Q
     else if Py.Qlt_bool stability (stability_threshold_low cfg)
             || Py.Qlt_bool (wvir_threshold_unstable cfg) wvir
     then Py.Ok (inject_Z (min_speculation_length cfg) * (15 # 10))%Q
     else
       let denominator :=
         (stability_threshold_high cfg - stability_threshold_low cfg)%Q in
       if Qeq_bool denominator 0 then Py.Raise Py.ZeroDivisionError
       else
         let stability_factor :=
           ((stability - stability_threshold_low cfg) / denominator)%Q in
         let stability_factor := Py.max 0 (Py.min 1 stability_factor) in
         Py.Ok (inject_Z (min_speculation_length cfg)
                + stability_factor
                  * inject_Z (max_speculation_length cfg
                              - min_speculation_length cfg))%Q) ;;
  Py.Ok (if Py.Qlt_bool entropy 1 then (base_sl * (12 # 10))%Q
         else if Py.Qlt_bool 4 entropy then (base_sl * (8 # 10))%Q
         else base_sl).

(** [_adjust_for_history] *)
Definition _adjust_for_history (self : t) (sequence_id : string)
    (base_sl : Q) : Q * t :=
  let '(perf, self) := sequence_performance_getitem self sequence_id in
  let cfg := config self in
  match Py.items (recent_acceptance_rates perf) with
  | [] => (base_sl, self)
  | (_ :: _) as rates =>
      let recent_acceptance := np.mean rates in
      let adjustment :=
        if Py.Qlt_bool (target_acceptance_rate cfg) recent_acceptance
        then (1 + (recent_acceptance - target_acceptance_rate cfg) * 2)%Q
        else if Py.Qlt_bool recent_acceptance (min_acceptance_rate cfg)
        then ((5 # 10)
              + (recent_acceptance / min_acceptance_rate cfg) * (5 # 10))%Q
        else
          let target_diff :=
            (recent_acceptance - target_acceptance_rate cfg)%Q in
          (1 + target_diff * (5 # 10))%Q in
      let adjusted_sl :=
        (base_sl * (history_weight cfg * adjustment
                    + (1 - history_weight cfg) * 1))%Q in
      (adjusted_sl, self)
  end.

(** [_adjust_for_context] *)
Definition _adjust_for_context (base_sl : Q)
    (context_info : option (gmap string pyval)) : Py.res Q :=
  match context_info with
  | None => Py.Ok base_sl
  | Some ctx =>
      if decide (ctx = ∅) then Py.Ok base_sl
      else
        let adjusted_sl := base_sl in
        let task_type := default (PStr "general") (ctx !! "task_type") in
        let adjusted_sl :=
          if pyval_eq_str task_type "code_generation"
          then (adjusted_sl * (11 # 10))%Q
          else if pyval_eq_str task_type "creative_writing"
          then (adjusted_sl * (9 # 10))%Q
          else if pyval_eq_str task_type "dialogue"
          then (adjusted_sl * (95 # 100))%Q
          else adjusted_sl in
        let sequence_length := default (PNum 0) (ctx !! "current_length") in
        long <- pyval_gt sequence_length 1000 ;;
        adjusted_sl <-
          (if long then Py.Ok (adjusted_sl * (105 # 100))%Q
           else short <- pyval_lt sequence_length 50 ;;
                Py.Ok (if short then (adjusted_sl * (95 # 100))%Q
                       else adjusted_sl)) ;;
        let temperature := default (PNum 1) (ctx !! "temperature") in
        cold <- pyval_lt temperature (3 # 10) ;;
        (if cold then Py.Ok (adjusted_sl * (11 # 10))%Q
         else hot <- pyval_gt temperature (15 # 10) ;;
              Py.Ok (if hot then (adjusted_sl * (9 # 10))%Q
                     else adjusted_sl))
  end.

(** [_update_sequence_state] *)
Definition _update_sequence_state (self : t) (sequence_id : string)
    (predicted_sl : Q) (metrics : CombinedSignalProcessor.metrics) : t :=
  let count :=
    match sequence_states self !! sequence_id with
    | Some s => prediction_count s
    | None => 0
    end in
  Build (config self) (signal_processor self)
    (<[sequence_id := SeqState predicted_sl metrics (count + 1)]>
       (sequence_states self))
    (sequence_performance self).

(** [predict_optimal_sl].  The object is returned beside the result also
    when the call raises: the entry that the [defaultdict] created stays. *)
Definition predict_optimal_sl (self : t) (sequence_id : string)
    (context_info : option (gmap string pyval)) : Py.res Z * t :=
  let metrics :=
    CombinedSignalProcessor.get_sequence_metrics (signal_processor self)
      sequence_id in
  let '(_, self) := sequence_performance_getitem self sequence_id in
  match _predict_from_stability (config self) metrics with
  | Py.Raise e => (Py.Raise e, self)
  | Py.Ok base_sl =>
      let '(history_adjusted_sl, self) :=
        _adjust_for_history self sequence_id base_sl in
      match _adjust_for_context history_adjusted_sl context_info with
      | Py.Raise e => (Py.Raise e, self)
      | Py.Ok context_adjusted_sl =>
          let final_sl :=
            Py.max (inject_Z (min_speculation_length (config self)))
              (Py.min (inject_Z (max_speculation_length (config self)))
                 context_adjusted_sl) in
          let self :=
            _update_sequence_state self sequence_id final_sl metrics in
          (Py.Ok (Py.int final_sl), self)
      end
  end.

(** [update_performance] *)
Definition update_performance (self : t) (sequence_id : string)
    (speculation_length accepted_tokens total_tokens : Z) : t :=
  let '(perf, self) := sequence_performance_getitem self sequence_id in
  let acceptance_rate :=
    (inject_Z accepted_tokens / inject_Z (Z.max 1 total_tokens))%Q in
  let perf :=
    Perf (Py.append (recent_acceptance_rates perf) acceptance_rate)
      (Py.append (recent_speculation_lengths perf) speculation_length)
      (total_tokens_generated perf + total_tokens)
      (total_tokens_accepted perf + accepted_tokens) in
  Build (config self) (signal_processor self) (sequence_states self)
    (<[sequence_id := perf]> (sequence_performance self)).

(** The dictionary returned by [get_sequence_stats]. *)
Record stats : Type := Stats {
  st_sequence_id : string;
  st_current_metrics : CombinedSignalProcessor.metrics;
  st_total_generated : Z;
  st_total_accepted : Z;
  st_overall_acceptance_rate : Q;
  st_recent_acceptance_rate : Q;
  st_recent_avg_sl : Q;
  st_state : option seq_state
}.

(** [get_sequence_stats] *)
Definition get_sequence_stats (self : t) (sequence_id : string) : stats * t :=
  let '(perf, self) := sequence_performance_getitem self sequence_id in
  let state := sequence_states self !! sequence_id in
  let metrics :=
    CombinedSignalProcessor.get_sequence_metrics (signal_processor self)
      sequence_id in
  (Stats sequence_id metrics
     (total_tokens_generated perf) (total_tokens_accepted perf)
     (inject_Z (total_tokens_accepted perf)
      / inject_Z (Z.max 1 (total_tokens_generated perf)))%Q
     (match Py.items (recent_acceptance_rates perf) with
      | [] => 0%Q
      | (_ :: _) as l => np.mean l
      end)
     (match Py.items (recent_speculation_lengths perf) with
      | [] => 0%Q
      | (_ :: _) as l => np.mean (map inject_Z l)
      end)
     state,
   self).

End SpeculationLengthAdapter.

Module BatchOptimizer.

(** [_calculate_adaptive_sl_cap] *)
Definition _calculate_adaptive_sl_cap (cfg : AdapterConfig)
    (predicted_sls : list Z) (priorities : option (list Q)) : Z :=
  match predicted_sls with
  | [] => default_speculation_length cfg
  | _ :: _ =>
      let sl_cap :=
        match priorities with
        | None =>
            (inject_Z (fold_left Z.add predicted_sls 0%Z)
             / inject_Z (Py.len predicted_sls))%Q
        | Some priorities =>
            let weighted_sum :=
              Py.sum (zip_with (fun sl priority => inject_Z sl * priority)%Q
                        predicted_sls priorities) in
            let total_weight := Py.sum priorities in
            (weighted_sum / Py.max total_weight (1 # 100000000))%Q
        end in
      Z.max (min_speculation_length cfg)
        (Z.min (max_speculation_length cfg) (Py.round sl_cap))
  end.

(** [_apply_batch_balancing] *)
Definition _apply_batch_balancing (cfg : AdapterConfig)
    (speculation_lengths : list Z) : list Z :=
  match speculation_lengths with
  | [] => speculation_lengths
  | _ :: _ =>
      let values := map inject_Z speculation_lengths in
      let mean_sl := np.mean values in
      if np.std_gt values (mean_sl * (5 # 10))%Q
      then
        map (fun sl =>
               if np.gt_scaled_std (Py.abs (inject_Z sl - mean_sl))
                    (straggler_tolerance cfg) values
               then
                 let balanced_sl :=
                   (inject_Z sl + (3 # 10) * (mean_sl - inject_Z sl))%Q in
                 Z.max 1 (Z.min (max_speculation_length cfg)
                            (Py.round balanced_sl))
               else sl)
          speculation_lengths
      else speculation_lengths
  end.

(** [optimize_batch_speculation_lengths] *)
Definition optimize_batch_speculation_lengths (cfg : AdapterConfig)
    (predicted_sls : list Z) (sequence_priorities : option (list Q))
    : list Z * Z :=
  match predicted_sls with
  | [] => ([], 0)
  | _ :: _ =>
      let sl_cap :=
        _calculate_adaptive_sl_cap cfg predicted_sls sequence_priorities in
      let optimized_sls := map (fun sl => Z.min sl sl_cap) predicted_sls in
      let optimized_sls := _apply_batch_balancing cfg optimized_sls in
      (optimized_sls, sl_cap)
  end.

End BatchOptimizer.

(* ===================================================================== *)
(** * utils.py                                                             *)
(* ===================================================================== *)

Module DSDecodeResult.

Record t : Type := Build {
  sequence_id : string;
  generated_text : string;
  tokens_generated : Z;
  tokens_accepted : Z;
  speculation_rounds : Z;
  total_time : Q;
  average_sl : Q;
  final_metrics : option SpeculationLengthAdapter.stats
}.

(** [acceptance_rate] *)
Definition acceptance_rate (self : t) : Q :=
  (inject_Z (tokens_accepted self)
   / inject_Z (Z.max (tokens_generated self) 1))%Q.

(** [tokens_per_second] *)
Definition tokens_per_second (self : t) : Q :=
  (inject_Z (tokens_generated self) / Py.max (total_time self) (1 # 1000))%Q.

(** [speedup_estimate] *)
Definition speedup_estimate (self : t) : Q :=
  let theoretical_time := (inject_Z (tokens_generated self) * (1 # 10))%Q in
  (theoretical_time / Py.max (total_time self) (1 # 1000))%Q.

End DSDecodeResult.

Module SpeculationRoundMetrics.

Record t : Type := Build {
  round_id : Z;
  sequence_count : Z;
  speculation_lengths : list Z;
  accepted_tokens : list Z;
  processing_time : Q
}.

(** [average_acceptance_rate] *)
Definition average_acceptance_rate (self : t) : Q :=
  match speculation_lengths self, accepted_tokens self with
  | [], _ | _, [] => 0%Q
  | _, _ =>
      let total_speculated := fold_left Z.add (speculation_lengths self) 0 in
      let total_accepted := fold_left Z.add (accepted_tokens self) 0 in
      (inject_Z total_accepted / inject_Z (Z.max total_speculated 1%Z))%Q
  end.

(** [throughput] *)
Definition throughput (self : t) : Q :=
  let total_tokens := fold_left Z.add (accepted_tokens self) 0 in
  (inject_Z total_tokens / Py.max (processing_time self) (1 # 1000))%Q.

End SpeculationRoundMetrics.

Module PerformanceMetrics.

(** An entry of [sequence_metrics]. *)
Record seq_metrics : Type := SeqMetrics {
  sm_rounds : list Z;
  sm_total_tokens_generated : Z;
  sm_total_tokens_accepted : Z;
  sm_total_processing_time : Q;
  sm_complete : bool
}.

Record system_metrics_t : Type := SystemMetrics {
  total_rounds : Z;
  total_sequences : Z;
  total_tokens_generated : Z;
  total_tokens_accepted : Z;
  total_processing_time : Q
}.

Record t : Type := Build {
  history_size : Z;
  round_metrics : Py.deque SpeculationRoundMetrics.t;
  round_counter : Z;
  sequence_metrics : gmap string seq_metrics;
  system_metrics : system_metrics_t;
  recent_throughput : Py.deque Q;
  recent_acceptance_rates : Py.deque Q;
  recent_speculation_lengths : Py.deque Z
}.

(** [__init__] *)
Definition init (history_size : Z) : Py.res t :=
  d <- Py.deque_new history_size ;;
  Py.Ok (Build history_size d 0 ∅ (SystemMetrics 0 0 0 0 0)
           (Py.Deque [] 50) (Py.Deque [] 50) (Py.Deque [] 50)).

(** [update_round_metrics]; [None] is the default of an optional list. *)
Definition update_round_metrics (self : t) (sequence_count : Z)
    (processing_time : Q)
    (speculation_lengths accepted_tokens : option (list Z)) : t :=
  let round_counter := round_counter self + 1 in
  let rm := SpeculationRoundMetrics.Build round_counter sequence_count
              (default [] speculation_lengths) (default [] accepted_tokens)
              processing_time in
  let sys := system_metrics self in
  let generated :=
    match speculation_lengths with
    | Some ((_ :: _) as l) => total_tokens_generated sys + fold_left Z.add l 0
    | _ => total_tokens_generated sys
    end in
  let recent_sls :=
    match speculation_lengths with
    | Some ((_ :: _) as l) => Py.extend (recent_speculation_lengths self) l
    | _ => recent_speculation_lengths self
    end in
  let accepted :=
    match accepted_tokens with
    | Some ((_ :: _) as l) => total_tokens_accepted sys + fold_left Z.add l 0
    | _ => total_tokens_accepted sys
    end in
  Build (history_size self)
    (Py.append (round_metrics self) rm)
    round_counter
    (sequence_metrics self)
    (SystemMetrics (total_rounds sys + 1) (total_sequences sys) generated
       accepted (total_processing_time sys + processing_time)%Q)
    (if Py.Qlt_bool 0 (SpeculationRoundMetrics.throughput rm)
     then Py.append (recent_throughput self)
            (SpeculationRoundMetrics.throughput rm)
     else recent_throughput self)
    (if Py.Qlt_bool 0 (SpeculationRoundMetrics.average_acceptance_rate rm)
     then Py.append (recent_acceptance_rates self)
            (SpeculationRoundMetrics.average_acceptance_rate rm)
     else recent_acceptance_rates self)
    recent_sls.

(** [update_sequence_metrics] *)
Definition update_sequence_metrics (self : t) (sequence_id : string)
    (tokens_generated tokens_accepted : Z) (processing_time : Q)
    (is_complete : bool) : t :=
  let m := default (SeqMetrics [] 0 0 0 false)
             (sequence_metrics self !! sequence_id) in
  let m := SeqMetrics (sm_rounds m)
             (sm_total_tokens_generated m + tokens_generated)
             (sm_total_tokens_accepted m + tokens_accepted)
             (sm_total_processing_time m + processing_time)%Q
             (sm_complete m || is_complete) in
  let sys := system_metrics self in
  Build (history_size self) (round_metrics self) (round_counter self)
    (<[sequence_id := m]> (sequence_metrics self))
    (if is_complete
     then SystemMetrics (total_rounds sys) (total_sequences sys + 1)
            (total_tokens_generated sys) (total_tokens_accepted sys)
            (total_processing_time sys)
     else sys)
    (recent_throughput self) (recent_acceptance_rates self)
    (recent_speculation_lengths self).

(** [reset] *)
Definition reset (self : t) : t :=
  Build (history_size self)
    (Py.clear (round_metrics self))
    0
    ∅
    (SystemMetrics 0 0 0 0 0)
    (Py.clear (recent_throughput self))
    (Py.clear (recent_acceptance_rates self))
    (Py.clear (recent_speculation_lengths self)).

End PerformanceMetrics.

(** The [BatchOptimizer] of [utils.py], with its bounds 1 and 8 written
    into the code. *)
Module UtilsBatchOptimizer.

Record batch_record : Type := BatchRecord {
  original_sls : list Z;
  optimized_sls : list Z;
  sl_cap : Z;
  variance_reduction : Q
}.

Record t : Type := Build {
  straggler_threshold : Q;
  batch_history : Py.deque batch_record
}.

Definition init (straggler_threshold : Q) : t :=
  Build straggler_threshold (Py.Deque [] 100).

(** [optimize_batch_speculation_lengths] *)
Definition optimize_batch_speculation_lengths (self : t)
    (predicted_sls : list Z) (priorities : option (list Q))
    : (list Z * Z) * t :=
  match predicted_sls with
  | [] => (([], 0), self)
  | _ :: _ =>
      let sl_cap :=
        match priorities with
        | Some ((_ :: _) as priorities) =>
            let weighted_sum :=
              Py.sum (zip_with (fun sl p => inject_Z sl * p)%Q
                        predicted_sls priorities) in
            let total_weight := Py.sum priorities in
            (weighted_sum / Py.max total_weight (1 # 100000000))%Q
        | _ =>
            (inject_Z (fold_left Z.add predicted_sls 0%Z)
             / inject_Z (Py.len predicted_sls))%Q
        end in
      let sl_cap := Z.max 1 (Z.min 8 (Py.round sl_cap)) in
      let optimized_sls := map (fun sl => Z.min sl sl_cap) predicted_sls in
      let record :=
        BatchRecord predicted_sls optimized_sls sl_cap
          (np.var (map inject_Z predicted_sls)
           - np.var (map inject_Z optimized_sls))%Q in
      ((optimized_sls, sl_cap),
       Build (straggler_threshold self)
         (Py.append (batch_history self) record))
  end.

End UtilsBatchOptimizer.

(* ===================================================================== *)
(** * core.py                                                              *)
(* ===================================================================== *)

(** A [dict] whose iteration order the code relies on: keys in insertion
    order, each key once. *)
Module odict.

Definition t (V : Type) : Type := list (string * V).

Fixpoint get {V} (d : t V) (k : string) : option V :=
  match d with
  | [] => None
  | (k', v) :: d' => if String.eqb k' k then Some v else get d' k
  end.

(** [d[k] = v]: an existing key keeps its place. *)
Fixpoint set {V} (d : t V) (k : string) (v : V) : t V :=
  match d with
  | [] => [(k, v)]
  | (k', v') :: d' =>
      if String.eqb k' k then (k, v) :: d' else (k', v') :: set d' k v
  end.

(** [del d[k]] *)
Fixpoint del {V} (d : t V) (k : string) : t V :=
  match d with
  | [] => []
  | (k', v') :: d' => if String.eqb k' k then d' else (k', v') :: del d' k
  end.

Definition keys {V} (d : t V) : list string := map fst d.

End odict.

(** A sequence dictionary: ['id'], ['prompt'], ['max_tokens'], each key
    possibly missing. *)
Record Sequence : Type := {
  seq_id : option string;
  seq_prompt : option string;
  seq_max_tokens : option Z
}.

(** The [DynamicScheduler] of [utils.py].  [resource_allocation] is
    written once by [__init__] and never read; it is left out. *)
Module DynamicScheduler.

Record t : Type := Build {
  active_sequences : gmap string (string * gmap string pyval);
  sequence_priorities : gmap string Q
}.

Definition init : t := Build ∅ ∅.

(** [_calculate_priority] *)
Definition _calculate_priority (sequence : Sequence) : Q :=
  let priority := (5 # 10)%Q in
  let prompt_length :=
    Z.of_nat (String.length (default ""%string (seq_prompt sequence))) in
  let priority :=
    if prompt_length <? 100 then (priority + (1 # 10))%Q
    else if 1000 <? prompt_length then (priority - (1 # 10))%Q
    else priority in
  let max_tokens := default 100 (seq_max_tokens sequence) in
  let priority :=
    if max_tokens <? 50 then (priority + (1 # 10))%Q
    else if 500 <? max_tokens then (priority - (1 # 10))%Q
    else priority in
  Py.max 0 (Py.min 1 priority).

(** The loop of [schedule_sequences] that assigns the priorities; a
    sequence without ['id'] raises after the earlier ones were written. *)
Fixpoint assign_priorities (self : t) (sequences : list Sequence)
    : Py.res unit * t :=
  match sequences with
  | [] => (Py.Ok tt, self)
  | seq :: rest =>
      match seq_id seq with
      | None => (Py.Raise (Py.KeyError "id"), self)
      | Some id =>
          assign_priorities
            (Build (active_sequences self)
               (<[id := _calculate_priority seq]> (sequence_priorities self)))
            rest
      end
  end.

(** The sort key [self.sequence_priorities.get(s['id'], 0.5)]; the loop
    has read ['id'] of every sequence before. *)
Definition priority_key (self : t) (s : Sequence) : Q :=
  match seq_id s with
  | Some id => default (5 # 10)%Q (sequence_priorities self !! id)
  | None => (5 # 10)%Q
  end.

(** [schedule_sequences] *)
Definition schedule_sequences (self : t) (sequences : list Sequence)
    : Py.res (list Sequence) * t :=
  match assign_priorities self sequences with
  | (Py.Raise e, self) => (Py.Raise e, self)
  | (Py.Ok _, self) =>
      (Py.Ok (Py.sorted_reverse (priority_key self) sequences), self)
  end.

(** [update_sequence_status] *)
Definition update_sequence_status (self : t) (sequence_id status : string)
    (metrics : option (gmap string pyval)) : t :=
  Build (<[sequence_id := (status, default ∅ metrics)]> (active_sequences self))
    (sequence_priorities self).

End DynamicScheduler.

(** The entries of [draft_results] and [verification_results]. *)
Record draft_result `{Torch} : Type := DraftResult {
  dr_tokens : list string;
  dr_logits : list tensor;
  dr_speculation_length : Z
}.

Record verification_result `{Torch} : Type := VerificationResult {
  vr_accepted_tokens : Z;
  vr_target_logits : list tensor;
  vr_accepted_text : string;
  vr_is_complete : option bool
}.

Arguments DraftResult {_} _ _ _.
Arguments VerificationResult {_} _ _ _ _.

(** The draft and target models and the other sources of values that the
    controller does not compute: [_simulate_draft_generation] and
    [_simulate_target_verification] stand in the source for the calls of
    the two models ("in a real implementation, this would be replaced with
    actual model calls") and may raise; [randn_list n] is
    [[torch.randn(50000) for _ in range(n)]]; [elapsed] is a difference of
    two readings of the clock.  Each call advances an abstract [world]. *)
Class Models `{Torch} : Type := {
  world : Type;
  _simulate_draft_generation :
    world -> Sequence -> Z -> Py.res (list string) * world;
  _simulate_target_verification :
    world -> Sequence -> draft_result -> Py.res verification_result * world;
  randn_list : world -> nat -> list tensor * world;
  elapsed : world -> Q * world
}.

Record DSDecodeConfig : Type := {
  max_new_tokens : Z;
  enable_dynamic_sl : bool;
  enable_batch_optimization : bool;
  enable_performance_monitoring : bool;
  signal_config : SignalConfig;
  adapter_config : AdapterConfig;
  debug_mode : bool
}.

Definition default_DSDecodeConfig : DSDecodeConfig := {|
  max_new_tokens := 512;
  enable_dynamic_sl := true;
  enable_batch_optimization := true;
  enable_performance_monitoring := true;
  signal_config := default_SignalConfig;
  adapter_config := default_AdapterConfig;
  debug_mode := false
|}.

Module DSDecoder.

Record global_stats_t : Type := GlobalStats {
  total_sequences_processed : Z;
  total_tokens_generated : Z;
  total_tokens_accepted : Z;
  total_speculation_rounds : Z;
  average_speedup : Q
}.

Record t : Type := Build {
  config : DSDecodeConfig;
  signal_processor : CombinedSignalProcessor.t;
  sl_adapter : SpeculationLengthAdapter.t;
  batch_optimizer : AdapterConfig;
  performance_metrics : PerformanceMetrics.t;
  active_sequences : odict.t Sequence;
  global_stats : global_stats_t;
  recent_performance : Py.deque Q
}.

(** [__init__] *)
Definition init (cfg : DSDecodeConfig) : Py.res t :=
  sp <- CombinedSignalProcessor.init (signal_config cfg) ;;
  ad <- SpeculationLengthAdapter.init (adapter_config cfg) (signal_config cfg) ;;
  pm <- PerformanceMetrics.init 1000 ;;
  Py.Ok (Build cfg sp ad (adapter_config cfg) pm [] (GlobalStats 0 0 0 0 0)
           (Py.Deque [] 100)).

Definition with_sl_adapter (self : t) (a : SpeculationLengthAdapter.t) : t :=
  Build (config self) (signal_processor self) a (batch_optimizer self)
    (performance_metrics self) (active_sequences self) (global_stats self)
    (recent_performance self).

Definition with_signal_processor (self : t)
    (sp : CombinedSignalProcessor.t) : t :=
  Build (config self) sp (sl_adapter self) (batch_optimizer self)
    (performance_metrics self) (active_sequences self) (global_stats self)
    (recent_performance self).

Definition with_performance_metrics (self : t)
    (pm : PerformanceMetrics.t) : t :=
  Build (config self) (signal_processor self) (sl_adapter self)
    (batch_optimizer self) pm (active_sequences self) (global_stats self)
    (recent_performance self).

Definition with_global_stats (self : t) (g : global_stats_t) : t :=
  Build (config self) (signal_processor self) (sl_adapter self)
    (batch_optimizer self) (performance_metrics self)
    (active_sequences self) g (recent_performance self).

(** The per-sequence dictionary of a round.  A key that a branch of the
    source does not write is [None]. *)
Record round_result `{Torch} : Type := RoundResult {
  new_text : string;
  rr_tokens_generated : Z;
  rr_tokens_accepted : Z;
  rr_acceptance_rate : option Q;
  rr_speculation_length : option Z;
  rr_signal_metrics : option (option CombinedSignalProcessor.step_results);
  is_complete : bool;
  error : option string
}.
Arguments RoundResult {_} _ _ _ _ _ _ _ _.

(** [context_info.get(seq_id, {}) if context_info else {}] *)
Definition seq_context (context_info : option (gmap string (gmap string pyval)))
    (seq_id : string) : gmap string pyval :=
  match context_info with
  | Some c => if decide (c = ∅) then ∅ else default ∅ (c !! seq_id)
  | None => ∅
  end.

(** [_predict_batch_speculation_lengths] *)
Fixpoint _predict_batch_speculation_lengths (self : t)
    (sequence_ids : list string)
    (context_info : option (gmap string (gmap string pyval)))
    : list Z * t :=
  match sequence_ids with
  | [] => ([], self)
  | seq_id :: rest =>
      let '(r, a) :=
        SpeculationLengthAdapter.predict_optimal_sl (sl_adapter self) seq_id
          (Some (seq_context context_info seq_id)) in
      let sl :=
        match r with
        | Py.Ok predicted_sl => predicted_sl
        | Py.Raise _ =>
            default_speculation_length (adapter_config (config self))
        end in
      let '(sls, self) :=
        _predict_batch_speculation_lengths (with_sl_adapter self a) rest
          context_info in
      (sl :: sls, self)
  end.

Section WithModels.
Context `{Models}.

(** [speculation_lengths[i] if i < len(speculation_lengths) else 4] *)
Definition sl_at (speculation_lengths : list Z) (i : nat) : Z :=
  default 4 (speculation_lengths !! i).

(** The loop of [_generate_draft_tokens], from index [i] on. *)
Fixpoint _generate_draft_tokens_from (w : world)
    (active_sequences : odict.t Sequence) (speculation_lengths : list Z)
    (i : nat) (sequence_ids : list string)
    (draft_results : odict.t draft_result)
    : odict.t draft_result * world :=
  match sequence_ids with
  | [] => (draft_results, w)
  | seq_id :: rest =>
      let sl := sl_at speculation_lengths i in
      let '(r, w) :=
        match odict.get active_sequences seq_id with
        | None => (Py.Raise (Py.KeyError seq_id), w)
        | Some sequence =>
            let '(toks, w) := _simulate_draft_generation w sequence sl in
            match toks with
            | Py.Raise e => (Py.Raise e, w)
            | Py.Ok draft_tokens =>
                let '(logits, w) := randn_list w (length draft_tokens) in
                (Py.Ok (DraftResult draft_tokens logits sl), w)
            end
        end in
      let entry :=
        match r with
        | Py.Ok d => d
        | Py.Raise _ => DraftResult [] [] 1
        end in
      _generate_draft_tokens_from w active_sequences speculation_lengths
        (S i) rest (odict.set draft_results seq_id entry)
  end.

(** [_generate_draft_tokens] *)
Definition _generate_draft_tokens (w : world)
    (active_sequences : odict.t Sequence) (speculation_lengths : list Z)
    : odict.t draft_result * world :=
  _generate_draft_tokens_from w active_sequences speculation_lengths 0%nat
    (odict.keys active_sequences) [].

(** The loop of [_verify_with_target] over the items of
    [draft_results]. *)
Fixpoint _verify_with_target_from (w : world)
    (active_sequences : odict.t Sequence)
    (items : list (string * draft_result))
    (verification_results : odict.t verification_result)
    : odict.t verification_result * world :=
  match items with
  | [] => (verification_results, w)
  | (seq_id, draft) :: rest =>
      let '(r, w) :=
        match odict.get active_sequences seq_id with
        | None => (Py.Raise (Py.KeyError seq_id), w)
        | Some sequence => _simulate_target_verification w sequence draft
        end in
      let entry :=
        match r with
        | Py.Ok v => v
        | Py.Raise _ => VerificationResult 0 [] "" None
        end in
      _verify_with_target_from w active_sequences rest
        (odict.set verification_results seq_id entry)
  end.

(** [_verify_with_target] *)
Definition _verify_with_target (w : world)
    (active_sequences : odict.t Sequence)
    (draft_results : odict.t draft_result)
    : odict.t verification_result * world :=
  _verify_with_target_from w active_sequences draft_results [].

(** [_process_verification_result] *)
Definition _process_verification_result (self : t) (sequence_id : string)
    (draft : draft_result) (verification : verification_result)
    (speculation_length : Z) : round_result * t :=
  let draft_logits := dr_logits draft in
  let target_logits := vr_target_logits verification in
  let accepted_tokens := vr_accepted_tokens verification in
  let total_tokens := Py.len (dr_tokens draft) in
  let body : Py.res (round_result * t) :=
    step <-
      match draft_logits, target_logits with
      | _ :: _, _ :: _ =>
          r <- CombinedSignalProcessor.process_verification_step
                 (signal_processor self) sequence_id draft_logits
                 target_logits accepted_tokens ;;
          Py.Ok (with_signal_processor self (fst r), Some (snd r))
      | _, _ => Py.Ok (self, None)
      end ;;
    let '(self, signal_results) := step in
    let a := SpeculationLengthAdapter.update_performance (sl_adapter self)
               sequence_id speculation_length accepted_tokens
               total_tokens in
    Py.Ok (RoundResult (vr_accepted_text verification) total_tokens
             accepted_tokens
             (Some (inject_Z accepted_tokens
                    / inject_Z (Z.max total_tokens 1))%Q)
             (Some speculation_length) (Some signal_results)
             (default false (vr_is_complete verification)) None,
           with_sl_adapter self a) in
  match body with
  | Py.Ok r => r
  | Py.Raise e =>
      (RoundResult "" 0 0 (Some 0%Q) (Some speculation_length) (Some None)
         false (Some (Py.str_exn e)),
       self)
  end.

(** The result that the round-level handler of
    [_perform_speculation_round] writes for every sequence. *)
Definition empty_round_result (e : Py.exn) : round_result :=
  RoundResult "" 0 0 None None None false (Some (Py.str_exn e)).

(** The loop [for i, seq_id in enumerate(sequence_ids)] of
    [_perform_speculation_round], from index [i] on. *)
Fixpoint process_round_from (self : t)
    (draft_results : odict.t draft_result)
    (verification_results : odict.t verification_result)
    (speculation_lengths : list Z) (i : nat) (sequence_ids : list string)
    (results : odict.t round_result) : odict.t round_result * t :=
  match sequence_ids with
  | [] => (results, self)
  | seq_id :: rest =>
      let '(results, self) :=
        match odict.get draft_results seq_id,
              odict.get verification_results seq_id with
        | Some draft, Some verification =>
            let '(result, self) :=
              _process_verification_result self seq_id draft verification
                (sl_at speculation_lengths i) in
            (odict.set results seq_id result, self)
        | _, _ => (results, self)
        end in
      process_round_from self draft_results verification_results
        speculation_lengths (S i) rest results
  end.

(** [_perform_speculation_round].  No step of the [try] block raises
    in this model (each callee catches its own exceptions); the handler
    is kept as the source has it. *)
Definition _perform_speculation_round (self : t) (w : world)
    (active_sequences : odict.t Sequence) (speculation_lengths : list Z)
    : Py.res (odict.t round_result * t * world) :=
  let results : odict.t round_result := [] in
  let sequence_ids := odict.keys active_sequences in
  Py.try_except
    (let '(draft_results, w) :=
       _generate_draft_tokens w active_sequences speculation_lengths in
     let '(verification_results, w) :=
       _verify_with_target w active_sequences draft_results in
     let '(results, self) :=
       process_round_from self draft_results verification_results
         speculation_lengths 0%nat sequence_ids results in
     let '(round_time, w) := elapsed w in
     let pm :=
       PerformanceMetrics.update_round_metrics (performance_metrics self)
         (Py.len sequence_ids) round_time None None in
     Py.Ok (results, with_performance_metrics self pm, w))
    (fun e =>
       Py.Ok (fold_left
                (fun results seq_id =>
                   odict.set results seq_id (empty_round_result e))
                sequence_ids results,
              self, w)).

(** [_update_global_stats]; the counters are written before the
    running average is divided. *)
Definition _update_global_stats (self : t)
    (results : list DSDecodeResult.t) (batch_time : Q)
    : Py.res unit * t :=
  let total_generated :=
    fold_left Z.add (map DSDecodeResult.tokens_generated results) 0 in
  let total_accepted :=
    fold_left Z.add (map DSDecodeResult.tokens_accepted results) 0 in
  let g := global_stats self in
  let g :=
    GlobalStats (total_sequences_processed g + Py.len results)
      (total_tokens_generated g + total_generated)
      (total_tokens_accepted g + total_accepted)
      (total_speculation_rounds g
       + fold_left Z.add (map DSDecodeResult.speculation_rounds results) 0)
      (average_speedup g) in
  if 0 <? total_generated then
    let theoretical_time := (inject_Z total_generated * (1 # 10))%Q in
    let speedup := (theoretical_time / Py.max batch_time (1 # 1000))%Q in
    let current_avg := average_speedup g in
    let n := total_sequences_processed g in
    if n =? 0 then (Py.Raise Py.ZeroDivisionError, with_global_stats self g)
    else
      (Py.Ok tt,
       with_global_stats self
         (GlobalStats (total_sequences_processed g)
            (total_tokens_generated g) (total_tokens_accepted g)
            (total_speculation_rounds g)
            ((current_avg * inject_Z (n - Py.len results)
              + speedup * inject_Z (Py.len results)) / inject_Z n)%Q))
  else (Py.Ok tt, with_global_stats self g).

(** [{seq['id']: seq for seq in sequences}] *)
Fixpoint index_sequences (sequences : list Sequence)
    (acc : odict.t Sequence) : Py.res (odict.t Sequence) :=
  match sequences with
  | [] => Py.Ok acc
  | seq :: rest =>
      match seq_id seq with
      | None => Py.Raise (Py.KeyError "id")
      | Some id => index_sequences rest (odict.set acc id seq)
      end
  end.

(** The loop [for seq_id, result in round_results.items()] of
    [decode_batch]. *)
Fixpoint accumulate_round (round_results : list (string * round_result))
    (active_sequences : odict.t Sequence)
    (results : odict.t DSDecodeResult.t)
    : Py.res (odict.t Sequence * odict.t DSDecodeResult.t) :=
  match round_results with
  | [] => Py.Ok (active_sequences, results)
  | (seq_id, result) :: rest =>
      let r :=
        default (DSDecodeResult.Build seq_id "" 0 0 0 0 0 None)
          (odict.get results seq_id) in
      let r :=
        DSDecodeResult.Build (DSDecodeResult.sequence_id r)
          (DSDecodeResult.generated_text r ++ new_text result)
          (DSDecodeResult.tokens_generated r + rr_tokens_generated result)
          (DSDecodeResult.tokens_accepted r + rr_tokens_accepted result)
          (DSDecodeResult.speculation_rounds r + 1)
          (DSDecodeResult.total_time r) (DSDecodeResult.average_sl r)
          (DSDecodeResult.final_metrics r) in
      let results := odict.set results seq_id r in
      if is_complete result
      then accumulate_round rest (odict.del active_sequences seq_id) results
      else
        match odict.get active_sequences seq_id with
        | None => Py.Raise (Py.KeyError seq_id)
        | Some sequence =>
            if default 512 (seq_max_tokens sequence)
               <=? rr_tokens_generated result
            then accumulate_round rest (odict.del active_sequences seq_id)
                   results
            else accumulate_round rest active_sequences results
        end
  end.

(** How a call of [decode_batch] ends: it returns, it raises, or the
    [while] loop is still running after [fuel] rounds. *)
Inductive outcome (A : Type) : Type :=
| Returned (a : A)
| Raised (e : Py.exn)
| Running.
Arguments Returned {A} a.
Arguments Raised {A} e.
Arguments Running {A}.

(** The loop [while active_sequences] of [decode_batch]. *)
Fixpoint decode_loop (fuel : nat) (self : t) (w : world)
    (active_sequences : odict.t Sequence)
    (results : odict.t DSDecodeResult.t)
    (context_info : option (gmap string (gmap string pyval)))
    : outcome (odict.t DSDecodeResult.t) * t * world :=
  match active_sequences with
  | [] => (Returned results, self, w)
  | _ :: _ =>
      match fuel with
      | O => (Running, self, w)
      | S fuel =>
          let '(speculation_lengths, self) :=
            _predict_batch_speculation_lengths self
              (odict.keys active_sequences) context_info in
          let optimized_sls :=
            if enable_batch_optimization (config self)
            then fst (BatchOptimizer.optimize_batch_speculation_lengths
                        (batch_optimizer self) speculation_lengths None)
            else speculation_lengths in
          match _perform_speculation_round self w active_sequences
                  optimized_sls with
          | Py.Raise e => (Raised e, self, w)
          | Py.Ok (round_results, self, w) =>
              match accumulate_round round_results active_sequences
                      results with
              | Py.Raise e => (Raised e, self, w)
              | Py.Ok (active_sequences, results) =>
                  decode_loop fuel self w active_sequences results
                    context_info
              end
          end
      end
  end.

(** The loop [for seq_id, result in results.items()] that finalises the
    results of [decode_batch]. *)
Fixpoint finalize (self : t) (batch_time : Q)
    (results : list (string * DSDecodeResult.t))
    : list DSDecodeResult.t * t :=
  match results with
  | [] => ([], self)
  | (seq_id, r) :: rest =>
      let '(stats, a) :=
        SpeculationLengthAdapter.get_sequence_stats (sl_adapter self)
          seq_id in
      let r :=
        DSDecodeResult.Build (DSDecodeResult.sequence_id r)
          (DSDecodeResult.generated_text r)
          (DSDecodeResult.tokens_generated r)
          (DSDecodeResult.tokens_accepted r)
          (DSDecodeResult.speculation_rounds r)
          batch_time
          (inject_Z (DSDecodeResult.tokens_generated r)
           / inject_Z (Z.max (DSDecodeResult.speculation_rounds r) 1))%Q
          (Some stats) in
      let '(final_results, self) :=
        finalize (with_sl_adapter self a) batch_time rest in
      (r :: final_results, self)
  end.

(** [decode_batch]: whatever is raised inside its [try] block is logged
    and raised again. *)
Definition decode_batch (fuel : nat) (self : t) (w : world)
    (sequences : list Sequence)
    (context_info : option (gmap string (gmap string pyval)))
    : outcome (list DSDecodeResult.t) * t * world :=
  match index_sequences sequences [] with
  | Py.Raise e => (Raised e, self, w)
  | Py.Ok active_sequences =>
      match decode_loop fuel self w active_sequences [] context_info with
      | (Returned results, self, w) =>
          let '(batch_time, w) := elapsed w in
          let '(final_results, self) := finalize self batch_time results in
          match _update_global_stats self final_results batch_time with
          | (Py.Ok _, self) => (Returned final_results, self, w)
          | (Py.Raise e, self) => (Raised e, self, w)
          end
      | (Raised e, self, w) => (Raised e, self, w)
      | (Running, self, w) => (Running, self, w)
      end
  end.

End WithModels.

Arguments Returned {A} a.
Arguments Raised {A} e.
Arguments Running {A}.

(** [reset_stats] *)
Definition reset_stats (self : t) : t :=
  let a := sl_adapter self in
  let sp := signal_processor self in
  let k := CombinedSignalProcessor.kld_signal sp in
  Build (config self)
    (CombinedSignalProcessor.Build (CombinedSignalProcessor.config sp)
       (KLDVarianceSignal.Build (KLDVarianceSignal.config k)
          (KLDVarianceSignal.kld_history k) ∅)
       (CombinedSignalProcessor.wvir_calculator sp)
       (EntropySignal.Build ∅))
    (SpeculationLengthAdapter.Build (SpeculationLengthAdapter.config a)
       (SpeculationLengthAdapter.signal_processor a) ∅ ∅)
    (batch_optimizer self)
    (performance_metrics self)
    []
    (GlobalStats 0 0 0 0 0)
    (Py.clear (recent_performance self)).

End DSDecoder.

(** The simulated models of [core.py] as the source writes them.  The
    draws of the random generators are inputs: [noise] is
    [np.random.normal(0, 0.1)], [coin] is [np.random.random()], and
    [randn i] is the [i]-th [torch.randn(50000)].  A string is a string of
    bytes; [lower] maps the ASCII capitals, the only characters that
    [str.lower] turns into letters of ["code"] or ["creative"] next to
    each other. *)
Module Simulation.

Definition lower_char (c : Ascii.ascii) : Ascii.ascii :=
  let n := Ascii.nat_of_ascii c in
  if ((65 <=? n) && (n <=? 90))%nat then Ascii.ascii_of_nat (n + 32) else c.

Fixpoint lower (s : string) : string :=
  match s with
  | EmptyString => EmptyString
  | String c s' => String (lower_char c) (lower s')
  end.

(** [sub in s] *)
Definition contains (sub s : string) : bool :=
  match String.index 0 sub s with
  | Some _ => true
  | None => false
  end.

(** [range(n)] *)
Definition range (n : Z) : list Z := seqZ 0 n.

(** [_simulate_draft_generation] *)
Definition _simulate_draft_generation (sequence : Sequence)
    (speculation_length : Z) : list string :=
  let prompt := default ""%string (seq_prompt sequence) in
  if contains "code" (lower prompt)
  then map (fun i => String.append "token_" (pretty i))
         (range speculation_length)
  else if contains "creative" (lower prompt)
  then map (fun i => String.append "creative_" (pretty i))
         (range (Z.min speculation_length 3))
  else map (fun i => String.append "word_" (pretty i))
         (range speculation_length).

(** [_simulate_target_verification] *)
Definition _simulate_target_verification `{Torch} (noise coin : Q)
    (randn : nat -> tensor) (sequence : Sequence) (draft : draft_result)
    : verification_result :=
  let draft_tokens := dr_tokens draft in
  let prompt := default ""%string (seq_prompt sequence) in
  let acceptance_rate :=
    if contains "code" (lower prompt) then (7 # 10)%Q
    else if contains "creative" (lower prompt) then (4 # 10)%Q
    else (6 # 10)%Q in
  let acceptance_rate := (acceptance_rate + noise)%Q in
  let acceptance_rate := Py.max (1 # 10) (Py.min (9 # 10) acceptance_rate) in
  let accepted_count :=
    Z.max 1 (Py.int (inject_Z (Py.len draft_tokens) * acceptance_rate)%Q) in
  let accepted_tokens := take (Z.to_nat accepted_count) draft_tokens in
  VerificationResult accepted_count
    (map randn (seq 0 (length draft_tokens)))
    (String.concat " " accepted_tokens)
    (Some (Py.Qlt_bool coin (1 # 10))).

End Simulation.

(* ===================================================================== *)
(** * Vocabulary of the properties                                         *)
(* ===================================================================== *)

Section NumericVocabulary.

Local Open Scope Q_scope.

(** Number of KLD samples stored for a sequence; an unknown sequence has
    none. *)
Definition stored_samples (self : KLDVarianceSignal.t) (sequence_id : string)
    : Z :=
  match KLDVarianceSignal.sequence_histories self !! sequence_id with
  | Some d => Py.len (Py.items d)
  | None => 0
  end.

(** A valid configuration: both bounds positive, the lower one first. *)
Definition valid_config (cfg : AdapterConfig) : Prop :=
  (0 < min_speculation_length cfg
   /\ min_speculation_length cfg <= max_speculation_length cfg)%Z.

(** The two numeric context fields hold numbers when they are present. *)
Definition numeric_context (context_info : option (gmap string pyval)) : Prop :=
  forall ctx key v,
    context_info = Some ctx ->
    key = "current_length"%string \/ key = "temperature"%string ->
    ctx !! key = Some v -> exists q, v = PNum q.

(** Step 5 of the pipeline, before the conversion to an integer. *)
Definition clamp_sl (cfg : AdapterConfig) (x : Q) : Q :=
  Py.max (inject_Z (min_speculation_length cfg))
    (Py.min (inject_Z (max_speculation_length cfg)) x).

(** Steps 1 to 4 of [predict_optimal_sl]: the context-adjusted speculation
    length. *)
Definition context_adjusted_sl (self : SpeculationLengthAdapter.t)
    (sequence_id : string) (context_info : option (gmap string pyval))
    : Py.res Q :=
  let metrics :=
    CombinedSignalProcessor.get_sequence_metrics
      (SpeculationLengthAdapter.signal_processor self) sequence_id in
  let self := snd (SpeculationLengthAdapter.sequence_performance_getitem self
                     sequence_id) in
  base_sl <- SpeculationLengthAdapter._predict_from_stability
               (SpeculationLengthAdapter.config self) metrics ;;
  SpeculationLengthAdapter._adjust_for_context
    (fst (SpeculationLengthAdapter._adjust_for_history self sequence_id base_sl))
    context_info.

(** [sum(predicted_sls) / len(predicted_sls)]. *)
Definition int_mean (l : list Z) : Q :=
  inject_Z (fold_left Z.add l 0%Z) / inject_Z (Py.len l).

(** The clamp of the cap to the configured bounds. *)
Definition clamp_cap (cfg : AdapterConfig) (z : Z) : Z :=
  Z.max (min_speculation_length cfg) (Z.min (max_speculation_length cfg) z).

(** What the smoothing pass does to one length: it leaves it, or it pulls
    it towards the mean when the two tests of the source succeed. *)
Definition pulled (cfg : AdapterConfig) (values : list Q) (sl : Z) : Z :=
  Z.max 1 (Z.min (max_speculation_length cfg)
             (Py.round (inject_Z sl + (3 # 10) * (np.mean values - inject_Z sl)))).

(** The value that [_calculate_adaptive_sl_cap] rounds: the plain mean, or
    the priority-weighted one. *)
Definition batch_mean (l : list Z) (priorities : option (list Q)) : Q :=
  match priorities with
  | None => int_mean l
  | Some priorities =>
      Py.sum (zip_with (fun sl priority => inject_Z sl * priority) l priorities)
      / Py.max (Py.sum priorities) (1 # 100000000)
  end.

End NumericVocabulary.

Section StateVocabulary.

Context `{Models}.

(** A deque that respects its bound. *)
Definition within_bound {A : Type} (d : Py.deque A) : Prop :=
  (length (Py.items d) <= Py.maxlen d)%nat.

(** The operations of the signal processor that write to a history; the
    queries leave the object as it is.  An operation that raises leaves
    the object as it was. *)
Inductive signal_op : Type :=
| KldUpdate (sequence_id : string) (kld_values : list Q)
| EntropyUpdate (sequence_id : string) (entropy : Q)
| ProcessStep (sequence_id : string) (draft_logits target_logits : list tensor)
    (accepted_tokens : Z)
| Query (sequence_id : string).

Definition signal_step (self : CombinedSignalProcessor.t) (op : signal_op)
    : CombinedSignalProcessor.t :=
  match op with
  | KldUpdate sequence_id kld_values =>
      match KLDVarianceSignal.update_history
              (CombinedSignalProcessor.kld_signal self) sequence_id kld_values
      with
      | Py.Ok k =>
          CombinedSignalProcessor.Build (CombinedSignalProcessor.config self) k
            (CombinedSignalProcessor.wvir_calculator self)
            (CombinedSignalProcessor.entropy_signal self)
      | Py.Raise _ => self
      end
  | EntropyUpdate sequence_id entropy =>
      CombinedSignalProcessor.Build (CombinedSignalProcessor.config self)
        (CombinedSignalProcessor.kld_signal self)
        (CombinedSignalProcessor.wvir_calculator self)
        (EntropySignal.update_history
           (CombinedSignalProcessor.entropy_signal self) sequence_id entropy)
  | ProcessStep sequence_id draft_logits target_logits accepted_tokens =>
      match CombinedSignalProcessor.process_verification_step self sequence_id
              draft_logits target_logits accepted_tokens with
      | Py.Ok (self', _) => self'
      | Py.Raise _ => self
      end
  | Query sequence_id =>
      let _ := CombinedSignalProcessor.get_sequence_metrics self sequence_id in
      self
  end.

Definition signal_run (ops : list signal_op) (self : CombinedSignalProcessor.t)
    : CombinedSignalProcessor.t :=
  fold_left signal_step ops self.





(** The signal processor from which the adapter reads its metrics. *)
Definition adapter_signals (self : DSDecoder.t) : CombinedSignalProcessor.t :=
  SpeculationLengthAdapter.signal_processor (DSDecoder.sl_adapter self).






End StateVocabulary.

Section SignalVocabulary.

Local Open Scope Q_scope.

(** Every stored KLD sample and every stored entropy sample is
    non-negative. *)
Definition nonneg_histories (self : CombinedSignalProcessor.t) : Prop :=
  (forall sequence_id d,
     KLDVarianceSignal.sequence_histories
       (CombinedSignalProcessor.kld_signal self) !! sequence_id = Some d ->
     Forall (fun x => 0 <= x) (Py.items d))
  /\ (forall sequence_id d,
        EntropySignal.entropy_history
          (CombinedSignalProcessor.entropy_signal self) !! sequence_id = Some d ->
        Forall (fun x => 0 <= x) (Py.items d)).

End SignalVocabulary.

Section AdapterVocabulary.

Local Open Scope Q_scope.

(** The calls on an adapter that change it. *)
Inductive adapter_op : Type :=
| Predict (sequence_id : string) (context_info : option (gmap string pyval))
| UpdatePerformance (sequence_id : string)
    (speculation_length accepted_tokens total_tokens : Z)
| GetStats (sequence_id : string).

Definition adapter_step (a : SpeculationLengthAdapter.t) (op : adapter_op)
    : SpeculationLengthAdapter.t :=
  match op with
  | Predict sequence_id context_info =>
      snd (SpeculationLengthAdapter.predict_optimal_sl a sequence_id
             context_info)
  | UpdatePerformance sequence_id sl accepted total =>
      SpeculationLengthAdapter.update_performance a sequence_id sl accepted
        total
  | GetStats sequence_id =>
      snd (SpeculationLengthAdapter.get_sequence_stats a sequence_id)
  end.

Definition adapter_run (ops : list adapter_op) (a : SpeculationLengthAdapter.t)
    : SpeculationLengthAdapter.t :=
  fold_left adapter_step ops a.

(** The sequence that a call is about. *)
Definition op_sequence (op : adapter_op) : string :=
  match op with
  | Predict sequence_id _ => sequence_id
  | UpdatePerformance sequence_id _ _ _ => sequence_id
  | GetStats sequence_id => sequence_id
  end.

(** The performance entry of a sequence as the [defaultdict] shows it. *)
Definition perf_of (a : SpeculationLengthAdapter.t) (sequence_id : string)
    : SpeculationLengthAdapter.perf :=
  default SpeculationLengthAdapter.perf_default
    (SpeculationLengthAdapter.sequence_performance a !! sequence_id).

(** Both recent-history deques of every entry have the bound 10 and
    respect it. *)
Definition recent_bounded (a : SpeculationLengthAdapter.t) : Prop :=
  forall sequence_id p,
    SpeculationLengthAdapter.sequence_performance a !! sequence_id = Some p ->
    (within_bound (SpeculationLengthAdapter.recent_acceptance_rates p)
     /\ Py.maxlen (SpeculationLengthAdapter.recent_acceptance_rates p) = 10%nat)
    /\ (within_bound (SpeculationLengthAdapter.recent_speculation_lengths p)
        /\ Py.maxlen (SpeculationLengthAdapter.recent_speculation_lengths p)
           = 10%nat).

(** Repeated [update_performance] for one sequence, a round being
    [(speculation_length, accepted_tokens, total_tokens)]. *)
Definition record_rounds (a : SpeculationLengthAdapter.t) (sequence_id : string)
    (rounds : list (Z * Z * Z)) : SpeculationLengthAdapter.t :=
  fold_left
    (fun a round =>
       SpeculationLengthAdapter.update_performance a sequence_id
         (fst (fst round)) (snd (fst round)) (snd round))
    rounds a.

(** An entry whose recorded rates lie in [0, 1] and whose accepted total
    lies between 0 and the generated total. *)
Definition sane_perf (p : SpeculationLengthAdapter.perf) : Prop :=
  Forall (fun r => 0 <= r <= 1)
    (Py.items (SpeculationLengthAdapter.recent_acceptance_rates p))
  /\ (0 <= SpeculationLengthAdapter.total_tokens_accepted p
      <= SpeculationLengthAdapter.total_tokens_generated p)%Z.

(** The factor by which [_adjust_for_history] multiplies the base, for a
    mean [recent_acceptance] of the recent acceptance rates. *)
Definition history_factor (cfg : AdapterConfig) (recent_acceptance : Q) : Q :=
  let adjustment :=
    if Py.Qlt_bool (target_acceptance_rate cfg) recent_acceptance
    then 1 + (recent_acceptance - target_acceptance_rate cfg) * 2
    else if Py.Qlt_bool recent_acceptance (min_acceptance_rate cfg)
    then (5 # 10) + (recent_acceptance / min_acceptance_rate cfg) * (5 # 10)
    else 1 + (recent_acceptance - target_acceptance_rate cfg) * (5 # 10) in
  history_weight cfg * adjustment + (1 - history_weight cfg) * 1.

End AdapterVocabulary.

Section UtilsVocabulary.

Local Open Scope Q_scope.

(** The cap applied to a rational point. *)
Definition capped_point (c : Z) (m : Q) : Q :=
  if Qle_bool m (inject_Z c) then m else inject_Z c.

(** The calls that change a [PerformanceMetrics] object. *)
Inductive metrics_op : Type :=
| UpdateRound (sequence_count : Z) (processing_time : Q)
    (speculation_lengths accepted_tokens : option (list Z))
| UpdateSequence (sequence_id : string) (tokens_generated tokens_accepted : Z)
    (processing_time : Q) (is_complete : bool)
| ResetMetrics.

Definition metrics_step (pm : PerformanceMetrics.t) (op : metrics_op)
    : PerformanceMetrics.t :=
  match op with
  | UpdateRound sequence_count processing_time speculation_lengths
      accepted_tokens =>
      PerformanceMetrics.update_round_metrics pm sequence_count
        processing_time speculation_lengths accepted_tokens
  | UpdateSequence sequence_id tokens_generated tokens_accepted
      processing_time is_complete =>
      PerformanceMetrics.update_sequence_metrics pm sequence_id
        tokens_generated tokens_accepted processing_time is_complete
  | ResetMetrics => PerformanceMetrics.reset pm
  end.

Definition metrics_run (ops : list metrics_op) (pm : PerformanceMetrics.t)
    : PerformanceMetrics.t :=
  fold_left metrics_step ops pm.

(** The ids of the stored rounds, oldest first. *)
Definition stored_round_ids (pm : PerformanceMetrics.t) : list Z :=
  map SpeculationRoundMetrics.round_id
    (Py.items (PerformanceMetrics.round_metrics pm)).

(** A window of the trend analysis: at most 50 items. *)
Definition window_bounded {A} (d : Py.deque A) : Prop :=
  Py.maxlen d = 50%nat /\ within_bound d.

(** What a [PerformanceMetrics] object of history size [hs] keeps true:
    the round counter is the system total of rounds; the stored rounds
    are the last [min(counter, hs)] ones, with the consecutive ids that
    end at the counter; the three windows hold at most 50 items, and the
    throughput and acceptance windows only positive ones. *)
Definition metrics_invariant (hs : Z) (pm : PerformanceMetrics.t) : Prop :=
  (PerformanceMetrics.history_size pm = hs
   /\ Py.maxlen (PerformanceMetrics.round_metrics pm) = Z.to_nat hs)
  /\ (PerformanceMetrics.round_counter pm
      = PerformanceMetrics.total_rounds (PerformanceMetrics.system_metrics pm)
      /\ (0 <= PerformanceMetrics.round_counter pm)%Z)
  /\ (Py.len (stored_round_ids pm)
      = Z.min (PerformanceMetrics.round_counter pm) hs
      /\ stored_round_ids pm
         = seqZ (PerformanceMetrics.round_counter pm
                 - Py.len (stored_round_ids pm) + 1)
             (Py.len (stored_round_ids pm)))
  /\ (window_bounded (PerformanceMetrics.recent_throughput pm)
      /\ Forall (fun x => 0 < x)
           (Py.items (PerformanceMetrics.recent_throughput pm)))
  /\ (window_bounded (PerformanceMetrics.recent_acceptance_rates pm)
      /\ Forall (fun x => 0 < x)
           (Py.items (PerformanceMetrics.recent_acceptance_rates pm)))
  /\ window_bounded (PerformanceMetrics.recent_speculation_lengths pm).

End UtilsVocabulary.

Section DecodeVocabulary.

(** What the loop of [decode_batch] keeps true of the sequences still
    active and the results gathered so far, [ids] being the ids of the
    batch: every id of the batch is still active or has a result; only
    ids of the batch are active; every result stands under an id of the
    batch, carries this id, and counts at least one round; no id has two
    results. *)
Definition decode_invariant (ids : list string)
    (active_sequences : odict.t Sequence)
    (results : odict.t DSDecodeResult.t) : Prop :=
  (forall id, In id ids ->
     is_Some (odict.get active_sequences id)
     \/ is_Some (odict.get results id))
  /\ (forall id, is_Some (odict.get active_sequences id) -> In id ids)
  /\ Forall (fun kr => In (fst kr) ids
                       /\ DSDecodeResult.sequence_id (snd kr) = fst kr
                       /\ 1 <= DSDecodeResult.speculation_rounds (snd kr))
       results
  /\ NoDup (odict.keys results).

End DecodeVocabulary.

(* ===================================================================== *)
(** * Concrete configurations, models and objects                          *)
(* ===================================================================== *)

(** One number stands for a tensor. *)
Definition scalar_torch : Torch := {|
  tensor := Q;
  kl_div_sum := fun d t => Py.Ok (t - d)%Q;
  plogp_sum := fun l => Py.Ok l
|}.

Definition scalars (l : list Q) : list (@tensor scalar_torch) := l.

(** Models of which the draft model fails on the sequence ["bad"] and
    proposes as many tokens as it is asked for on every other sequence; the
    target model accepts every token and reports completion, unless there
    is no token. *)
Definition failing_draft_models : @Models scalar_torch := {|
  world := unit;
  _simulate_draft_generation := fun w sequence sl =>
    (if decide (seq_id sequence = Some "bad"%string)
     then Py.Raise (Py.RuntimeError "draft model unavailable")
     else Py.Ok (repeat "word"%string (Z.to_nat sl)), w);
  _simulate_target_verification := fun w sequence draft =>
    (Py.Ok (match dr_tokens draft with
            | [] => VerificationResult 0 [] "" (Some false)
            | _ :: _ =>
                VerificationResult (Py.len (dr_tokens draft)) (dr_logits draft)
                  "word" (Some true)
            end), w);
  randn_list := fun w n => (scalars (repeat 0%Q n), w);
  elapsed := fun w => (1%Q, w)
|}.

(** The objects that the constructors build from the default
    configurations. *)
Definition fresh_processor : CombinedSignalProcessor.t :=
  CombinedSignalProcessor.Build default_SignalConfig
    (KLDVarianceSignal.Build default_SignalConfig (Py.Deque [] 12) ∅)
    default_SignalConfig (EntropySignal.Build ∅).

Definition fresh_adapter : SpeculationLengthAdapter.t :=
  SpeculationLengthAdapter.Build default_AdapterConfig fresh_processor ∅ ∅.

Definition fresh_decoder : DSDecoder.t :=
  DSDecoder.Build default_DSDecodeConfig fresh_processor fresh_adapter
    default_AdapterConfig
    (PerformanceMetrics.Build 1000 (Py.Deque [] 1000) 0 ∅
       (PerformanceMetrics.SystemMetrics 0 0 0 0 0)
       (Py.Deque [] 50) (Py.Deque [] 50) (Py.Deque [] 50))
    [] (DSDecoder.GlobalStats 0 0 0 0 0) (Py.Deque [] 100).

(** [{'task_type': 'code_generation'}] *)
Definition code_context : gmap string pyval :=
  {[ "task_type"%string := PStr "code_generation" ]}.

(** The default configuration with [straggler_tolerance=0.5]. *)
Definition tight_tolerance_config : AdapterConfig := {|
  min_speculation_length := 1;
  max_speculation_length := 8;
  default_speculation_length := 4;
  stability_threshold_high := 7 # 10;
  stability_threshold_low := 3 # 10;
  wvir_threshold_stable := 1;
  wvir_threshold_unstable := 3;
  adaptation_rate := 2 # 10;
  history_weight := 8 # 10;
  min_acceptance_rate := 3 # 10;
  target_acceptance_rate := 7 # 10;
  enable_batch_capping := true;
  straggler_tolerance := 1 # 2
|}.


Definition seq_bad : Sequence :=
  {| seq_id := Some "bad"%string; seq_prompt := Some "write code"%string;
     seq_max_tokens := Some 16 |}.

Definition seq_ok : Sequence :=
  {| seq_id := Some "ok"%string; seq_prompt := Some "hello"%string;
     seq_max_tokens := Some 16 |}.

Definition seq_anonymous : Sequence :=
  {| seq_id := None; seq_prompt := Some "hello"%string;
     seq_max_tokens := Some 16 |}.

(** A controller that has predicted for, and recorded a round of, the
    sequence ["ok"]. *)
Definition used_decoder : DSDecoder.t :=
  snd (@DSDecoder._process_verification_result scalar_torch
         (DSDecoder.with_sl_adapter fresh_decoder
            (snd (SpeculationLengthAdapter.predict_optimal_sl fresh_adapter
                    "ok" (Some code_context))))
         "ok"
         (DraftResult ["a"; "b"; "c"; "d"]%string (scalars [1; 2; 3; 4]%Q) 4)
         (VerificationResult 4 (scalars [1; 3; 2; 5]%Q) "a b c d" (Some false))
         4).

(** A controller into whose adapter-owned signal processor four KLD
    samples of the sequence ["ok"] were written from outside: no method of
    the controller or of the adapter produces such a state. *)
Definition stale_adapter_decoder : DSDecoder.t :=
  DSDecoder.with_sl_adapter fresh_decoder
    (SpeculationLengthAdapter.Build default_AdapterConfig
       (CombinedSignalProcessor.Build default_SignalConfig
          (KLDVarianceSignal.Build default_SignalConfig (Py.Deque [] 12)
             {[ "ok"%string := Py.Deque [0; 0; 0; 0]%Q 12 ]})
          default_SignalConfig (EntropySignal.Build ∅))
       ∅ ∅).

(* ===================================================================== *)
(** * Properties of the primitives                                         *)
(* ===================================================================== *)

Section PyFacts.

Local Open Scope Q_scope.

Lemma Qlt_bool_true (a b : Q) : Py.Qlt_bool a b = true <-> a < b.
Proof.
  unfold Py.Qlt_bool. rewrite negb_true_iff.
  destruct (Qle_bool b a) eqn:E.
  - apply Qle_bool_iff in E. split; [discriminate | intros L; lra].
  - split; [intros _ | reflexivity].
    apply Qnot_le_lt. intros L. apply Qle_bool_iff in L. congruence.
Qed.

Lemma Qlt_bool_false (a b : Q) : Py.Qlt_bool a b = false <-> b <= a.
Proof.
  unfold Py.Qlt_bool. rewrite negb_false_iff. apply Qle_bool_iff.
Qed.

Lemma py_max_cases (a b : Q) :
  (Py.max a b = a /\ b <= a) \/ (Py.max a b = b /\ a < b).
Proof.
  unfold Py.max. destruct (Py.Qlt_bool a b) eqn:E.
  - right. split; [reflexivity | now apply Qlt_bool_true].
  - left. split; [reflexivity | now apply Qlt_bool_false].
Qed.

Lemma py_min_cases (a b : Q) :
  (Py.min a b = a /\ a <= b) \/ (Py.min a b = b /\ b < a).
Proof.
  unfold Py.min. destruct (Py.Qlt_bool b a) eqn:E.
  - right. split; [reflexivity | now apply Qlt_bool_true].
  - left. split; [reflexivity | now apply Qlt_bool_false].
Qed.

(** A value clamped by [max(lo, min(hi, x))] lies between the bounds. *)
Lemma py_clamp_bounds (lo hi x : Q) :
  lo <= hi -> lo <= Py.max lo (Py.min hi x) <= hi.
Proof.
  intros L.
  destruct (py_max_cases lo (Py.min hi x)) as [[-> H1] | [-> H1]];
    destruct (py_min_cases hi x) as [[E H2] | [E H2]];
    rewrite ?E in *; lra.
Qed.

(** The clamp written the other way round, [min(hi, max(lo, x))]. *)
Lemma py_clamp_bounds' (lo hi x : Q) :
  lo <= hi -> lo <= Py.min hi (Py.max lo x) <= hi.
Proof.
  intros L.
  destruct (py_min_cases hi (Py.max lo x)) as [[-> H1] | [-> H1]];
    destruct (py_max_cases lo x) as [[E H2] | [E H2]];
    rewrite ?E in *; lra.
Qed.

(** On a non-negative value [int] is the floor. *)
Lemma py_int_floor (x : Q) : 0 <= x -> Py.int x = Qfloor x.
Proof.
  destruct x as [n d]. unfold Qle, Py.int, Qfloor. simpl. intros L.
  apply Z.quot_div_nonneg; lia.
Qed.

Lemma py_round_floor_or_succ (x : Q) :
  Py.round x = Qfloor x \/ Py.round x = (Qfloor x + 1)%Z.
Proof.
  unfold Py.round.
  destruct (Qcompare _ _); [destruct (Z.even _) | |]; auto.
Qed.

(** [round] returns an integer nearest to its argument. *)
Lemma py_round_nearest (x : Q) : Qabs (inject_Z (Py.round x) - x) <= 1 # 2.
Proof.
  pose proof (Qfloor_le x) as Hlo. pose proof (Qlt_floor x) as Hhi.
  rewrite inject_Z_plus in Hhi. change (inject_Z 1) with 1 in Hhi.
  apply Qabs_Qle_condition. unfold Py.round.
  destruct (Qcompare (x - inject_Z (Qfloor x)) (1 # 2)) eqn:E.
  - apply Qeq_alt in E.
    destruct (Z.even _); rewrite ?inject_Z_plus;
      change (inject_Z 1) with 1; split; lra.
  - apply Qlt_alt in E. split; lra.
  - apply Qgt_alt in E. rewrite inject_Z_plus.
    change (inject_Z 1) with 1. split; lra.
Qed.

Lemma py_round_inject (z : Z) : Py.round (inject_Z z) = z.
Proof.
  unfold Py.round. rewrite Qfloor_Z.
  replace (Qcompare _ _) with Lt; [reflexivity |].
  symmetry. apply -> Qlt_alt. lra.
Qed.

(** [round] is monotone. *)
Lemma py_round_mono (x y : Q) : x <= y -> (Py.round x <= Py.round y)%Z.
Proof.
  intros L.
  pose proof (Qfloor_resp_le _ _ L) as F.
  destruct (Z.eq_dec (Qfloor x) (Qfloor y)) as [E | N].
  - unfold Py.round. rewrite E.
    destruct (Qcompare (x - inject_Z (Qfloor y)) (1 # 2)) eqn:Ex;
      destruct (Qcompare (y - inject_Z (Qfloor y)) (1 # 2)) eqn:Ey;
      try destruct (Z.even _); try lia;
      rewrite <- ?Qeq_alt, <- ?Qlt_alt, <- ?Qgt_alt in *; lra.
  - destruct (py_round_floor_or_succ x) as [-> | ->];
      destruct (py_round_floor_or_succ y) as [-> | ->]; lia.
Qed.

End PyFacts.

(* ===================================================================== *)
(** * Stability signals ([signals.py])                                     *)
(* ===================================================================== *)

Section SignalFacts.

Local Open Scope Q_scope.

(** C5.  [get_regional_stability] always returns a value of [0, 1], and it
    returns exactly 0.5 for an unknown sequence and for a sequence whose
    stored history has fewer than [min_history_length] samples. *)
Theorem get_regional_stability_range (self : KLDVarianceSignal.t)
    (sequence_id : string) :
  (0 <= KLDVarianceSignal.get_regional_stability self sequence_id <= 1)
  /\ (KLDVarianceSignal.sequence_histories self !! sequence_id = None ->
      KLDVarianceSignal.get_regional_stability self sequence_id = 1 # 2)
  /\ ((stored_samples self sequence_id
       < min_history_length (KLDVarianceSignal.config self))%Z ->
      KLDVarianceSignal.get_regional_stability self sequence_id = 1 # 2).
Proof.
  unfold KLDVarianceSignal.get_regional_stability, stored_samples.
  destruct (KLDVarianceSignal.sequence_histories self !! sequence_id)
    as [d |] eqn:E.
  - repeat split.
    + destruct (_ <? _)%Z; [lra |]. destruct (_ <? _)%Z; [lra |].
      apply (py_clamp_bounds' 0 1). lra.
    + destruct (_ <? _)%Z; [lra |]. destruct (_ <? _)%Z; [lra |].
      apply (py_clamp_bounds' 0 1). lra.
    + discriminate.
    + intros L. apply Z.ltb_lt in L. now rewrite L.
  - repeat split; lra.
Qed.



End SignalFacts.

(* ===================================================================== *)
(** * Bounded histories of the signal processor                            *)
(* ===================================================================== *)

Section DequeFacts.

Context {A : Type}.

Lemma append_maxlen (d : Py.deque A) (x : A) :
  Py.maxlen (Py.append d x) = Py.maxlen d.
Proof. reflexivity. Qed.

Lemma append_within_bound (d : Py.deque A) (x : A) :
  within_bound d -> within_bound (Py.append d x).
Proof.
  unfold within_bound, Py.append. simpl. intros L.
  destruct (Nat.ltb_spec (Py.maxlen d) (length (Py.items d ++ [x]))) as [F | F].
  - rewrite length_drop, length_app in *. simpl in *. lia.
  - exact F.
Qed.

(** Below the bound the new item is simply added at the right. *)
Lemma append_not_full (d : Py.deque A) (x : A) :
  (length (Py.items d) < Py.maxlen d)%nat ->
  Py.items (Py.append d x) = Py.items d ++ [x].
Proof.
  unfold Py.append. simpl. intros L.
  destruct (Nat.ltb_spec (Py.maxlen d) (length (Py.items d ++ [x]))) as [F | F];
    [| reflexivity].
  rewrite length_app in F. simpl in F. lia.
Qed.


Lemma fold_append_maxlen (xs : list A) (d : Py.deque A) :
  Py.maxlen (fold_left Py.append xs d) = Py.maxlen d.
Proof.
  revert d. induction xs as [| x xs IH]; intros d; simpl; [reflexivity |].
  now rewrite IH.
Qed.

Lemma fold_append_within_bound (xs : list A) (d : Py.deque A) :
  within_bound d -> within_bound (fold_left Py.append xs d).
Proof.
  revert d. induction xs as [| x xs IH]; intros d B; simpl; [exact B |].
  apply IH, append_within_bound, B.
Qed.

End DequeFacts.

Section HistoryInvariant.

Context `{Torch}.

Lemma deque_new_spec {A} (n : Z) (d : Py.deque A) :
  Py.deque_new n = Py.Ok d ->
  Py.items d = [] /\ Z.of_nat (Py.maxlen d) = n.
Proof.
  unfold Py.deque_new. destruct (Z.ltb_spec n 0); [discriminate |].
  intros [= <-]. simpl. split; [reflexivity | lia].
Qed.

Lemma kld_update_history_config (k k' : KLDVarianceSignal.t)
    (sequence_id : string) (kld_values : list Q) :
  KLDVarianceSignal.update_history k sequence_id kld_values = Py.Ok k' ->
  KLDVarianceSignal.config k' = KLDVarianceSignal.config k.
Proof.
  unfold KLDVarianceSignal.update_history.
  destruct (KLDVarianceSignal.sequence_histories k !! sequence_id);
    simpl; [| destruct (Py.deque_new _); simpl]; try discriminate;
    now intros [= <-].
Qed.







End HistoryInvariant.

Section HistoryBounds.

Context `{Torch}.


End HistoryBounds.

(* ===================================================================== *)
(** * Speculation-length prediction ([adapter.py])                         *)
(* ===================================================================== *)

Section AdapterFacts.

Local Open Scope Q_scope.

Lemma getitem_config (self : SpeculationLengthAdapter.t) (sequence_id : string) :
  SpeculationLengthAdapter.config
    (snd (SpeculationLengthAdapter.sequence_performance_getitem self sequence_id))
  = SpeculationLengthAdapter.config self.
Proof.
  unfold SpeculationLengthAdapter.sequence_performance_getitem.
  now destruct (_ !! _).
Qed.

Lemma adjust_for_history_config (self : SpeculationLengthAdapter.t)
    (sequence_id : string) (base_sl : Q) :
  SpeculationLengthAdapter.config
    (snd (SpeculationLengthAdapter._adjust_for_history self sequence_id base_sl))
  = SpeculationLengthAdapter.config self.
Proof.
  unfold SpeculationLengthAdapter._adjust_for_history.
  pose proof (getitem_config self sequence_id) as G.
  destruct (SpeculationLengthAdapter.sequence_performance_getitem self
              sequence_id) as [p s]. simpl in G.
  destruct (Py.items _); simpl; exact G.
Qed.

(** [predict_optimal_sl] returns the context-adjusted length, clamped and
    then cut to an integer by [int]. *)
Lemma predict_optimal_sl_value (self : SpeculationLengthAdapter.t)
    (sequence_id : string) (context_info : option (gmap string pyval)) :
  fst (SpeculationLengthAdapter.predict_optimal_sl self sequence_id context_info)
  = (x <- context_adjusted_sl self sequence_id context_info ;;
     Py.Ok (Py.int (clamp_sl (SpeculationLengthAdapter.config self) x))).
Proof.
  unfold SpeculationLengthAdapter.predict_optimal_sl, context_adjusted_sl.
  pose proof (getitem_config self sequence_id) as G.
  destruct (SpeculationLengthAdapter.sequence_performance_getitem self
              sequence_id) as [p s]. simpl in G. simpl.
  destruct (SpeculationLengthAdapter._predict_from_stability _ _) as [b |];
    simpl; [| reflexivity].
  pose proof (adjust_for_history_config s sequence_id b) as A.
  destruct (SpeculationLengthAdapter._adjust_for_history s sequence_id b)
    as [h s']. simpl in A. simpl.
  destruct (SpeculationLengthAdapter._adjust_for_context h context_info);
    simpl; [| reflexivity].
  unfold clamp_sl. now rewrite A, G.
Qed.

(** The clamped value cut by [int] stays between the bounds, and is the
    clamped value rounded down. *)
Lemma int_clamp_sl (cfg : AdapterConfig) (x : Q) :
  valid_config cfg ->
  (min_speculation_length cfg <= Py.int (clamp_sl cfg x)
   <= max_speculation_length cfg)%Z
  /\ Py.int (clamp_sl cfg x) = Qfloor (clamp_sl cfg x).
Proof.
  intros [P L].
  assert (inject_Z (min_speculation_length cfg)
          <= inject_Z (max_speculation_length cfg)) as LQ
    by (rewrite <- Zle_Qle; exact L).
  destruct (py_clamp_bounds _ _ x LQ) as [Lo Hi]. fold (clamp_sl cfg x) in Lo, Hi.
  assert (0 <= clamp_sl cfg x) as NN.
  { apply Qle_trans with (inject_Z (min_speculation_length cfg)); [| exact Lo].
    change 0 with (inject_Z 0). rewrite <- Zle_Qle. lia. }
  rewrite (py_int_floor _ NN). split; [| reflexivity]. split.
  - rewrite <- (Qfloor_Z (min_speculation_length cfg)).
    now apply Qfloor_resp_le.
  - rewrite <- (Qfloor_Z (max_speculation_length cfg)).
    now apply Qfloor_resp_le.
Qed.

Lemma predict_from_stability_total (cfg : AdapterConfig)
    (metrics : CombinedSignalProcessor.metrics) :
  ~ stability_threshold_high cfg == stability_threshold_low cfg ->
  exists b, SpeculationLengthAdapter._predict_from_stability cfg metrics = Py.Ok b.
Proof.
  intros N. unfold SpeculationLengthAdapter._predict_from_stability.
  destruct (_ && _); simpl; [eauto |].
  destruct (_ || _); simpl; [eauto |].
  destruct (Qeq_bool _ _) eqn:E; simpl; [| eauto].
  apply Qeq_bool_iff in E. exfalso. apply N. lra.
Qed.

Lemma adjust_for_context_total (base_sl : Q)
    (context_info : option (gmap string pyval)) :
  numeric_context context_info ->
  exists x,
    SpeculationLengthAdapter._adjust_for_context base_sl context_info = Py.Ok x.
Proof.
  intros N. unfold SpeculationLengthAdapter._adjust_for_context.
  destruct context_info as [ctx |]; [| eauto].
  destruct (decide (ctx = ∅)); [eauto |].
  assert (exists q, default (PNum 0) (ctx !! "current_length") = PNum q)
    as [ql ->].
  { destruct (ctx !! "current_length") as [v |] eqn:E; simpl; [| eauto].
    apply (N ctx "current_length"%string v); auto. }
  assert (exists q, default (PNum 1) (ctx !! "temperature") = PNum q)
    as [qt ->].
  { destruct (ctx !! "temperature") as [v |] eqn:E; simpl; [| eauto].
    apply (N ctx "temperature"%string v); auto. }
  simpl.
  destruct (Py.Qlt_bool 1000 ql); simpl;
    destruct (Py.Qlt_bool qt (3 # 10)); simpl; eauto.
Qed.

(** C1.  Under a valid configuration every integer that
    [predict_optimal_sl] returns lies in
    [[min_speculation_length, max_speculation_length]]; and the call does
    return an integer whenever the two stability thresholds differ and the
    numeric context fields hold numbers. *)
Theorem predict_optimal_sl_in_range (self : SpeculationLengthAdapter.t)
    (sequence_id : string) (context_info : option (gmap string pyval)) :
  valid_config (SpeculationLengthAdapter.config self) ->
  (forall n,
     fst (SpeculationLengthAdapter.predict_optimal_sl self sequence_id
            context_info) = Py.Ok n ->
     (min_speculation_length (SpeculationLengthAdapter.config self) <= n
      <= max_speculation_length (SpeculationLengthAdapter.config self))%Z)
  /\ (~ stability_threshold_high (SpeculationLengthAdapter.config self)
        == stability_threshold_low (SpeculationLengthAdapter.config self) ->
      numeric_context context_info ->
      exists n,
        fst (SpeculationLengthAdapter.predict_optimal_sl self sequence_id
               context_info) = Py.Ok n).
Proof.
  intros V. rewrite predict_optimal_sl_value. split.
  - intros n. destruct (context_adjusted_sl _ _ _) as [x |]; simpl;
      [| discriminate].
    intros [= <-]. apply int_clamp_sl, V.
  - intros T N. unfold context_adjusted_sl.
    destruct (predict_from_stability_total
                (SpeculationLengthAdapter.config
                   (snd (SpeculationLengthAdapter.sequence_performance_getitem
                           self sequence_id)))
                (CombinedSignalProcessor.get_sequence_metrics
                   (SpeculationLengthAdapter.signal_processor self) sequence_id))
      as [b ->].
    { now rewrite getitem_config. }
    simpl.
    destruct (adjust_for_context_total
                (fst (SpeculationLengthAdapter._adjust_for_history
                        (snd (SpeculationLengthAdapter.sequence_performance_getitem
                                self sequence_id)) sequence_id b))
                context_info N) as [x ->].
    simpl. eauto.
Qed.

(** C2, as the code has it.  Under a valid configuration the integer that
    [predict_optimal_sl] returns is the context-adjusted length clamped to
    the bounds and then rounded down (not to the nearest integer): it is
    the integer [n] with [n <= clamped < n + 1]. *)
Theorem predict_optimal_sl_rounds_down (self : SpeculationLengthAdapter.t)
    (sequence_id : string) (context_info : option (gmap string pyval)) (n : Z) :
  valid_config (SpeculationLengthAdapter.config self) ->
  fst (SpeculationLengthAdapter.predict_optimal_sl self sequence_id
         context_info) = Py.Ok n ->
  exists x,
    context_adjusted_sl self sequence_id context_info = Py.Ok x
    /\ inject_Z n <= clamp_sl (SpeculationLengthAdapter.config self) x
    /\ clamp_sl (SpeculationLengthAdapter.config self) x < inject_Z n + 1.
Proof.
  intros V. rewrite predict_optimal_sl_value.
  destruct (context_adjusted_sl _ _ _) as [x |]; simpl; [| discriminate].
  intros [= <-]. exists x. split; [reflexivity |].
  destruct (int_clamp_sl _ x V) as [_ ->]. split.
  - apply Qfloor_le.
  - pose proof (Qlt_floor (clamp_sl (SpeculationLengthAdapter.config self) x))
      as F.
    rewrite inject_Z_plus in F. exact F.
Qed.

End AdapterFacts.

(* ===================================================================== *)
(** * Sums, means and variances                                            *)
(* ===================================================================== *)

Section MeanFacts.

Local Open Scope Q_scope.

Lemma fold_Qplus_acc (l : list Q) (a : Q) :
  fold_left Qplus l a == a + Py.sum l.
Proof.
  unfold Py.sum. revert a.
  induction l as [| x l IH]; intros a; simpl; [lra |].
  rewrite (IH (a + x)), (IH (0 + x)). lra.
Qed.

Lemma sum_cons (x : Q) (l : list Q) : Py.sum (x :: l) == x + Py.sum l.
Proof. unfold Py.sum at 1. simpl. rewrite fold_Qplus_acc. lra. Qed.

Lemma sum_nonneg (l : list Q) : Forall (fun x => 0 <= x) l -> 0 <= Py.sum l.
Proof.
  induction 1 as [| x l Hx _ IH]; [apply Qle_refl |].
  rewrite sum_cons. lra.
Qed.

Lemma sum_le_bound (c : Q) (l : list Q) :
  Forall (fun x => x <= c) l -> Py.sum l <= c * inject_Z (Py.len l).
Proof.
  induction 1 as [| x l Hx _ IH].
  - unfold Py.sum, Py.len. cbn [fold_left length].
    change (inject_Z (Z.of_nat 0)) with 0. lra.
  - rewrite sum_cons. unfold Py.len in *. cbn [length].
    rewrite Nat2Z.inj_succ, <- Z.add_1_r, inject_Z_plus.
    change (inject_Z 1) with 1. lra.
Qed.

Lemma len_pos {A} (l : list A) : l <> [] -> 0 < inject_Z (Py.len l).
Proof.
  intros N. change 0 with (inject_Z 0). rewrite <- Zlt_Qlt.
  unfold Py.len. destruct l; [contradiction | simpl; lia].
Qed.

Lemma mean_nonneg (l : list Q) : Forall (fun x => 0 <= x) l -> 0 <= np.mean l.
Proof.
  intros F. unfold np.mean. destruct l as [| x l].
  - apply Qle_refl.
  - apply Qle_shift_div_l; [apply len_pos; discriminate |].
    pose proof (sum_nonneg _ F). lra.
Qed.

Lemma mean_le_bound (c : Q) (l : list Q) :
  l <> [] -> Forall (fun x => x <= c) l -> np.mean l <= c.
Proof.
  intros N F. unfold np.mean.
  apply Qle_shift_div_r; [now apply len_pos |].
  now apply sum_le_bound.
Qed.

Lemma var_nonneg (l : list Q) : 0 <= np.var l.
Proof.
  unfold np.var. apply mean_nonneg.
  apply List.Forall_forall. intros y Hy.
  apply in_map_iff in Hy as [x [<- _]].
  generalize (x - np.mean l). intros d. nra.
Qed.

End MeanFacts.

Section StdFacts.

Local Open Scope R_scope.

Lemma Qlt_bool_R (a b : Q) : Py.Qlt_bool a b = true <-> Q2R a < Q2R b.
Proof.
  rewrite Qlt_bool_true. split; [apply Qlt_Rlt | apply Rlt_Qlt].
Qed.

Lemma sqrt_gt_iff (c v : R) :
  0 <= v -> (c < sqrt v <-> c < 0 \/ c * c < v).
Proof.
  intros Hv. split.
  - intros L. destruct (Rlt_le_dec c 0) as [N | P]; [now left | right].
    rewrite <- (sqrt_sqrt v Hv). apply Rmult_le_0_lt_compat; assumption.
  - intros [N | S].
    + apply Rlt_le_trans with 0; [exact N | apply sqrt_pos].
    + destruct (Rlt_le_dec c 0) as [N | P].
      * apply Rlt_le_trans with 0; [exact N | apply sqrt_pos].
      * rewrite <- (sqrt_square c P). apply sqrt_lt_1_alt. split; [| exact S].
        apply Rmult_le_pos; assumption.
Qed.

Lemma scaled_sqrt_lt_iff (a t v : R) :
  0 <= v -> 0 <= a ->
  (t * sqrt v < a
   <-> (0 <= t /\ t * t * v < a * a) \/ (t < 0 /\ (0 < a \/ 0 < v))).
Proof.
  intros Hv Ha. pose proof (sqrt_pos v) as Hs.
  pose proof (sqrt_sqrt v Hv) as Sq.
  destruct (Rlt_le_dec t 0) as [N | P].
  - split.
    + intros L. right. split; [exact N |].
      destruct (Rle_lt_or_eq_dec 0 a Ha) as [Pa | Ea]; [now left | right].
      destruct (Rle_lt_or_eq_dec 0 v Hv) as [Pv | Ev]; [exact Pv |].
      subst v a. rewrite sqrt_0 in L. Lra.lra.
    + intros [[P _] | [_ [Pa | Pv]]]; [Lra.lra | Lra.nra |].
      apply sqrt_lt_R0 in Pv. Lra.nra.
  - split.
    + intros L. left. split; [exact P |].
      assert (0 <= t * sqrt v) as Nn by (apply Rmult_le_pos; assumption).
      replace (t * t * v) with ((t * sqrt v) * (t * sqrt v))
        by (rewrite <- Sq at 3; ring).
      apply Rmult_le_0_lt_compat; assumption.
    + intros [[_ L] | [N _]]; [| Lra.lra].
      assert (0 <= t * sqrt v) as Nn by (apply Rmult_le_pos; assumption).
      apply Rsqr_incrst_0; [| exact Nn | exact Ha].
      unfold Rsqr.
      replace ((t * sqrt v) * (t * sqrt v)) with (t * t * v)
        by (rewrite <- Sq at 1; ring).
      exact L.
Qed.

Lemma Q2R_var_nonneg (l : list Q) : 0 <= Q2R (np.var l).
Proof.
  rewrite <- RMicromega.Q2R_0. apply Qle_Rle, var_nonneg.
Qed.

(** [np.std_gt l c] decides [np.std(l) > c]. *)
Lemma std_gt_spec (l : list Q) (c : Q) :
  np.std_gt l c = true <-> Q2R c < np.std l.
Proof.
  unfold np.std_gt, np.std.
  rewrite orb_true_iff, !Qlt_bool_R, Q2R_mult, RMicromega.Q2R_0.
  symmetry. apply sqrt_gt_iff, Q2R_var_nonneg.
Qed.

(** [np.gt_scaled_std a t l] decides [a > t * np.std(l)] for [a >= 0], as
    is the absolute value that the source passes. *)
Lemma gt_scaled_std_spec (a t : Q) (l : list Q) :
  (0 <= a)%Q ->
  np.gt_scaled_std a t l = true <-> Q2R t * np.std l < Q2R a.
Proof.
  intros Ha. apply Qle_Rle in Ha. rewrite RMicromega.Q2R_0 in Ha.
  unfold np.gt_scaled_std, np.std.
  rewrite (scaled_sqrt_lt_iff _ _ _ (Q2R_var_nonneg l) Ha).
  destruct (Qle_bool 0 t) eqn:T.
  - apply Qle_bool_iff, Qle_Rle in T. rewrite RMicromega.Q2R_0 in T.
    rewrite Qlt_bool_R, !Q2R_mult. split.
    + intros L. left. now split.
    + intros [[_ L] | [N _]]; [exact L | Lra.lra].
  - assert (Q2R t < 0) as N.
    { rewrite <- RMicromega.Q2R_0. apply Qlt_Rlt, Qnot_le_lt.
      intros L. apply Qle_bool_iff in L. congruence. }
    rewrite orb_true_iff, !Qlt_bool_R, RMicromega.Q2R_0. split.
    + intros D. right. now split.
    + intros [[P _] | [_ D]]; [Lra.lra | exact D].
Qed.

End StdFacts.

(* ===================================================================== *)
(** * Batch optimisation ([adapter.py], [utils.py])                        *)
(* ===================================================================== *)

Section BatchFacts.

Local Open Scope Q_scope.

Lemma calculate_cap_unweighted (cfg : AdapterConfig) (l : list Z) :
  l <> [] ->
  BatchOptimizer._calculate_adaptive_sl_cap cfg l None
  = clamp_cap cfg (Py.round (int_mean l)).
Proof. destruct l; [contradiction | reflexivity]. Qed.

Lemma optimize_unfold (cfg : AdapterConfig) (l : list Z)
    (priorities : option (list Q)) :
  l <> [] ->
  BatchOptimizer.optimize_batch_speculation_lengths cfg l priorities
  = (BatchOptimizer._apply_batch_balancing cfg
       (map (fun sl =>
               Z.min sl (BatchOptimizer._calculate_adaptive_sl_cap cfg l
                           priorities)) l),
     BatchOptimizer._calculate_adaptive_sl_cap cfg l priorities).
Proof. destruct l; [contradiction | reflexivity]. Qed.


Lemma Qabs_square (d : Q) : Qabs d * Qabs d == d * d.
Proof.
  apply Qabs_case; intros _; ring.
Qed.

Lemma apply_batch_balancing_spec (cfg : AdapterConfig) (ls : list Z) :
  exists g : Z -> Z,
    BatchOptimizer._apply_batch_balancing cfg ls = map g ls
    /\ forall sl,
         g sl = sl
         \/ (g sl = pulled cfg (map inject_Z ls) sl
             /\ np.std_gt (map inject_Z ls)
                  (np.mean (map inject_Z ls) * (5 # 10)) = true
             /\ np.gt_scaled_std
                  (Py.abs (inject_Z sl - np.mean (map inject_Z ls)))
                  (straggler_tolerance cfg) (map inject_Z ls) = true).
Proof.
  unfold BatchOptimizer._apply_batch_balancing.
  destruct ls as [| z ls'].
  - exists (fun sl => sl). split; [reflexivity | now left].
  - set (ls := z :: ls'). set (values := map inject_Z ls).
    destruct (np.std_gt values (np.mean values * (5 # 10))) eqn:S.
    + eexists. split; [reflexivity |]. intros sl. cbv beta.
      destruct (np.gt_scaled_std _ _ _) eqn:G; [right | left; reflexivity].
      repeat split; reflexivity.
    + exists (fun sl => sl). split; [now rewrite map_id | now left].
Qed.

(** A pulled length does not exceed a bound that holds for every length of
    the batch and is at least 1. *)
Lemma pulled_le_cap (cfg : AdapterConfig) (ls : list Z) (cap sl : Z) :
  ls <> [] -> (1 <= cap)%Z -> Forall (fun z => (z <= cap)%Z) ls ->
  (sl <= cap)%Z ->
  (pulled cfg (map inject_Z ls) sl <= cap)%Z.
Proof.
  intros N C F L. unfold pulled.
  assert (np.mean (map inject_Z ls) <= inject_Z cap) as M.
  { apply mean_le_bound; [now destruct ls |].
    apply List.Forall_forall. intros y Hy.
    apply in_map_iff in Hy as [z [<- Hz]].
    rewrite <- Zle_Qle. rewrite List.Forall_forall in F. now apply F. }
  assert (inject_Z sl <= inject_Z cap) as LQ by now rewrite <- Zle_Qle.
  assert (Py.round (inject_Z sl + (3 # 10) * (np.mean (map inject_Z ls)
                                              - inject_Z sl)) <= cap)%Z as R.
  { rewrite <- (py_round_inject cap). apply py_round_mono. lra. }
  lia.
Qed.

(** A non-negative value that lies further than [t >= 2] standard
    deviations from a non-negative mean [m], the standard deviation being
    above [m / 2], lies above the mean. *)
Lemma outlier_above_mean (m v t x : Q) :
  0 <= m -> 0 <= v -> 2 <= t -> 0 <= x ->
  (m * (5 # 10)) * (m * (5 # 10)) < v ->
  t * t * v < (x - m) * (x - m) ->
  m < x.
Proof.
  intros Hm Hv Ht Hx S G. apply Qnot_le_lt. intros Below.
  assert (4 <= t * t) as A0 by nra.
  assert (4 * v <= t * t * v) as A1 by nra.
  assert ((x - m) * (x - m) <= m * m) as A2 by nra.
  nra.
Qed.

(** With a tolerance of at least 2 and no negative length in the batch,
    only a length above the mean can pass the two tests, and pulling it
    does not raise it. *)
Lemma pulled_le_self (cfg : AdapterConfig) (ls : list Z) (sl : Z) :
  2 <= straggler_tolerance cfg ->
  Forall (fun z => (0 <= z)%Z) ls -> (0 <= sl)%Z ->
  np.std_gt (map inject_Z ls) (np.mean (map inject_Z ls) * (5 # 10)) = true ->
  np.gt_scaled_std (Py.abs (inject_Z sl - np.mean (map inject_Z ls)))
    (straggler_tolerance cfg) (map inject_Z ls) = true ->
  (pulled cfg (map inject_Z ls) sl <= sl)%Z.
Proof.
  intros T F P S G. unfold pulled.
  set (values := map inject_Z ls) in *. set (m := np.mean values) in *.
  set (t := straggler_tolerance cfg) in *.
  assert (0 <= m) as Hm.
  { apply mean_nonneg. apply List.Forall_forall. intros y Hy.
    apply in_map_iff in Hy as [z [<- Hz]].
    change 0 with (inject_Z 0). rewrite <- Zle_Qle.
    rewrite List.Forall_forall in F. now apply F. }
  pose proof (var_nonneg values) as Hv.
  assert (0 <= inject_Z sl) as Hsl
    by (change 0 with (inject_Z 0); now rewrite <- Zle_Qle).
  unfold np.std_gt in S. apply orb_true_iff in S as [S | S];
    [apply Qlt_bool_true in S; lra |].
  apply Qlt_bool_true in S.
  unfold np.gt_scaled_std in G.
  replace (Qle_bool 0 t) with true in G
    by (symmetry; apply Qle_bool_iff; lra).
  apply Qlt_bool_true in G. unfold Py.abs in G. rewrite Qabs_square in G.
  assert (m < inject_Z sl) as Above
    by (apply (outlier_above_mean m (np.var values) t); assumption).
  assert (1 <= sl)%Z as Hpos.
  { assert (inject_Z 0 < inject_Z sl) as A by (change (inject_Z 0) with 0; lra).
    rewrite <- Zlt_Qlt in A. lia. }
  assert (Py.round (inject_Z sl + (3 # 10) * (m - inject_Z sl)) <= sl)%Z as R.
  { apply Z.le_trans with (Py.round (inject_Z sl));
      [apply py_round_mono; lra | rewrite py_round_inject; lia]. }
  lia.
Qed.

End BatchFacts.

Section BatchTheorems.

Local Open Scope Q_scope.

Lemma calculate_cap_batch_mean (cfg : AdapterConfig) (l : list Z)
    (priorities : option (list Q)) :
  l <> [] ->
  BatchOptimizer._calculate_adaptive_sl_cap cfg l priorities
  = clamp_cap cfg (Py.round (batch_mean l priorities)).
Proof. destruct l; [contradiction |]. now destruct priorities. Qed.

Lemma clamp_cap_bounds (cfg : AdapterConfig) (z : Z) :
  (min_speculation_length cfg <= max_speculation_length cfg)%Z ->
  (min_speculation_length cfg <= clamp_cap cfg z
   <= max_speculation_length cfg)%Z.
Proof. unfold clamp_cap. lia. Qed.

Lemma Forall2_le_map (g h : Z -> Z) (P : Z -> Prop) (l : list Z) :
  Forall P l -> (forall x, P x -> (g (h x) <= x)%Z) ->
  Forall2 Z.le (map g (map h l)) l.
Proof.
  intros F G. induction F as [| x l Hx _ IH]; simpl; constructor; auto.
Qed.

(** C3, as the code has it.  For a non-empty batch without priorities and
    a valid configuration: [sl_cap] is the mean of the predictions rounded
    to a nearest integer and clamped to the configured bounds; every
    optimised length is at most [sl_cap]; when the straggler tolerance is
    at least 2 and no prediction is negative, no length is increased; and
    [[2; 3; 6]] under the default configuration gives the cap 4 and the
    lengths [[2; 3; 4]]. *)
Theorem optimize_batch_cap (cfg : AdapterConfig) (l : list Z) :
  valid_config cfg -> l <> [] ->
  let optimized := fst (BatchOptimizer.optimize_batch_speculation_lengths cfg l None) in
  let sl_cap := snd (BatchOptimizer.optimize_batch_speculation_lengths cfg l None) in
  sl_cap = clamp_cap cfg (Py.round (int_mean l))
  /\ Qabs (inject_Z (Py.round (int_mean l)) - int_mean l) <= 1 # 2
  /\ (min_speculation_length cfg <= sl_cap <= max_speculation_length cfg)%Z
  /\ length optimized = length l
  /\ Forall (fun sl => (sl <= sl_cap)%Z) optimized
  /\ (2 <= straggler_tolerance cfg -> Forall (fun sl => (0 <= sl)%Z) l ->
      Forall2 Z.le optimized l)
  /\ BatchOptimizer.optimize_batch_speculation_lengths default_AdapterConfig
       [2; 3; 6]%Z None = ([2; 3; 4]%Z, 4%Z).
Proof.
  intros [Vpos Vle] N. cbv zeta. rewrite (optimize_unfold cfg l None N).
  cbn [fst snd]. rewrite (calculate_cap_unweighted cfg l N).
  set (cap := clamp_cap cfg (Py.round (int_mean l))).
  pose proof (clamp_cap_bounds cfg (Py.round (int_mean l)) Vle) as Hcap.
  fold cap in Hcap.
  set (capped := map (fun sl => Z.min sl cap) l).
  assert (capped <> []) as Ncapped by (destruct l; [contradiction | discriminate]).
  assert (Forall (fun z => (z <= cap)%Z) capped) as Fcap.
  { apply List.Forall_forall. intros y Hy.
    apply in_map_iff in Hy as [z [<- _]]. lia. }
  destruct (apply_batch_balancing_spec cfg capped) as [g [-> Hg]].
  repeat split.
  - apply py_round_nearest.
  - apply Hcap.
  - apply Hcap.
  - unfold capped. now rewrite !length_map.
  - apply List.Forall_forall. intros y Hy.
    apply in_map_iff in Hy as [c [<- Hc]].
    pose proof (proj1 (List.Forall_forall _ _) Fcap c Hc) as Fc.
    destruct (Hg c) as [-> | [-> _]]; [exact Fc |].
    apply pulled_le_cap; try assumption. lia.
  - intros T F. unfold capped at 1.
    apply (Forall2_le_map g (fun sl => Z.min sl cap) (fun z => (0 <= z)%Z));
      [exact F |].
    intros x Hx. destruct (Hg (Z.min x cap)) as [-> | [-> [S G]]]; [lia |].
    apply Z.le_trans with (Z.min x cap); [| lia].
    apply pulled_le_self; try assumption; [| lia].
    apply List.Forall_forall. intros y Hy.
    apply in_map_iff in Hy as [z [<- Hz]].
    rewrite List.Forall_forall in F. specialize (F z Hz). lia.
Qed.


(** C10.  On the empty batch both optimisers return the empty list and
    the cap 0; under a valid configuration that cap is below
    [min_speculation_length], whereas the cap of a non-empty batch is
    clamped into the configured bounds. *)
Theorem optimize_empty_batch (cfg : AdapterConfig)
    (priorities : option (list Q)) (utils : UtilsBatchOptimizer.t) :
  BatchOptimizer.optimize_batch_speculation_lengths cfg [] priorities
  = ([], 0%Z)
  /\ fst (UtilsBatchOptimizer.optimize_batch_speculation_lengths utils []
            priorities) = ([], 0%Z)
  /\ (valid_config cfg ->
      (snd (BatchOptimizer.optimize_batch_speculation_lengths cfg []
              priorities) < min_speculation_length cfg)%Z
      /\ forall l, l <> [] ->
           (min_speculation_length cfg
            <= snd (BatchOptimizer.optimize_batch_speculation_lengths cfg l
                      priorities)
            <= max_speculation_length cfg)%Z).
Proof.
  split; [reflexivity |]. split; [reflexivity |].
  intros V. split; [apply V |].
  intros l N. rewrite (optimize_unfold cfg l priorities N). cbn [snd].
  rewrite (calculate_cap_batch_mean cfg l priorities N).
  apply clamp_cap_bounds, V.
Qed.

End BatchTheorems.

(* ===================================================================== *)
(** * Reset of the controller ([core.py], [utils.py])                      *)
(* ===================================================================== *)

Section ResetFacts.

Context `{Models}.


(** No method of the adapter writes to its signal processor. *)
Lemma getitem_signals (a : SpeculationLengthAdapter.t) (sequence_id : string) :
  SpeculationLengthAdapter.signal_processor
    (snd (SpeculationLengthAdapter.sequence_performance_getitem a sequence_id))
  = SpeculationLengthAdapter.signal_processor a.
Proof.
  unfold SpeculationLengthAdapter.sequence_performance_getitem.
  now destruct (_ !! _).
Qed.

Lemma adjust_for_history_signals (a : SpeculationLengthAdapter.t)
    (sequence_id : string) (base_sl : Q) :
  SpeculationLengthAdapter.signal_processor
    (snd (SpeculationLengthAdapter._adjust_for_history a sequence_id base_sl))
  = SpeculationLengthAdapter.signal_processor a.
Proof.
  unfold SpeculationLengthAdapter._adjust_for_history.
  pose proof (getitem_signals a sequence_id) as G.
  destruct (SpeculationLengthAdapter.sequence_performance_getitem a
              sequence_id) as [p s]. simpl in G.
  destruct (Py.items _); simpl; exact G.
Qed.

Lemma predict_signals (a : SpeculationLengthAdapter.t) (sequence_id : string)
    (context_info : option (gmap string pyval)) :
  SpeculationLengthAdapter.signal_processor
    (snd (SpeculationLengthAdapter.predict_optimal_sl a sequence_id
            context_info))
  = SpeculationLengthAdapter.signal_processor a.
Proof.
  unfold SpeculationLengthAdapter.predict_optimal_sl.
  pose proof (getitem_signals a sequence_id) as G.
  destruct (SpeculationLengthAdapter.sequence_performance_getitem a
              sequence_id) as [p s]. simpl in G.
  destruct (SpeculationLengthAdapter._predict_from_stability _ _) as [b |];
    simpl; [| exact G].
  pose proof (adjust_for_history_signals s sequence_id b) as A.
  destruct (SpeculationLengthAdapter._adjust_for_history s sequence_id b)
    as [h s']. simpl in A.
  destruct (SpeculationLengthAdapter._adjust_for_context h context_info);
    simpl; congruence.
Qed.

Lemma update_performance_signals (a : SpeculationLengthAdapter.t)
    (sequence_id : string) (sl accepted total : Z) :
  SpeculationLengthAdapter.signal_processor
    (SpeculationLengthAdapter.update_performance a sequence_id sl accepted total)
  = SpeculationLengthAdapter.signal_processor a.
Proof.
  unfold SpeculationLengthAdapter.update_performance.
  pose proof (getitem_signals a sequence_id) as G.
  destruct (SpeculationLengthAdapter.sequence_performance_getitem a
              sequence_id) as [p s]. simpl in G. exact G.
Qed.

Lemma get_sequence_stats_signals (a : SpeculationLengthAdapter.t)
    (sequence_id : string) :
  SpeculationLengthAdapter.signal_processor
    (snd (SpeculationLengthAdapter.get_sequence_stats a sequence_id))
  = SpeculationLengthAdapter.signal_processor a.
Proof.
  unfold SpeculationLengthAdapter.get_sequence_stats.
  pose proof (getitem_signals a sequence_id) as G.
  destruct (SpeculationLengthAdapter.sequence_performance_getitem a
              sequence_id) as [p s]. simpl in G. exact G.
Qed.

End ResetFacts.

Section ResetTheorems.

Context `{Models}.











End ResetTheorems.

(* ===================================================================== *)
(** * Failures within a round ([core.py])                                  *)
(* ===================================================================== *)

Section OdictFacts.

Context {V : Type}.

Lemma odict_get_set_eq (d : odict.t V) (k : string) (v : V) :
  odict.get (odict.set d k v) k = Some v.
Proof.
  induction d as [| [k' v'] d IH]; simpl.
  - now rewrite String.eqb_refl.
  - destruct (String.eqb k' k) eqn:E; simpl.
    + now rewrite String.eqb_refl.
    + now rewrite E.
Qed.

Lemma odict_get_set_ne (d : odict.t V) (k k' : string) (v : V) :
  k <> k' -> odict.get (odict.set d k v) k' = odict.get d k'.
Proof.
  intros N. induction d as [| [k0 v0] d IH]; simpl.
  - destruct (String.eqb k k') eqn:E; [| reflexivity].
    apply String.eqb_eq in E. contradiction.
  - destruct (String.eqb k0 k) eqn:E; simpl.
    + apply String.eqb_eq in E. subst k0.
      destruct (String.eqb k k') eqn:E'; [| reflexivity].
      apply String.eqb_eq in E'. contradiction.
    + destruct (String.eqb k0 k'); [reflexivity | exact IH].
Qed.


Lemma odict_set_keeps (d : odict.t V) (k k' : string) (v : V) :
  is_Some (odict.get d k') -> is_Some (odict.get (odict.set d k v) k').
Proof.
  destruct (decide (k = k')) as [-> | N].
  - rewrite odict_get_set_eq. eauto.
  - now rewrite odict_get_set_ne.
Qed.

Lemma odict_get_in (d : odict.t V) (k : string) (v : V) :
  In (k, v) d -> is_Some (odict.get d k).
Proof.
  induction d as [| [k' v'] d IH]; simpl; [contradiction |].
  intros [[= -> ->] | I].
  - rewrite String.eqb_refl. eauto.
  - destruct (String.eqb k' k); [eauto | now apply IH].
Qed.

Lemma odict_get_some_in (d : odict.t V) (k : string) :
  is_Some (odict.get d k) -> exists v, In (k, v) d.
Proof.
  induction d as [| [k' v'] d IH]; simpl; [intros [? [=]] |].
  destruct (String.eqb k' k) eqn:E.
  - apply String.eqb_eq in E. subst k'. eauto.
  - intros S. destruct (IH S) as [v I]. eauto.
Qed.

End OdictFacts.

Section RoundFacts.

Context `{Models}.








End RoundFacts.

(* ===================================================================== *)
(** * Concrete runs                                                        *)
(* ===================================================================== *)

Section ConcreteRuns.

Local Open Scope Q_scope.

Example fresh_adapter_init :
  SpeculationLengthAdapter.init default_AdapterConfig default_SignalConfig
  = Py.Ok fresh_adapter.
Proof. reflexivity. Qed.

Example fresh_decoder_init :
  DSDecoder.init default_DSDecodeConfig = Py.Ok fresh_decoder.
Proof. reflexivity. Qed.

Lemma default_config_valid : valid_config default_AdapterConfig.
Proof. unfold valid_config. simpl. lia. Defined.

Lemma tight_tolerance_config_valid : valid_config tight_tolerance_config.
Proof. unfold valid_config. simpl. lia. Defined.

Lemma code_context_numeric : numeric_context (Some code_context).
Proof.
  intros ctx key v [= <-] [-> | ->] L; vm_compute in L; discriminate.
Defined.

(** C1 at the fresh adapter, the sequence ["s"] and a code-generation
    context: the prediction is 4, within [1, 8]. *)
Lemma predict_optimal_sl_in_range_witness :
  valid_config (SpeculationLengthAdapter.config fresh_adapter)
  /\ (1 <= 4 <= 8)%Z
  /\ exists n,
       fst (SpeculationLengthAdapter.predict_optimal_sl fresh_adapter "s"
              (Some code_context)) = Py.Ok n.
Proof.
  pose proof (predict_optimal_sl_in_range fresh_adapter "s"
                (Some code_context) default_config_valid) as [R T].
  split; [exact default_config_valid |]. split.
  - apply (R 4%Z). vm_compute. reflexivity.
  - apply T; [vm_compute; discriminate | exact code_context_numeric].
Defined.

(** C2 fails: for the fresh adapter and a code-generation context the
    context-adjusted length is 4.7025, which the bounds leave as it is; the
    nearest integer is 5, and [predict_optimal_sl] returns 4.  Likewise
    [int] makes 4 of 4.6. *)
Lemma predict_optimal_sl_not_nearest :
  context_adjusted_sl fresh_adapter "s" (Some code_context)
  = Py.Ok (3762000 # 800000)
  /\ clamp_sl default_AdapterConfig (3762000 # 800000) == 47025 # 10000
  /\ Py.round (clamp_sl default_AdapterConfig (3762000 # 800000)) = 5%Z
  /\ fst (SpeculationLengthAdapter.predict_optimal_sl fresh_adapter "s"
            (Some code_context)) = Py.Ok 4%Z
  /\ Py.int (46 # 10) = 4%Z
  /\ Py.round (46 # 10) = 5%Z.
Proof. repeat split; vm_compute; reflexivity. Qed.

(** C2 as amended, at the same input. *)
Lemma predict_optimal_sl_rounds_down_witness :
  valid_config (SpeculationLengthAdapter.config fresh_adapter)
  /\ fst (SpeculationLengthAdapter.predict_optimal_sl fresh_adapter "s"
            (Some code_context)) = Py.Ok 4%Z
  /\ exists x,
       context_adjusted_sl fresh_adapter "s" (Some code_context) = Py.Ok x
       /\ inject_Z 4 <= clamp_sl default_AdapterConfig x
       /\ clamp_sl default_AdapterConfig x < inject_Z 4 + 1.
Proof.
  split; [exact default_config_valid |].
  split; [vm_compute; reflexivity |].
  apply (predict_optimal_sl_rounds_down fresh_adapter "s" (Some code_context)
           4%Z default_config_valid).
  vm_compute. reflexivity.
Defined.

(** C3 fails: with [straggler_tolerance=0.5] the predictions
    [[1; 1; 8; 8; 8]] are capped at 5 and the smoothing pass then pulls the
    two lengths 1 up to 2; and under the default configuration a negative
    prediction among zeros is pulled up and then raised to 1. *)
Lemma optimize_batch_raises_low_outlier :
  valid_config tight_tolerance_config
  /\ BatchOptimizer.optimize_batch_speculation_lengths tight_tolerance_config
       [1; 1; 8; 8; 8]%Z None = ([2; 2; 5; 5; 5]%Z, 5%Z)
  /\ ~ Forall2 Z.le
         (fst (BatchOptimizer.optimize_batch_speculation_lengths
                 tight_tolerance_config [1; 1; 8; 8; 8]%Z None))
         [1; 1; 8; 8; 8]%Z
  /\ BatchOptimizer.optimize_batch_speculation_lengths default_AdapterConfig
       [-10; 0; 0; 0; 0; 0; 0; 0; 0; 0]%Z None
     = ([1; 0; 0; 0; 0; 0; 0; 0; 0; 0]%Z, 1%Z).
Proof.
  split; [exact tight_tolerance_config_valid |].
  split; [vm_compute; reflexivity |].
  split; [| vm_compute; reflexivity].
  intros F.
  replace (fst (BatchOptimizer.optimize_batch_speculation_lengths
                  tight_tolerance_config [1; 1; 8; 8; 8]%Z None))
    with [2; 2; 5; 5; 5]%Z in F by (vm_compute; reflexivity).
  inversion F as [| a b l l' Hab]. lia.
Qed.

(** C3 as amended, at the default configuration and [[1; 1; 1; 8]]. *)
Lemma optimize_batch_cap_witness :
  valid_config default_AdapterConfig
  /\ [1; 1; 1; 8]%Z <> []
  /\ 2 <= straggler_tolerance default_AdapterConfig
  /\ Forall (fun sl => (0 <= sl)%Z) [1; 1; 1; 8]%Z
  /\ snd (BatchOptimizer.optimize_batch_speculation_lengths
            default_AdapterConfig [1; 1; 1; 8]%Z None)
     = clamp_cap default_AdapterConfig (Py.round (int_mean [1; 1; 1; 8]%Z))
  /\ Forall2 Z.le
       (fst (BatchOptimizer.optimize_batch_speculation_lengths
               default_AdapterConfig [1; 1; 1; 8]%Z None))
       [1; 1; 1; 8]%Z.
Proof.
  assert ([1; 1; 1; 8]%Z <> []) as N by discriminate.
  assert (2 <= straggler_tolerance default_AdapterConfig) as T
    by (vm_compute; discriminate).
  assert (Forall (fun sl => (0 <= sl)%Z) [1; 1; 1; 8]%Z) as F
    by (repeat constructor; lia).
  pose proof (optimize_batch_cap default_AdapterConfig [1; 1; 1; 8]%Z
                default_config_valid N) as (C & _ & _ & _ & _ & I & _).
  repeat split; try assumption; try apply default_config_valid.
  now apply I.
Defined.



(** C5 at a sequence with one stored sample and at an unknown one. *)
Lemma get_regional_stability_range_witness :
  let k := KLDVarianceSignal.Build default_SignalConfig (Py.Deque [] 12)
             {[ "a"%string := Py.Deque [3 # 10] 12 ]} in
  (stored_samples k "a" < min_history_length (KLDVarianceSignal.config k))%Z
  /\ KLDVarianceSignal.get_regional_stability k "a" = 1 # 2
  /\ KLDVarianceSignal.sequence_histories k !! "b"%string = None
  /\ KLDVarianceSignal.get_regional_stability k "b" = 1 # 2.
Proof.
  intros k.
  assert (stored_samples k "a"
          < min_history_length (KLDVarianceSignal.config k))%Z as S
    by (vm_compute; reflexivity).
  assert (KLDVarianceSignal.sequence_histories k !! "b"%string = None) as U
    by (vm_compute; reflexivity).
  pose proof (get_regional_stability_range k "a") as (_ & _ & A).
  pose proof (get_regional_stability_range k "b") as (_ & B & _).
  repeat split; auto.
Defined.





(** Before the reset the controller's own signal processor and the
    adapter hold data of the sequence ["ok"], and the adapter predicts 6
    for it. *)
Example used_decoder_remembers :
  stored_samples
    (CombinedSignalProcessor.kld_signal (DSDecoder.signal_processor used_decoder))
    "ok" = 4%Z
  /\ fst (SpeculationLengthAdapter.predict_optimal_sl
            (DSDecoder.sl_adapter used_decoder) "ok" (Some code_context))
     = Py.Ok 6%Z.
Proof. split; vm_compute; reflexivity. Qed.


(** Thirteen inserts into a fresh history of capacity 12 leave the last
    twelve, in order. *)
Example thirteen_inserts :
  Py.items <$>
    (KLDVarianceSignal.sequence_histories
       (CombinedSignalProcessor.kld_signal
          (@signal_run scalar_torch
             [KldUpdate "a" [1; 2; 3; 4; 5; 6; 7; 8; 9; 10; 11; 12; 13]%Q]
             fresh_processor)) !! "a"%string)
  = Some [2; 3; 4; 5; 6; 7; 8; 9; 10; 11; 12; 13]%Q.
Proof. vm_compute. reflexivity. Qed.


(** C10 at the default configuration. *)
Lemma optimize_empty_batch_witness :
  valid_config default_AdapterConfig
  /\ (snd (BatchOptimizer.optimize_batch_speculation_lengths
             default_AdapterConfig [] None)
      < min_speculation_length default_AdapterConfig)%Z.
Proof.
  split; [exact default_config_valid |].
  apply (optimize_empty_batch default_AdapterConfig None
           (UtilsBatchOptimizer.init 2)).
  exact default_config_valid.
Defined.

(** The model on values computed by hand from the source.  Four KLD
    samples 0.1, 0.2, 0.3, 0.4 have variance 0.0125, so the stability is
    1 / 1.0125 = 80/81. *)
Example stability_of_four_samples :
  KLDVarianceSignal.get_regional_stability
    (KLDVarianceSignal.Build default_SignalConfig (Py.Deque [] 12)
       {[ "a"%string := Py.Deque [1 # 10; 2 # 10; 3 # 10; 4 # 10] 12 ]}) "a"
  == 80 # 81.
Proof. vm_compute. reflexivity. Qed.

(** The short window [[1; 2; 3; 4]] has variance 1.25 and the long window,
    the eight samples, 2.1875: the ratio is 4/7. *)
Example wvir_of_eight_samples :
  WVIRCalculator.calculate_wvir default_SignalConfig [0; 0; 0; 0; 1; 2; 3; 4]
  == 4 # 7.
Proof. vm_compute. reflexivity. Qed.

(** One round in which all four tokens were accepted gives the adjustment
    1 + (1.0 - 0.7) * 2 = 1.6 and the factor 0.8 * 1.6 + 0.2 = 1.48; the
    base 4.5 becomes 6.66, returned as 6. *)
Example prediction_after_full_acceptance :
  fst (SpeculationLengthAdapter.predict_optimal_sl
         (SpeculationLengthAdapter.update_performance fresh_adapter "s" 4 4 4)
         "s" None) = Py.Ok 6%Z
  /\ match context_adjusted_sl
             (SpeculationLengthAdapter.update_performance fresh_adapter "s" 4
                4 4) "s" None with
     | Py.Ok x => x == 666 # 100
     | Py.Raise _ => False
     end.
Proof. split; vm_compute; reflexivity. Qed.

(** A string in a numeric context field makes the prediction raise, which
    [_predict_batch_speculation_lengths] answers with the default
    length. *)
Example prediction_with_text_temperature :
  fst (SpeculationLengthAdapter.predict_optimal_sl fresh_adapter "s"
         (Some {[ "temperature"%string := PStr "hot" ]}))
  = Py.Raise Py.TypeError
  /\ fst (DSDecoder._predict_batch_speculation_lengths fresh_decoder ["s"%string]
            (Some {[ "s"%string := {[ "temperature"%string := PStr "hot" ]} ]}))
     = [4%Z].
Proof. split; vm_compute; reflexivity. Qed.

(** The two batches of the specification's test list: a constant batch is
    returned as it is, and in [[1; 1; 1; 8]] the 8 is capped at
    round(2.75) = 3. *)
Example optimize_constant_batch :
  BatchOptimizer.optimize_batch_speculation_lengths default_AdapterConfig
    [4; 4; 4; 4]%Z None = ([4; 4; 4; 4]%Z, 4%Z)
  /\ BatchOptimizer.optimize_batch_speculation_lengths default_AdapterConfig
       [1; 1; 1; 8]%Z None = ([1; 1; 1; 3]%Z, 3%Z).
Proof. split; vm_compute; reflexivity. Qed.

(** The reachability hypothesis of C8 cannot be dropped: [reset_stats]
    leaves the adapter-owned signal processor as it
    is, so samples written into it from outside survive the reset and
    still steer the prediction (6 instead of 4). *)
Example adapter_signals_survive_reset :
  stored_samples
    (CombinedSignalProcessor.kld_signal
       (adapter_signals (DSDecoder.reset_stats stale_adapter_decoder))) "ok"
  = 4%Z
  /\ fst (SpeculationLengthAdapter.predict_optimal_sl
            (DSDecoder.sl_adapter (DSDecoder.reset_stats stale_adapter_decoder))
            "ok" None) = Py.Ok 6%Z
  /\ fst (SpeculationLengthAdapter.predict_optimal_sl
            (DSDecoder.sl_adapter (DSDecoder.reset_stats stale_adapter_decoder))
            "new" None) = Py.Ok 4%Z.
Proof. repeat split; vm_compute; reflexivity. Qed.

End ConcreteRuns.

(* ===================================================================== *)
(** * Further properties of the signals ([signals.py])                     *)
(* ===================================================================== *)

Section SignalStepFacts.

Context `{Torch}.

Local Open Scope Q_scope.

Lemma py_max_0_nonneg (x : Q) : 0 <= Py.max 0 x.
Proof. destruct (py_max_cases 0 x) as [[-> _] | [-> L]]; lra. Qed.

Lemma compute_kld_nonneg (d t : tensor) : 0 <= KLDVarianceSignal.compute_kld d t.
Proof.
  unfold KLDVarianceSignal.compute_kld.
  destruct (kl_div_sum d t); [apply py_max_0_nonneg | lra].
Qed.

Lemma compute_entropy_nonneg (l : tensor) : 0 <= EntropySignal.compute_entropy l.
Proof.
  unfold EntropySignal.compute_entropy.
  destruct (plogp_sum l); [apply py_max_0_nonneg | lra].
Qed.

Lemma append_Forall {A} (P : A -> Prop) (d : Py.deque A) (x : A) :
  Forall P (Py.items d) -> P x -> Forall P (Py.items (Py.append d x)).
Proof.
  intros F Px. unfold Py.append. simpl.
  assert (Forall P (Py.items d ++ [x])) as Fa
    by (apply Forall_app; split; [exact F | now constructor]).
  destruct (_ <? _)%nat; [now apply Forall_drop | exact Fa].
Qed.

Lemma fold_append_Forall {A} (P : A -> Prop) (xs : list A) (d : Py.deque A) :
  Forall P (Py.items d) -> Forall P xs ->
  Forall P (Py.items (fold_left Py.append xs d)).
Proof.
  revert d. induction xs as [| x xs IH]; intros d F Fx; simpl; [exact F |].
  inversion Fx as [| ? ? Px Fxs]; subst.
  apply IH; [now apply append_Forall | exact Fxs].
Qed.

Lemma kld_values_nonneg (dl tl : list tensor) :
  Forall (fun x => 0 <= x) (zip_with KLDVarianceSignal.compute_kld dl tl).
Proof.
  revert tl. induction dl as [| d dl IH]; intros [| t tl]; simpl;
    constructor; [apply compute_kld_nonneg | apply IH].
Qed.

Lemma regional_stability_bounds (k : KLDVarianceSignal.t) (sequence_id : string) :
  0 <= KLDVarianceSignal.get_regional_stability k sequence_id <= 1.
Proof.
  unfold KLDVarianceSignal.get_regional_stability.
  destruct (_ !! _); [| lra].
  destruct (_ <? _)%Z; [lra |]. destruct (_ <? _)%Z; [lra |].
  apply (py_clamp_bounds' 0 1). lra.
Qed.

Lemma acceptance_likelihood_bounds (k : KLDVarianceSignal.t)
    (sequence_id : string) (draft_entropy : option Q) :
  0 <= KLDVarianceSignal.predict_acceptance_likelihood k sequence_id
         draft_entropy <= 1.
Proof.
  unfold KLDVarianceSignal.predict_acceptance_likelihood.
  apply (py_clamp_bounds' 0 1). lra.
Qed.

Lemma wvir_bounds (cfg : SignalConfig) (h : list Q) :
  0 <= WVIRCalculator.calculate_wvir cfg h <= 10.
Proof.
  unfold WVIRCalculator.calculate_wvir.
  destruct (_ <? _)%Z; [lra |]. destruct (Qeq_bool _ _).
  - destruct (Py.Qlt_bool _ _); lra.
  - apply (py_clamp_bounds' 0 10). lra.
Qed.

Lemma kld_update_history_lookup (k k' : KLDVarianceSignal.t)
    (sequence_id : string) (kld_values : list Q) :
  KLDVarianceSignal.update_history k sequence_id kld_values = Py.Ok k' ->
  is_Some (KLDVarianceSignal.sequence_histories k' !! sequence_id)
  /\ forall other, other <> sequence_id ->
       KLDVarianceSignal.sequence_histories k' !! other
       = KLDVarianceSignal.sequence_histories k !! other.
Proof.
  unfold KLDVarianceSignal.update_history.
  destruct (match KLDVarianceSignal.sequence_histories k !! sequence_id with
            | Some d => Py.Ok d
            | None => _
            end) as [d |]; simpl; [| discriminate].
  intros [= <-]. simpl. split.
  - rewrite lookup_insert_eq. eauto.
  - intros other N. now rewrite lookup_insert_ne.
Qed.

(** X1.  A verification step that returns gives a stability in [0, 1], a
    WVIR (always present) in [0, 10] and an acceptance likelihood in
    [0, 1]; an entropy is reported exactly when there is a draft
    distribution, and it is non-negative.  The step raises only the
    [ValueError] of a negative [long_window_size], on a sequence that has
    no history yet. *)
Theorem process_verification_step_results (self : CombinedSignalProcessor.t)
    (sequence_id : string) (draft_logits target_logits : list tensor)
    (accepted_tokens : Z) :
  (forall self' r,
     CombinedSignalProcessor.process_verification_step self sequence_id
       draft_logits target_logits accepted_tokens = Py.Ok (self', r) ->
     0 <= CombinedSignalProcessor.r_stability r <= 1
     /\ (exists w, CombinedSignalProcessor.r_wvir r = Some w /\ 0 <= w <= 10)
     /\ 0 <= CombinedSignalProcessor.r_next_acceptance_likelihood r <= 1
     /\ (draft_logits = [] -> CombinedSignalProcessor.r_entropy r = None)
     /\ (draft_logits <> [] ->
         exists e, CombinedSignalProcessor.r_entropy r = Some e /\ 0 <= e))
  /\ (forall e,
        CombinedSignalProcessor.process_verification_step self sequence_id
          draft_logits target_logits accepted_tokens = Py.Raise e ->
        e = Py.ValueError
        /\ (long_window_size
              (KLDVarianceSignal.config (CombinedSignalProcessor.kld_signal self))
            < 0)%Z
        /\ KLDVarianceSignal.sequence_histories
             (CombinedSignalProcessor.kld_signal self) !! sequence_id = None).
Proof.
  unfold CombinedSignalProcessor.process_verification_step. split.
  - intros self' r.
    destruct (KLDVarianceSignal.update_history _ _ _) as [k |] eqn:U; simpl;
      [| discriminate].
    destruct (kld_update_history_lookup _ _ _ _ U) as [[d Hd] _].
    rewrite Hd. destruct draft_logits as [| first rest]; intros [= <- <-];
      simpl.
    + split; [apply regional_stability_bounds |].
      split; [eexists; split; [reflexivity | apply wvir_bounds] |].
      split; [apply acceptance_likelihood_bounds |].
      split; [reflexivity | intros N; contradiction].
    + split; [apply regional_stability_bounds |].
      split; [eexists; split; [reflexivity | apply wvir_bounds] |].
      split; [apply acceptance_likelihood_bounds |].
      split; [discriminate | intros _].
      eexists. split; [reflexivity | apply compute_entropy_nonneg].
  - intros e. unfold KLDVarianceSignal.update_history.
    destruct (KLDVarianceSignal.sequence_histories _ !! sequence_id) eqn:L;
      simpl.
    + destruct draft_logits; discriminate.
    + unfold Py.deque_new.
      destruct (Z.ltb_spec
                  (long_window_size
                     (KLDVarianceSignal.config
                        (CombinedSignalProcessor.kld_signal self))) 0);
        simpl; [intros [= <-]; auto | destruct draft_logits; discriminate].
Qed.

(** X2.  The KLD and entropy values that the processor computes are never
    negative, also when the torch call raises; hence a verification step
    keeps every stored sample non-negative. *)
Theorem process_step_samples_nonneg (self self' : CombinedSignalProcessor.t)
    (sequence_id : string) (draft_logits target_logits : list tensor)
    (accepted_tokens : Z) (r : CombinedSignalProcessor.step_results) :
  nonneg_histories self ->
  CombinedSignalProcessor.process_verification_step self sequence_id
    draft_logits target_logits accepted_tokens = Py.Ok (self', r) ->
  nonneg_histories self'
  /\ Forall (fun x => 0 <= x)
       (zip_with KLDVarianceSignal.compute_kld draft_logits target_logits).
Proof.
  intros [Nk Ne] S. split; [| apply kld_values_nonneg].
  revert S. unfold CombinedSignalProcessor.process_verification_step.
  destruct (KLDVarianceSignal.update_history _ _ _) as [k |] eqn:U; simpl;
    [| discriminate].
  assert (forall s d,
            KLDVarianceSignal.sequence_histories k !! s = Some d ->
            Forall (fun x => 0 <= x) (Py.items d)) as Nk'.
  { revert U. unfold KLDVarianceSignal.update_history.
    destruct (KLDVarianceSignal.sequence_histories _ !! sequence_id)
      as [d0 |] eqn:L; simpl.
    - intros [= <-] s d. simpl.
      destruct (decide (sequence_id = s)) as [-> | N].
      + rewrite lookup_insert_eq. intros [= <-].
        apply fold_append_Forall; [eapply Nk; eauto | apply kld_values_nonneg].
      + rewrite lookup_insert_ne by exact N. apply Nk.
    - destruct (Py.deque_new _) as [d0 |] eqn:D; simpl; [| discriminate].
      intros [= <-] s d. simpl.
      destruct (decide (sequence_id = s)) as [-> | N].
      + rewrite lookup_insert_eq. intros [= <-].
        apply fold_append_Forall; [| apply kld_values_nonneg].
        destruct (deque_new_spec _ _ D) as [-> _]. constructor.
      + rewrite lookup_insert_ne by exact N. apply Nk. }
  destruct draft_logits as [| first rest]; intros [= <- _]; split; simpl;
    try exact Nk'; try exact Ne.
  intros s d. unfold EntropySignal.update_history. simpl.
  destruct (decide (sequence_id = s)) as [-> | N].
  - rewrite lookup_insert_eq. intros [= <-].
    apply append_Forall; [| apply compute_entropy_nonneg].
    destruct (EntropySignal.entropy_history _ !! s) as [d0 |] eqn:L;
      [eapply Ne; eauto | constructor].
  - rewrite lookup_insert_ne by exact N. apply Ne.
Qed.

(** X3.  A verification step of one sequence leaves the histories of every
    other sequence as they are, and so the metrics that the processor
    reports for them. *)
Theorem process_step_other_sequences (self self' : CombinedSignalProcessor.t)
    (sequence_id other : string) (draft_logits target_logits : list tensor)
    (accepted_tokens : Z) (r : CombinedSignalProcessor.step_results) :
  CombinedSignalProcessor.process_verification_step self sequence_id
    draft_logits target_logits accepted_tokens = Py.Ok (self', r) ->
  other <> sequence_id ->
  KLDVarianceSignal.sequence_histories
    (CombinedSignalProcessor.kld_signal self') !! other
  = KLDVarianceSignal.sequence_histories
      (CombinedSignalProcessor.kld_signal self) !! other
  /\ EntropySignal.entropy_history
       (CombinedSignalProcessor.entropy_signal self') !! other
     = EntropySignal.entropy_history
         (CombinedSignalProcessor.entropy_signal self) !! other
  /\ CombinedSignalProcessor.get_sequence_metrics self' other
     = CombinedSignalProcessor.get_sequence_metrics self other.
Proof.
  unfold CombinedSignalProcessor.process_verification_step. intros S N.
  destruct (KLDVarianceSignal.update_history _ _ _) as [k |] eqn:U;
    simpl in S; [| discriminate].
  destruct (kld_update_history_lookup _ _ _ _ U) as [_ Hk].
  pose proof (kld_update_history_config _ _ _ _ U) as Hc.
  specialize (Hk other N).
  assert (EntropySignal.entropy_history
            (CombinedSignalProcessor.entropy_signal self') !! other
          = EntropySignal.entropy_history
              (CombinedSignalProcessor.entropy_signal self) !! other
          /\ CombinedSignalProcessor.kld_signal self' = k
          /\ CombinedSignalProcessor.wvir_calculator self'
             = CombinedSignalProcessor.wvir_calculator self) as (He & Ek & Ew).
  { destruct draft_logits as [| first rest]; injection S as <- _; simpl;
      repeat split.
    unfold EntropySignal.update_history. simpl.
    rewrite lookup_insert_ne; [reflexivity | congruence]. }
  rewrite Ek. split; [exact Hk |]. split; [exact He |].
  unfold CombinedSignalProcessor.get_sequence_metrics,
    KLDVarianceSignal.get_regional_stability, EntropySignal.get_trend.
  now rewrite Ek, Ew, Hk, He, Hc.
Qed.

End SignalStepFacts.

Section WindowFacts.

Local Open Scope Q_scope.


(** X5.  The entropy trend is "stable" for a sequence with fewer than
    three samples; otherwise it compares the latest sample with the third
    latest, and for a non-negative third latest sample "increasing" means
    that the latest is greater, "decreasing" that it is smaller, and equal
    samples give "stable". *)
Theorem get_trend_sound (self : EntropySignal.t) (sequence_id : string) :
  (EntropySignal.entropy_history self !! sequence_id = None ->
   EntropySignal.get_trend self sequence_id = "stable"%string)
  /\ (forall d,
        EntropySignal.entropy_history self !! sequence_id = Some d ->
        (Py.len (Py.items d) < 3)%Z ->
        EntropySignal.get_trend self sequence_id = "stable"%string)
  /\ (forall d older first middle latest,
        EntropySignal.entropy_history self !! sequence_id = Some d ->
        Py.items d = older ++ [first; middle; latest] ->
        0 <= first ->
        (EntropySignal.get_trend self sequence_id = "increasing"%string ->
         first < latest)
        /\ (EntropySignal.get_trend self sequence_id = "decreasing"%string ->
            latest < first)
        /\ (latest == first ->
            EntropySignal.get_trend self sequence_id = "stable"%string)).
Proof.
  unfold EntropySignal.get_trend. split; [intros -> ; reflexivity |]. split.
  - intros d -> L. apply Z.ltb_lt in L. now rewrite L.
  - intros d older first middle latest -> E P.
    replace (Py.len (Py.items d) <? 3)%Z with false
      by (symmetry; apply Z.ltb_ge; rewrite E; unfold Py.len;
          rewrite length_app; simpl; lia).
    assert (Py.slice_last 3 (Py.items d) = [first; middle; latest]) as ->.
    { rewrite E. unfold Py.slice_last. simpl (0 <? 3)%Z. cbv iota.
      replace (length (older ++ [first; middle; latest]) - Z.to_nat 3)%nat
        with (length older) by (rewrite length_app; simpl; lia).
      now rewrite drop_app_length. }
    simpl.
    destruct (Py.Qlt_bool (first * (11 # 10)) latest) eqn:Up;
      [| destruct (Py.Qlt_bool latest (first * (9 # 10))) eqn:Down].
    + apply Qlt_bool_true in Up.
      repeat split; try discriminate; intros; lra.
    + apply Qlt_bool_true in Down.
      repeat split; try discriminate; intros; lra.
    + repeat split; try discriminate; reflexivity.
Qed.

End WindowFacts.

(* ===================================================================== *)
(** * Further properties of the adapter ([adapter.py])                     *)
(* ===================================================================== *)

Section AdapterStateFacts.

Local Open Scope Q_scope.

Lemma getitem_perf (a : SpeculationLengthAdapter.t) (sequence_id : string) :
  fst (SpeculationLengthAdapter.sequence_performance_getitem a sequence_id)
  = perf_of a sequence_id
  /\ SpeculationLengthAdapter.sequence_performance
       (snd (SpeculationLengthAdapter.sequence_performance_getitem a
               sequence_id))
     = <[sequence_id := perf_of a sequence_id]>
         (SpeculationLengthAdapter.sequence_performance a)
  /\ SpeculationLengthAdapter.sequence_states
       (snd (SpeculationLengthAdapter.sequence_performance_getitem a
               sequence_id))
     = SpeculationLengthAdapter.sequence_states a.
Proof.
  unfold SpeculationLengthAdapter.sequence_performance_getitem, perf_of.
  destruct (SpeculationLengthAdapter.sequence_performance a !! sequence_id)
    as [p |] eqn:E; simpl; repeat split.
  symmetry. now apply insert_id.
Qed.

Lemma perf_of_insert (a : SpeculationLengthAdapter.t) (sequence_id : string) :
  perf_of (snd (SpeculationLengthAdapter.sequence_performance_getitem a
                  sequence_id)) sequence_id
  = perf_of a sequence_id.
Proof.
  destruct (getitem_perf a sequence_id) as (_ & E & _).
  unfold perf_of at 1. rewrite E, lookup_insert_eq. reflexivity.
Qed.

(** [_adjust_for_history] multiplies the base by [history_factor] of the
    mean of the recorded rates, and leaves it when there is none. *)
Lemma adjust_for_history_value (a : SpeculationLengthAdapter.t)
    (sequence_id : string) (base_sl : Q) :
  fst (SpeculationLengthAdapter._adjust_for_history a sequence_id base_sl)
  = match Py.items (SpeculationLengthAdapter.recent_acceptance_rates
                      (perf_of a sequence_id)) with
    | [] => base_sl
    | (_ :: _) as rates =>
        base_sl * history_factor (SpeculationLengthAdapter.config a)
                    (np.mean rates)
    end.
Proof.
  unfold SpeculationLengthAdapter._adjust_for_history.
  destruct (getitem_perf a sequence_id) as (Ep & _ & _).
  pose proof (getitem_config a sequence_id) as Ec.
  destruct (SpeculationLengthAdapter.sequence_performance_getitem a
              sequence_id) as [p a']. simpl in Ep, Ec. subst p.
  destruct (Py.items _); simpl; [reflexivity |].
  now rewrite Ec.
Qed.

(** The value of a prediction is determined by the configuration, the
    adapter-owned signal processor and the sequence's own performance
    entry. *)
Lemma predict_value_congr (a1 a2 : SpeculationLengthAdapter.t)
    (sequence_id : string) (context_info : option (gmap string pyval)) :
  SpeculationLengthAdapter.config a1 = SpeculationLengthAdapter.config a2 ->
  SpeculationLengthAdapter.signal_processor a1
  = SpeculationLengthAdapter.signal_processor a2 ->
  perf_of a1 sequence_id = perf_of a2 sequence_id ->
  fst (SpeculationLengthAdapter.predict_optimal_sl a1 sequence_id context_info)
  = fst (SpeculationLengthAdapter.predict_optimal_sl a2 sequence_id
           context_info).
Proof.
  intros Ec Es Ep. rewrite !predict_optimal_sl_value.
  unfold context_adjusted_sl. rewrite !getitem_config, Ec, Es.
  destruct (SpeculationLengthAdapter._predict_from_stability _ _) as [b |];
    simpl; [| reflexivity].
  rewrite !adjust_for_history_value, !perf_of_insert, !getitem_config, Ec, Ep.
  reflexivity.
Qed.

Lemma adjust_for_history_state (a : SpeculationLengthAdapter.t)
    (sequence_id : string) (base_sl : Q) :
  snd (SpeculationLengthAdapter._adjust_for_history a sequence_id base_sl)
  = snd (SpeculationLengthAdapter.sequence_performance_getitem a sequence_id).
Proof.
  unfold SpeculationLengthAdapter._adjust_for_history.
  destruct (SpeculationLengthAdapter.sequence_performance_getitem a
              sequence_id) as [p a'].
  now destruct (Py.items _).
Qed.

Lemma getitem_twice (a : SpeculationLengthAdapter.t) (sequence_id : string) :
  snd (SpeculationLengthAdapter.sequence_performance_getitem
         (snd (SpeculationLengthAdapter.sequence_performance_getitem a
                 sequence_id)) sequence_id)
  = snd (SpeculationLengthAdapter.sequence_performance_getitem a sequence_id).
Proof.
  unfold SpeculationLengthAdapter.sequence_performance_getitem.
  destruct (SpeculationLengthAdapter.sequence_performance a !! sequence_id)
    eqn:E; simpl; [now rewrite E | now rewrite lookup_insert_eq].
Qed.

(** What [predict_optimal_sl] does to the adapter: the sequence's
    performance entry exists afterwards, and its state entry is rewritten
    exactly when the call returns. *)
Lemma predict_state (a : SpeculationLengthAdapter.t) (sequence_id : string)
    (context_info : option (gmap string pyval)) :
  let a' := snd (SpeculationLengthAdapter.predict_optimal_sl a sequence_id
                   context_info) in
  SpeculationLengthAdapter.config a' = SpeculationLengthAdapter.config a
  /\ SpeculationLengthAdapter.sequence_performance a'
     = <[sequence_id := perf_of a sequence_id]>
         (SpeculationLengthAdapter.sequence_performance a)
  /\ forall other, other <> sequence_id ->
       SpeculationLengthAdapter.sequence_states a' !! other
       = SpeculationLengthAdapter.sequence_states a !! other.
Proof.
  unfold SpeculationLengthAdapter.predict_optimal_sl.
  destruct (getitem_perf a sequence_id) as (_ & Ep & Es).
  pose proof (getitem_config a sequence_id) as Ec.
  pose proof (getitem_twice a sequence_id) as Et.
  destruct (SpeculationLengthAdapter.sequence_performance_getitem a
              sequence_id) as [p a1]. simpl in Ep, Es, Ec, Et.
  destruct (SpeculationLengthAdapter._predict_from_stability _ _) as [b |];
    simpl; [| now rewrite Ec, Ep, Es].
  pose proof (adjust_for_history_state a1 sequence_id b) as Eh.
  destruct (SpeculationLengthAdapter._adjust_for_history a1 sequence_id b)
    as [h a2]. simpl in Eh. rewrite Et in Eh. subst a2.
  destruct (SpeculationLengthAdapter._adjust_for_context h context_info);
    simpl; rewrite ?Ec, ?Ep, ?Es; repeat split; try reflexivity.
  intros other N. now rewrite lookup_insert_ne.
Qed.

Lemma update_performance_state (a : SpeculationLengthAdapter.t)
    (sequence_id : string) (sl accepted total : Z) :
  let a' := SpeculationLengthAdapter.update_performance a sequence_id sl
              accepted total in
  let p := perf_of a sequence_id in
  SpeculationLengthAdapter.config a' = SpeculationLengthAdapter.config a
  /\ SpeculationLengthAdapter.sequence_states a'
     = SpeculationLengthAdapter.sequence_states a
  /\ SpeculationLengthAdapter.sequence_performance a'
     = <[sequence_id :=
           SpeculationLengthAdapter.Perf
             (Py.append (SpeculationLengthAdapter.recent_acceptance_rates p)
                (inject_Z accepted / inject_Z (Z.max 1 total)))
             (Py.append (SpeculationLengthAdapter.recent_speculation_lengths p)
                sl)
             (SpeculationLengthAdapter.total_tokens_generated p + total)
             (SpeculationLengthAdapter.total_tokens_accepted p + accepted)]>
         (SpeculationLengthAdapter.sequence_performance a).
Proof.
  unfold SpeculationLengthAdapter.update_performance.
  destruct (getitem_perf a sequence_id) as (Ef & Ep & Es).
  pose proof (getitem_config a sequence_id) as Ec.
  destruct (SpeculationLengthAdapter.sequence_performance_getitem a
              sequence_id) as [p a1]. simpl in *. subst p.
  rewrite Ec, Es, Ep. repeat split. apply insert_insert_eq.
Qed.

Lemma get_sequence_stats_state (a : SpeculationLengthAdapter.t)
    (sequence_id : string) :
  let a' := snd (SpeculationLengthAdapter.get_sequence_stats a sequence_id) in
  SpeculationLengthAdapter.config a' = SpeculationLengthAdapter.config a
  /\ SpeculationLengthAdapter.sequence_states a'
     = SpeculationLengthAdapter.sequence_states a
  /\ SpeculationLengthAdapter.sequence_performance a'
     = <[sequence_id := perf_of a sequence_id]>
         (SpeculationLengthAdapter.sequence_performance a).
Proof.
  unfold SpeculationLengthAdapter.get_sequence_stats.
  destruct (getitem_perf a sequence_id) as (_ & Ep & Es).
  pose proof (getitem_config a sequence_id) as Ec.
  destruct (SpeculationLengthAdapter.sequence_performance_getitem a
              sequence_id) as [p a1]. simpl in *. now rewrite Ec, Es, Ep.
Qed.

End AdapterStateFacts.

Section AdapterTheorems.

Local Open Scope Q_scope.

Lemma perf_of_update_same (a : SpeculationLengthAdapter.t)
    (sequence_id : string) (sl accepted total : Z) :
  perf_of (SpeculationLengthAdapter.update_performance a sequence_id sl
             accepted total) sequence_id
  = SpeculationLengthAdapter.Perf
      (Py.append (SpeculationLengthAdapter.recent_acceptance_rates
                    (perf_of a sequence_id))
         (inject_Z accepted / inject_Z (Z.max 1 total)))
      (Py.append (SpeculationLengthAdapter.recent_speculation_lengths
                    (perf_of a sequence_id)) sl)
      (SpeculationLengthAdapter.total_tokens_generated (perf_of a sequence_id)
       + total)
      (SpeculationLengthAdapter.total_tokens_accepted (perf_of a sequence_id)
       + accepted).
Proof.
  destruct (update_performance_state a sequence_id sl accepted total)
    as (_ & _ & E).
  unfold perf_of at 1. rewrite E, lookup_insert_eq. reflexivity.
Qed.

Lemma fold_Zadd_acc (l : list Z) (a : Z) :
  fold_left Z.add l a = (a + fold_left Z.add l 0)%Z.
Proof.
  revert a. induction l as [| x l IH]; intros a; simpl; [lia |].
  rewrite (IH (a + x)%Z), (IH (0 + x)%Z). lia.
Qed.

(** X6.  The running totals of a sequence are the sums over all recorded
    rounds, whatever the 10-entry window of the recent histories has
    dropped: after any list of [update_performance] calls for a sequence,
    its [total_tokens_generated] and [total_tokens_accepted] have grown by
    the sums of the totals and of the accepted counts. *)
Theorem update_performance_totals (a : SpeculationLengthAdapter.t)
    (sequence_id : string) (rounds : list (Z * Z * Z)) :
  SpeculationLengthAdapter.total_tokens_generated
    (perf_of (record_rounds a sequence_id rounds) sequence_id)
  = (SpeculationLengthAdapter.total_tokens_generated (perf_of a sequence_id)
     + fold_left Z.add (map snd rounds) 0)%Z
  /\ SpeculationLengthAdapter.total_tokens_accepted
       (perf_of (record_rounds a sequence_id rounds) sequence_id)
     = (SpeculationLengthAdapter.total_tokens_accepted (perf_of a sequence_id)
        + fold_left Z.add (map (fun r => snd (fst r)) rounds) 0)%Z.
Proof.
  unfold record_rounds. revert a.
  induction rounds as [| [[sl acc] tot] rounds IH]; intros a; simpl;
    [split; lia |].
  destruct (IH (SpeculationLengthAdapter.update_performance a sequence_id sl
                  acc tot)) as [G A].
  rewrite G, A, perf_of_update_same. simpl.
  rewrite (fold_Zadd_acc _ (0 + tot)%Z), (fold_Zadd_acc _ (0 + acc)%Z).
  split; lia.
Qed.

Lemma perf_default_bounded :
  (within_bound (SpeculationLengthAdapter.recent_acceptance_rates
                   SpeculationLengthAdapter.perf_default)
   /\ Py.maxlen (SpeculationLengthAdapter.recent_acceptance_rates
                   SpeculationLengthAdapter.perf_default) = 10%nat)
  /\ (within_bound (SpeculationLengthAdapter.recent_speculation_lengths
                      SpeculationLengthAdapter.perf_default)
      /\ Py.maxlen (SpeculationLengthAdapter.recent_speculation_lengths
                      SpeculationLengthAdapter.perf_default) = 10%nat).
Proof. unfold within_bound. simpl. repeat split; lia. Qed.

Lemma perf_of_bounded (a : SpeculationLengthAdapter.t) (sequence_id : string) :
  recent_bounded a ->
  (within_bound (SpeculationLengthAdapter.recent_acceptance_rates
                   (perf_of a sequence_id))
   /\ Py.maxlen (SpeculationLengthAdapter.recent_acceptance_rates
                   (perf_of a sequence_id)) = 10%nat)
  /\ (within_bound (SpeculationLengthAdapter.recent_speculation_lengths
                      (perf_of a sequence_id))
      /\ Py.maxlen (SpeculationLengthAdapter.recent_speculation_lengths
                      (perf_of a sequence_id)) = 10%nat).
Proof.
  intros B. unfold perf_of.
  destruct (SpeculationLengthAdapter.sequence_performance a !! sequence_id)
    as [p |] eqn:E; simpl; [now apply (B sequence_id) | apply perf_default_bounded].
Qed.

Lemma adapter_step_bounded (a : SpeculationLengthAdapter.t) (op : adapter_op) :
  recent_bounded a -> recent_bounded (adapter_step a op).
Proof.
  intros B. pose proof (perf_of_bounded a (op_sequence op) B) as Bp.
  destruct op as [s ctx | s sl acc tot | s]; simpl in *; intros s' p.
  - destruct (predict_state a s ctx) as (_ & -> & _).
    destruct (decide (s = s')) as [-> | N];
      [rewrite lookup_insert_eq; now intros [= <-]
      | rewrite lookup_insert_ne by exact N; apply B].
  - destruct (update_performance_state a s sl acc tot) as (_ & _ & ->).
    destruct (decide (s = s')) as [-> | N];
      [rewrite lookup_insert_eq; intros [= <-]
      | rewrite lookup_insert_ne by exact N; apply B].
    destruct Bp as [[B1 M1] [B2 M2]]. simpl.
    repeat split; try assumption; now apply append_within_bound.
  - destruct (get_sequence_stats_state a s) as (_ & _ & ->).
    destruct (decide (s = s')) as [-> | N];
      [rewrite lookup_insert_eq; now intros [= <-]
      | rewrite lookup_insert_ne by exact N; apply B].
Qed.

(** X7.  Whatever calls are made on a constructed adapter, no sequence's
    recent acceptance-rate history or recent speculation-length history
    ever holds more than 10 entries. *)
Theorem recent_histories_bounded (adapter_config : AdapterConfig)
    (signal_config : SignalConfig) (fresh : SpeculationLengthAdapter.t)
    (ops : list adapter_op) (sequence_id : string)
    (p : SpeculationLengthAdapter.perf) :
  SpeculationLengthAdapter.init adapter_config signal_config = Py.Ok fresh ->
  SpeculationLengthAdapter.sequence_performance (adapter_run ops fresh)
    !! sequence_id = Some p ->
  (length (Py.items (SpeculationLengthAdapter.recent_acceptance_rates p))
   <= 10)%nat
  /\ (length (Py.items (SpeculationLengthAdapter.recent_speculation_lengths p))
      <= 10)%nat.
Proof.
  intros I L.
  assert (recent_bounded fresh) as B0.
  { revert I. unfold SpeculationLengthAdapter.init.
    destruct (CombinedSignalProcessor.init signal_config); simpl;
      [| discriminate].
    intros [= <-] s q. simpl. rewrite lookup_empty. discriminate. }
  assert (recent_bounded (adapter_run ops fresh)) as B.
  { unfold adapter_run. clear L I. revert fresh B0.
    induction ops as [| op ops IH]; intros a B0; simpl; [exact B0 |].
    apply IH, adapter_step_bounded, B0. }
  destruct (B _ _ L) as [[B1 M1] [B2 M2]]. unfold within_bound in *. lia.
Qed.

Lemma adapter_step_frame (a : SpeculationLengthAdapter.t) (op : adapter_op) :
  SpeculationLengthAdapter.config (adapter_step a op)
  = SpeculationLengthAdapter.config a
  /\ SpeculationLengthAdapter.signal_processor (adapter_step a op)
     = SpeculationLengthAdapter.signal_processor a
  /\ forall other, other <> op_sequence op ->
       SpeculationLengthAdapter.sequence_performance (adapter_step a op)
         !! other
       = SpeculationLengthAdapter.sequence_performance a !! other
       /\ SpeculationLengthAdapter.sequence_states (adapter_step a op) !! other
          = SpeculationLengthAdapter.sequence_states a !! other.
Proof.
  destruct op as [s ctx | s sl acc tot | s]; simpl.
  - destruct (predict_state a s ctx) as (Ec & Ep & Es).
    split; [exact Ec |]. split; [apply predict_signals |].
    intros other N. rewrite Ep, lookup_insert_ne by congruence.
    split; [reflexivity | now apply Es].
  - destruct (update_performance_state a s sl acc tot) as (Ec & Es & Ep).
    split; [exact Ec |]. split; [apply update_performance_signals |].
    intros other N. rewrite Ep, Es, lookup_insert_ne by congruence.
    now split.
  - destruct (get_sequence_stats_state a s) as (Ec & Es & Ep).
    split; [exact Ec |]. split; [apply get_sequence_stats_signals |].
    intros other N. rewrite Ep, Es, lookup_insert_ne by congruence.
    now split.
Qed.

(** X8.  A call on the adapter for one sequence leaves the performance
    entry and the state entry of every other sequence as they are, and so
    the value that a prediction for another sequence returns. *)
Theorem adapter_step_other_sequences (a : SpeculationLengthAdapter.t)
    (op : adapter_op) (other : string)
    (context_info : option (gmap string pyval)) :
  other <> op_sequence op ->
  SpeculationLengthAdapter.sequence_performance (adapter_step a op) !! other
  = SpeculationLengthAdapter.sequence_performance a !! other
  /\ SpeculationLengthAdapter.sequence_states (adapter_step a op) !! other
     = SpeculationLengthAdapter.sequence_states a !! other
  /\ fst (SpeculationLengthAdapter.predict_optimal_sl (adapter_step a op)
            other context_info)
     = fst (SpeculationLengthAdapter.predict_optimal_sl a other context_info).
Proof.
  intros N. destruct (adapter_step_frame a op) as (Ec & Es & F).
  destruct (F other N) as [Ep Et].
  split; [exact Ep |]. split; [exact Et |].
  apply predict_value_congr; try assumption.
  unfold perf_of. now rewrite Ep.
Qed.

(** X9.  A prediction does not change what the next prediction for the
    same sequence returns: asked twice in a row with the same context, the
    adapter answers twice the same.  A call that returns adds one to the
    sequence's prediction count (counted from 0); a call that raises
    leaves the state entries as they are. *)
Theorem predict_repeatable (a : SpeculationLengthAdapter.t)
    (sequence_id : string) (context_info : option (gmap string pyval)) :
  let a' := snd (SpeculationLengthAdapter.predict_optimal_sl a sequence_id
                   context_info) in
  let count :=
    match SpeculationLengthAdapter.sequence_states a !! sequence_id with
    | Some s => SpeculationLengthAdapter.prediction_count s
    | None => 0%Z
    end in
  fst (SpeculationLengthAdapter.predict_optimal_sl a' sequence_id context_info)
  = fst (SpeculationLengthAdapter.predict_optimal_sl a sequence_id context_info)
  /\ (forall n,
        fst (SpeculationLengthAdapter.predict_optimal_sl a sequence_id
               context_info) = Py.Ok n ->
        SpeculationLengthAdapter.prediction_count
          <$> (SpeculationLengthAdapter.sequence_states a' !! sequence_id)
        = Some (count + 1)%Z)
  /\ (forall e,
        fst (SpeculationLengthAdapter.predict_optimal_sl a sequence_id
               context_info) = Py.Raise e ->
        SpeculationLengthAdapter.sequence_states a'
        = SpeculationLengthAdapter.sequence_states a).
Proof.
  cbv zeta. split; [| split].
  - destruct (predict_state a sequence_id context_info) as (Ec & Ep & _).
    apply predict_value_congr;
      [exact Ec | apply predict_signals |].
    unfold perf_of at 1. rewrite Ep, lookup_insert_eq. reflexivity.
  - intros n. unfold SpeculationLengthAdapter.predict_optimal_sl.
    destruct (getitem_perf a sequence_id) as (_ & _ & Es).
    pose proof (getitem_twice a sequence_id) as Et.
    destruct (SpeculationLengthAdapter.sequence_performance_getitem a
                sequence_id) as [p a1]. simpl in Es, Et.
    destruct (SpeculationLengthAdapter._predict_from_stability _ _) as [b |];
      simpl; [| discriminate].
    pose proof (adjust_for_history_state a1 sequence_id b) as Eh.
    destruct (SpeculationLengthAdapter._adjust_for_history a1 sequence_id b)
      as [h a2]. simpl in Eh. rewrite Et in Eh. subst a2.
    destruct (SpeculationLengthAdapter._adjust_for_context h context_info);
      simpl; [| discriminate].
    intros _. rewrite lookup_insert_eq, Es. reflexivity.
  - intros e. unfold SpeculationLengthAdapter.predict_optimal_sl.
    destruct (getitem_perf a sequence_id) as (_ & _ & Es).
    pose proof (getitem_twice a sequence_id) as Et.
    destruct (SpeculationLengthAdapter.sequence_performance_getitem a
                sequence_id) as [p a1]. simpl in Es, Et.
    destruct (SpeculationLengthAdapter._predict_from_stability _ _) as [b |];
      simpl; [| intros _; exact Es].
    pose proof (adjust_for_history_state a1 sequence_id b) as Eh.
    destruct (SpeculationLengthAdapter._adjust_for_history a1 sequence_id b)
      as [h a2]. simpl in Eh. rewrite Et in Eh. subst a2.
    destruct (SpeculationLengthAdapter._adjust_for_context h context_info);
      simpl; [discriminate | intros _; exact Es].
Qed.

End AdapterTheorems.

Section AdjustmentTheorems.

Local Open Scope Q_scope.

Lemma scale_up (b f : Q) : 0 <= b -> 1 <= f -> b <= b * f.
Proof. intros. nra. Qed.

Lemma scale_down (b f : Q) : 0 <= b -> f <= 1 -> b * f <= b.
Proof. intros. nra. Qed.

Lemma blend_up (w adjustment : Q) :
  0 <= w -> 1 <= adjustment -> 1 <= w * adjustment + (1 - w) * 1.
Proof. intros. nra. Qed.

Lemma blend_down (w adjustment : Q) :
  0 <= w -> adjustment <= 1 -> w * adjustment + (1 - w) * 1 <= 1.
Proof. intros. nra. Qed.

(** X10.  Without recorded rounds [_adjust_for_history] returns the base
    as it is.  With recorded rounds, a non-negative base, a non-negative
    [history_weight] and a positive [min_acceptance_rate], a mean recent
    acceptance above the target never lowers the base, and one at or below
    the target never raises it. *)
Theorem adjust_for_history_direction (a : SpeculationLengthAdapter.t)
    (sequence_id : string) (base_sl : Q) :
  let rates := Py.items (SpeculationLengthAdapter.recent_acceptance_rates
                           (perf_of a sequence_id)) in
  let cfg := SpeculationLengthAdapter.config a in
  let adjusted :=
    fst (SpeculationLengthAdapter._adjust_for_history a sequence_id base_sl) in
  (rates = [] -> adjusted = base_sl)
  /\ (rates <> [] -> 0 <= base_sl -> 0 <= history_weight cfg ->
      0 < min_acceptance_rate cfg ->
      (target_acceptance_rate cfg < np.mean rates -> base_sl <= adjusted)
      /\ (np.mean rates <= target_acceptance_rate cfg -> adjusted <= base_sl)).
Proof.
  cbv zeta. rewrite adjust_for_history_value.
  destruct (Py.items _) as [| r0 rates] eqn:E; split;
    try reflexivity; try contradiction; try discriminate.
  intros _ Hb Hw Hm. unfold history_factor.
  generalize dependent (np.mean (r0 :: rates)). intros m.
  generalize dependent (SpeculationLengthAdapter.config a). intros cfg Hw Hm.
  split.
  - intros Above.
    replace (Py.Qlt_bool (target_acceptance_rate cfg) m) with true
      by (symmetry; now apply Qlt_bool_true).
    apply scale_up; [exact Hb |]. apply blend_up; [exact Hw | lra].
  - intros Below.
    replace (Py.Qlt_bool (target_acceptance_rate cfg) m) with false
      by (symmetry; now apply Qlt_bool_false).
    apply scale_down; [exact Hb |]. apply blend_down; [exact Hw |].
    destruct (Py.Qlt_bool m (min_acceptance_rate cfg)) eqn:Low; [| lra].
    apply Qlt_bool_true in Low.
    assert (m / min_acceptance_rate cfg < 1) as D
      by (apply Qlt_shift_div_r; [exact Hm | lra]).
    lra.
Qed.


Lemma append_rates_unit (d : Py.deque Q) (accepted total : Z) :
  Forall (fun r => 0 <= r <= 1) (Py.items d) ->
  (0 <= accepted <= total)%Z ->
  Forall (fun r => 0 <= r <= 1)
    (Py.items (Py.append d (inject_Z accepted / inject_Z (Z.max 1 total)))).
Proof.
  intros F [Lo Hi]. apply append_Forall; [exact F |].
  assert (0 < inject_Z (Z.max 1 total)) as P
    by (change 0 with (inject_Z 0); rewrite <- Zlt_Qlt; lia).
  assert (0 <= inject_Z accepted) as A
    by (change 0 with (inject_Z 0); rewrite <- Zle_Qle; lia).
  assert (inject_Z accepted <= inject_Z (Z.max 1 total)) as B
    by (rewrite <- Zle_Qle; lia).
  split.
  - apply Qle_shift_div_l; [exact P | lra].
  - apply Qle_shift_div_r; [exact P | lra].
Qed.

Lemma record_rounds_sane (rounds : list (Z * Z * Z))
    (a : SpeculationLengthAdapter.t) (sequence_id : string) :
  sane_perf (perf_of a sequence_id) ->
  Forall (fun r => (0 <= snd (fst r) <= snd r)%Z) rounds ->
  sane_perf (perf_of (record_rounds a sequence_id rounds) sequence_id).
Proof.
  unfold record_rounds. revert a.
  induction rounds as [| [[sl acc] tot] rounds IH]; intros a S F; simpl;
    [exact S |].
  inversion F as [| ? ? Hr Fr]; subst. simpl in Hr.
  apply IH; [| exact Fr].
  rewrite perf_of_update_same. destruct S as [Sr St]. split; simpl.
  - now apply append_rates_unit.
  - lia.
Qed.

(** X12.  When a sequence's entry is sane (as a new one is) and every
    recorded round has [0 <= accepted_tokens <= total_tokens], the overall
    and the recent acceptance rate that [get_sequence_stats] reports lie in
    [0, 1]; a round with [total_tokens = 0] divides by 1, not by zero. *)
Theorem acceptance_rates_in_unit (a : SpeculationLengthAdapter.t)
    (sequence_id : string) (rounds : list (Z * Z * Z)) :
  sane_perf (perf_of a sequence_id) ->
  Forall (fun r => (0 <= snd (fst r) <= snd r)%Z) rounds ->
  let stats :=
    fst (SpeculationLengthAdapter.get_sequence_stats
           (record_rounds a sequence_id rounds) sequence_id) in
  0 <= SpeculationLengthAdapter.st_overall_acceptance_rate stats <= 1
  /\ 0 <= SpeculationLengthAdapter.st_recent_acceptance_rate stats <= 1.
Proof.
  intros S F. pose proof (record_rounds_sane rounds a sequence_id S F) as S'.
  set (a' := record_rounds a sequence_id rounds) in *. cbv zeta.
  unfold SpeculationLengthAdapter.get_sequence_stats.
  destruct (getitem_perf a' sequence_id) as (Ef & _ & _).
  destruct (SpeculationLengthAdapter.sequence_performance_getitem a'
              sequence_id) as [p a1]. simpl in Ef. subst p. simpl.
  destruct S' as [Sr [Lo Hi]]. split.
  - assert (0 < inject_Z (Z.max 1 (SpeculationLengthAdapter.total_tokens_generated
                                     (perf_of a' sequence_id)))) as P
      by (change 0 with (inject_Z 0); rewrite <- Zlt_Qlt; lia).
    split.
    + apply Qle_shift_div_l; [exact P |].
      rewrite Qmult_0_l. change 0 with (inject_Z 0). rewrite <- Zle_Qle. lia.
    + apply Qle_shift_div_r; [exact P |].
      rewrite Qmult_1_l, <- Zle_Qle. lia.
  - destruct (Py.items (SpeculationLengthAdapter.recent_acceptance_rates
                          (perf_of a' sequence_id))) as [| r0 rs] eqn:E;
      [lra |].
    split.
    + apply mean_nonneg. eapply Forall_impl; [exact Sr |].
      intros r Hr. simpl in Hr. lra.
    + apply mean_le_bound; [discriminate |].
      eapply Forall_impl; [exact Sr |]. intros r Hr. simpl in Hr. lra.
Qed.

End AdjustmentTheorems.

(* ===================================================================== *)
(** * Further properties of the utilities ([utils.py])                     *)
(* ===================================================================== *)

Section UtilsTheorems.

Local Open Scope Q_scope.

(** X13.  On a non-empty batch the optimiser of [utils.py] returns a cap
    between 1 and 8 and caps every prediction at it: each returned length
    is the smaller of the prediction and the cap, so no length is ever
    increased (this optimiser has no smoothing pass); and the batch
    history keeps its bound. *)
Theorem utils_optimize_caps (self : UtilsBatchOptimizer.t) (l : list Z)
    (priorities : option (list Q)) :
  l <> [] ->
  let r := UtilsBatchOptimizer.optimize_batch_speculation_lengths self l
             priorities in
  let optimized := fst (fst r) in
  let cap := snd (fst r) in
  (1 <= cap <= 8)%Z
  /\ optimized = map (fun sl => Z.min sl cap) l
  /\ Forall2 Z.le optimized l
  /\ Forall (fun sl => (sl <= cap)%Z) optimized
  /\ Py.maxlen (UtilsBatchOptimizer.batch_history (snd r))
     = Py.maxlen (UtilsBatchOptimizer.batch_history self)
  /\ (within_bound (UtilsBatchOptimizer.batch_history self) ->
      within_bound (UtilsBatchOptimizer.batch_history (snd r))).
Proof.
  intros N. destruct l as [| z l']; [contradiction |]. cbv zeta.
  unfold UtilsBatchOptimizer.optimize_batch_speculation_lengths.
  set (l := z :: l').
  set (cap := Z.max 1 (Z.min 8 (Py.round _))). cbn [fst snd].
  split; [lia |]. split; [reflexivity |]. split; [| split; [| split]].
  - clearbody cap. clear. induction l as [| x l IH]; simpl; constructor;
      [lia | exact IH].
  - apply List.Forall_forall. intros y Hy.
    apply in_map_iff in Hy as [x [<- _]]. lia.
  - reflexivity.
  - intros B. now apply append_within_bound.
Qed.

(** X15.  The rates of a decode result never divide by zero.  With
    [0 <= tokens_accepted <= tokens_generated] the acceptance rate lies in
    [0, 1] (it is 0 for a result without tokens); and with
    [0 <= tokens_generated] the tokens per second and the speed-up estimate
    are non-negative, whatever the elapsed time is. *)
Theorem decode_result_rates (r : DSDecodeResult.t) :
  ((0 <= DSDecodeResult.tokens_accepted r <= DSDecodeResult.tokens_generated r)%Z ->
   0 <= DSDecodeResult.acceptance_rate r <= 1)
  /\ ((0 <= DSDecodeResult.tokens_generated r)%Z ->
      0 <= DSDecodeResult.tokens_per_second r
      /\ 0 <= DSDecodeResult.speedup_estimate r).
Proof.
  unfold DSDecodeResult.acceptance_rate, DSDecodeResult.tokens_per_second,
    DSDecodeResult.speedup_estimate.
  assert (0 < Py.max (DSDecodeResult.total_time r) (1 # 1000)) as T
    by (destruct (py_max_cases (DSDecodeResult.total_time r) (1 # 1000))
          as [[-> L] | [-> L]]; lra).
  split.
  - intros [Lo Hi].
    assert (0 < inject_Z (Z.max (DSDecodeResult.tokens_generated r) 1)) as P
      by (change 0 with (inject_Z 0); rewrite <- Zlt_Qlt; lia).
    split.
    + apply Qle_shift_div_l; [exact P |].
      rewrite Qmult_0_l. change 0 with (inject_Z 0). rewrite <- Zle_Qle. lia.
    + apply Qle_shift_div_r; [exact P |].
      rewrite Qmult_1_l, <- Zle_Qle. lia.
  - intros Lo.
    assert (0 <= inject_Z (DSDecodeResult.tokens_generated r)) as G
      by (change 0 with (inject_Z 0); rewrite <- Zle_Qle; lia).
    split; (apply Qle_shift_div_l; [exact T | lra]).
Qed.

(** X16.  The priority that the scheduler computes for a sequence lies
    between 0.3 and 0.7, whatever the prompt and the token budget are; the
    clamp to [0, 1] never cuts. *)
Theorem calculate_priority_range (sequence : Sequence) :
  (3 # 10) <= DynamicScheduler._calculate_priority sequence <= (7 # 10).
Proof.
  unfold DynamicScheduler._calculate_priority.
  destruct (_ <? 100)%Z; [| destruct (1000 <? _)%Z];
    (destruct (_ <? 50)%Z; [| destruct (500 <? _)%Z]);
    vm_compute; split; discriminate.
Qed.

End UtilsTheorems.

Section VarianceFacts.

Local Open Scope Q_scope.

Lemma sum_nil : Py.sum [] == 0.
Proof. apply Qeq_refl. Qed.

Lemma len_cons {A} (x : A) (l : list A) :
  inject_Z (Py.len (x :: l)) == inject_Z (Py.len l) + 1.
Proof.
  unfold Py.len. cbn [length].
  rewrite Nat2Z.inj_succ, <- Z.add_1_r, inject_Z_plus. apply Qeq_refl.
Qed.

(** The sum of the squared distances to a point [a], expanded. *)
Lemma sum_sq_shift (a : Q) (l : list Q) :
  Py.sum (map (fun z => (z - a) * (z - a)) l)
  == Py.sum (map (fun z => z * z) l) - 2 * a * Py.sum l
     + inject_Z (Py.len l) * a * a.
Proof.
  induction l as [| x l IH].
  - cbn [map]. rewrite !sum_nil. change (inject_Z (Py.len [])) with 0. lra.
  - cbn [map]. rewrite !sum_cons, len_cons, IH. lra.
Qed.

(** The mean is the point with the least sum of squared distances. *)
Lemma sum_sq_dev_minimal (a : Q) (l : list Q) :
  l <> [] ->
  Py.sum (map (fun z => (z - np.mean l) * (z - np.mean l)) l)
  <= Py.sum (map (fun z => (z - a) * (z - a)) l).
Proof.
  intros N. rewrite !sum_sq_shift.
  pose proof (len_pos l N) as P.
  assert (Py.sum l == inject_Z (Py.len l) * np.mean l) as E
    by (unfold np.mean; field; lra).
  rewrite E.
  generalize dependent (np.mean l). intros m _.
  generalize dependent (inject_Z (Py.len l)). intros n P.
  generalize (Py.sum (map (fun z => z * z) l)). intros s2.
  assert (0 <= n * ((a - m) * (a - m))) as K.
  { apply Qmult_le_0_compat; [lra |]. generalize (a - m). intros d. nra. }
  assert (s2 - 2 * a * (n * m) + n * a * a
          - (s2 - 2 * m * (n * m) + n * m * m)
          == n * ((a - m) * (a - m))) as D by ring.
  lra.
Qed.

(** Capping moves no two points apart. *)
Lemma cap_contracts (c x : Z) (m : Q) :
  (inject_Z (Z.min x c) - capped_point c m)
  * (inject_Z (Z.min x c) - capped_point c m)
  <= (inject_Z x - m) * (inject_Z x - m).
Proof.
  unfold capped_point.
  destruct (Qle_bool m (inject_Z c)) eqn:E.
  - apply Qle_bool_iff in E.
    destruct (Z.min_spec x c) as [[L ->] | [L ->]]; [apply Qle_refl |].
    rewrite Zle_Qle in L. nra.
  - assert (inject_Z c < m) as G.
    { apply Qnot_le_lt. intros L. apply Qle_bool_iff in L. congruence. }
    destruct (Z.min_spec x c) as [[L ->] | [L ->]].
    + apply Z.lt_le_incl in L. rewrite Zle_Qle in L.
      generalize dependent (inject_Z x). generalize dependent (inject_Z c).
      intros c' _ G x' L.
      assert (0 <= (m - c') * ((m - x') + (c' - x'))) as K
        by (apply Qmult_le_0_compat; lra).
      assert ((x' - m) * (x' - m) - (x' - c') * (x' - c')
              == (m - c') * ((m - x') + (c' - x'))) as D by ring.
      lra.
    + generalize (inject_Z x - m). generalize (inject_Z c). intros c' d.
      assert ((c' - c') * (c' - c') == 0) as D by ring.
      assert (0 <= d * d) by nra. lra.
Qed.

Lemma sum_sq_cap (c : Z) (m : Q) (l : list Z) :
  Py.sum (map (fun z => (z - capped_point c m) * (z - capped_point c m))
            (map inject_Z (map (fun sl => Z.min sl c) l)))
  <= Py.sum (map (fun z => (z - m) * (z - m)) (map inject_Z l)).
Proof.
  induction l as [| x l IH]; [apply Qle_refl |].
  cbn [map]. rewrite !sum_cons.
  pose proof (cap_contracts c x m). lra.
Qed.

Lemma var_unfold (l : list Q) :
  np.var l
  = Py.sum (map (fun x => (x - np.mean l) * (x - np.mean l)) l)
    / inject_Z (Py.len l).
Proof.
  unfold np.var. cbv zeta. unfold np.mean at 1.
  unfold Py.len. now rewrite length_map.
Qed.

(** Capping a batch never increases its variance. *)
Lemma var_cap_le (c : Z) (l : list Z) :
  l <> [] ->
  np.var (map inject_Z (map (fun sl => Z.min sl c) l))
  <= np.var (map inject_Z l).
Proof.
  intros N. rewrite !var_unfold.
  assert (Py.len (map inject_Z (map (fun sl => Z.min sl c) l))
          = Py.len (map inject_Z l)) as ->
    by (unfold Py.len; now rewrite !length_map).
  assert (map inject_Z l <> []) as N'
    by (destruct l; [contradiction | discriminate]).
  pose proof (len_pos _ N') as P.
  apply Qmult_le_compat_r; [| apply Qlt_le_weak, Qinv_lt_0_compat, P].
  eapply Qle_trans; [| apply (sum_sq_cap c)].
  apply sum_sq_dev_minimal.
  destruct l; [contradiction | discriminate].
Qed.

Lemma append_last {A} (d : Py.deque A) (x : A) :
  (0 < Py.maxlen d)%nat -> last (Py.items (Py.append d x)) = Some x.
Proof.
  intros M. unfold Py.append. cbn [Py.items].
  destruct (Py.maxlen d <? length (Py.items d ++ [x]))%nat eqn:E.
  - apply Nat.ltb_lt in E. rewrite length_app in E. simpl in E.
    destruct (Py.items d) as [| y l]; [simpl in E; lia |].
    simpl. rewrite drop_0. apply last_snoc.
  - apply last_snoc.
Qed.

(** X14.  On a non-empty batch the optimiser of [utils.py] appends a
    record of what it did to its batch history: the predictions, the
    capped lengths and the cap it returns, and a variance reduction that
    is never negative, since capping a batch cannot increase its
    variance. *)
Theorem utils_optimize_records (self : UtilsBatchOptimizer.t) (l : list Z)
    (priorities : option (list Q)) :
  l <> [] ->
  (0 < Py.maxlen (UtilsBatchOptimizer.batch_history self))%nat ->
  let r := UtilsBatchOptimizer.optimize_batch_speculation_lengths self l
             priorities in
  exists record,
    last (Py.items (UtilsBatchOptimizer.batch_history (snd r))) = Some record
    /\ UtilsBatchOptimizer.original_sls record = l
    /\ UtilsBatchOptimizer.optimized_sls record = fst (fst r)
    /\ UtilsBatchOptimizer.sl_cap record = snd (fst r)
    /\ 0 <= UtilsBatchOptimizer.variance_reduction record.
Proof.
  intros N M. destruct l as [| z l']; [contradiction |]. cbv zeta.
  unfold UtilsBatchOptimizer.optimize_batch_speculation_lengths.
  set (l := z :: l') in *.
  set (cap := Z.max 1 (Z.min 8 (Py.round _))). cbn [fst snd].
  eexists. split; [cbn [UtilsBatchOptimizer.batch_history];
                   apply append_last, M |].
  cbn [UtilsBatchOptimizer.original_sls UtilsBatchOptimizer.optimized_sls
       UtilsBatchOptimizer.sl_cap UtilsBatchOptimizer.variance_reduction].
  repeat split.
  pose proof (var_cap_le cap l N). lra.
Qed.

End VarianceFacts.

Section MetricsTheorems.

Local Open Scope Z_scope.

Lemma seqZ_snoc (m n : Z) : 0 <= n -> seqZ m n ++ [m + n] = seqZ m (n + 1).
Proof.
  intros L. rewrite seqZ_app by lia. f_equal.
Qed.

Lemma append_window {A} (d : Py.deque A) (x : A) :
  window_bounded d -> window_bounded (Py.append d x).
Proof.
  intros [M B]. split; [exact M | now apply append_within_bound].
Qed.

Lemma init_metrics_invariant (hs : Z) (pm : PerformanceMetrics.t) :
  PerformanceMetrics.init hs = Py.Ok pm -> 0 <= hs /\ metrics_invariant hs pm.
Proof.
  unfold PerformanceMetrics.init, Py.deque_new.
  destruct (Z.ltb_spec hs 0) as [L | L]; [discriminate |].
  cbn [Py.bind]. intros [= <-].
  split; [exact L |].
  unfold metrics_invariant, stored_round_ids, window_bounded, within_bound.
  cbn. repeat split; try lia; try constructor.
  change (Py.len []) with 0. lia.
Qed.

Lemma update_round_invariant (hs : Z) (pm : PerformanceMetrics.t)
    (sequence_count : Z) (processing_time : Q)
    (speculation_lengths accepted_tokens : option (list Z)) :
  0 <= hs -> metrics_invariant hs pm ->
  metrics_invariant hs
    (PerformanceMetrics.update_round_metrics pm sequence_count processing_time
       speculation_lengths accepted_tokens).
Proof.
  intros Hs [[Eh Em] [[Ec Pc] [[El Ei] [[Wt Ft] [[Wa Fa] Ws]]]]].
  unfold metrics_invariant, PerformanceMetrics.update_round_metrics.
  cbn [PerformanceMetrics.history_size PerformanceMetrics.round_metrics
       PerformanceMetrics.round_counter PerformanceMetrics.system_metrics
       PerformanceMetrics.total_rounds PerformanceMetrics.recent_throughput
       PerformanceMetrics.recent_acceptance_rates
       PerformanceMetrics.recent_speculation_lengths].
  split; [split; [exact Eh | exact Em] |].
  split; [split; lia |].
  split.
  - unfold stored_round_ids in *.
    cbn [PerformanceMetrics.round_metrics].
    set (c := PerformanceMetrics.round_counter pm) in *.
    set (d := PerformanceMetrics.round_metrics pm) in *.
    set (rm := SpeculationRoundMetrics.Build _ _ _ _ _).
    unfold Py.append. cbn [Py.items].
    unfold Py.len in *. rewrite length_map in *.
    assert (map SpeculationRoundMetrics.round_id (Py.items d ++ [rm])
            = seqZ (c - Z.of_nat (length (Py.items d)) + 1)
                (Z.of_nat (length (Py.items d)) + 1)) as E.
    { rewrite map_app, Ei. cbn [map SpeculationRoundMetrics.round_id rm].
      rewrite <- seqZ_snoc by lia. do 2 f_equal. lia. }
    rewrite length_app. cbn [length]. rewrite Em.
    destruct (Nat.ltb_spec (Z.to_nat hs) (length (Py.items d) + 1)) as [F | F].
    + rewrite length_drop, length_app. cbn [length].
      replace (Z.of_nat (length (Py.items d) + 1 - 1))
        with (Z.of_nat (length (Py.items d))) by lia.
      split; [lia |].
      rewrite <- skipn_map, E, seqZ_cons by lia.
      cbn [skipn]. rewrite drop_0. f_equal; lia.
    + rewrite length_app. cbn [length].
      replace (Z.of_nat (length (Py.items d) + 1))
        with (Z.of_nat (length (Py.items d)) + 1) by lia.
      split; [lia |]. rewrite E. f_equal. lia.
  - split; [| split].
    + destruct (Py.Qlt_bool 0 _) eqn:E; [| now split].
      split; [now apply append_window |].
      apply append_Forall; [exact Ft | now apply Qlt_bool_true].
    + destruct (Py.Qlt_bool 0 _) eqn:E; [| now split].
      split; [now apply append_window |].
      apply append_Forall; [exact Fa | now apply Qlt_bool_true].
    + destruct Ws as [M B].
      destruct speculation_lengths as [[| x l] |]; try (now split).
      unfold Py.extend.
      split; [now rewrite fold_append_maxlen
             | now apply fold_append_within_bound].
Qed.

Lemma metrics_step_invariant (hs : Z) (pm : PerformanceMetrics.t)
    (op : metrics_op) :
  0 <= hs -> metrics_invariant hs pm -> metrics_invariant hs (metrics_step pm op).
Proof.
  intros Hs I. destruct op as [sc pt sls acc | sid tg ta pt ic |].
  - now apply update_round_invariant.
  - destruct I as [[Eh Em] [[Ec Pc] [[El Ei] [[Wt Ft] [[Wa Fa] Ws]]]]].
    unfold metrics_invariant, stored_round_ids in *.
    cbn [metrics_step PerformanceMetrics.update_sequence_metrics
         PerformanceMetrics.history_size PerformanceMetrics.round_metrics
         PerformanceMetrics.round_counter PerformanceMetrics.system_metrics
         PerformanceMetrics.recent_throughput
         PerformanceMetrics.recent_acceptance_rates
         PerformanceMetrics.recent_speculation_lengths].
    repeat split; try assumption; try apply Wt; try apply Wa; try apply Ws.
    destruct ic; [cbn [PerformanceMetrics.total_rounds] |]; exact Ec.
  - destruct I as [[Eh Em] [[Ec Pc] [[El Ei] [[Wt Ft] [[Wa Fa] Ws]]]]].
    unfold metrics_invariant, stored_round_ids, window_bounded, within_bound
      in *.
    cbn. repeat split; try assumption; try lia; try constructor;
      try apply Wt; try apply Wa; try apply Ws.
    change (Py.len []) with 0. lia.
Qed.

(** X17.  A [PerformanceMetrics] object built with history size [hs]
    keeps, through any series of round updates, sequence updates and
    resets: the round counter equal to the system total of rounds; the
    stored rounds the last [min(counter, hs)] ones, their ids consecutive
    and ending at the counter; the three trend windows within 50 items;
    and only positive values in the throughput and acceptance-rate
    windows. *)
Theorem metrics_invariant_kept (hs : Z) (pm0 : PerformanceMetrics.t)
    (ops : list metrics_op) :
  PerformanceMetrics.init hs = Py.Ok pm0 ->
  metrics_invariant hs (metrics_run ops pm0).
Proof.
  intros E. apply init_metrics_invariant in E as [Hs I].
  unfold metrics_run. revert pm0 I.
  induction ops as [| op ops IH]; intros pm I; [exact I |].
  cbn [fold_left]. apply IH. now apply metrics_step_invariant.
Qed.

End MetricsTheorems.

Section SchedulerTheorems.

Local Open Scope Q_scope.

Context {A : Type} (key : A -> Q).

Lemma insert_reverse_perm (x : A) (l : list A) :
  Permutation (Py.insert_reverse key x l) (x :: l).
Proof.
  induction l as [| y l IH]; simpl; [reflexivity |].
  destruct (Py.Qlt_bool (key x) (key y)); [| reflexivity].
  rewrite IH. apply perm_swap.
Qed.

Lemma sorted_reverse_perm (l : list A) : Permutation (Py.sorted_reverse key l) l.
Proof.
  unfold Py.sorted_reverse.
  induction l as [| x l IH]; simpl; [reflexivity |].
  rewrite insert_reverse_perm. now constructor.
Qed.

Lemma insert_reverse_sorted (x : A) (l : list A) :
  StronglySorted (fun a b => key b <= key a) l ->
  StronglySorted (fun a b => key b <= key a) (Py.insert_reverse key x l).
Proof.
  induction 1 as [| y l S IH F]; simpl.
  - constructor; constructor.
  - destruct (Py.Qlt_bool (key x) (key y)) eqn:E.
    + apply Qlt_bool_true in E.
      constructor; [exact IH |].
      apply (Permutation_Forall (Permutation_sym (insert_reverse_perm x l))).
      constructor; [lra | exact F].
    + apply Qlt_bool_false in E.
      constructor; [now constructor |].
      constructor; [exact E |].
      eapply Forall_impl; [exact F |]. cbn. intros z Hz. lra.
Qed.

Lemma sorted_reverse_sorted (l : list A) :
  StronglySorted (fun a b => key b <= key a) (Py.sorted_reverse key l).
Proof.
  unfold Py.sorted_reverse.
  induction l as [| x l IH]; simpl; [constructor |].
  now apply insert_reverse_sorted.
Qed.

(** An insertion moves the new item only past items of greater key. *)
Lemma insert_reverse_filter (q : Q) (x : A) (l : list A) :
  List.filter (fun a => Qeq_bool (key a) q) (Py.insert_reverse key x l)
  = List.filter (fun a => Qeq_bool (key a) q) (x :: l).
Proof.
  induction l as [| y l IH]; [reflexivity |].
  cbn [Py.insert_reverse].
  destruct (Py.Qlt_bool (key x) (key y)) eqn:E; [| reflexivity].
  apply Qlt_bool_true in E.
  cbn [List.filter] in *. rewrite IH.
  destruct (Qeq_bool (key x) q) eqn:Ex, (Qeq_bool (key y) q) eqn:Ey;
    try reflexivity.
  apply Qeq_bool_iff in Ex, Ey. lra.
Qed.

Lemma sorted_reverse_filter (q : Q) (l : list A) :
  List.filter (fun a => Qeq_bool (key a) q) (Py.sorted_reverse key l)
  = List.filter (fun a => Qeq_bool (key a) q) l.
Proof.
  unfold Py.sorted_reverse.
  induction l as [| x l IH]; [reflexivity |].
  cbn [foldr]. rewrite insert_reverse_filter.
  cbn [List.filter]. now rewrite IH.
Qed.

End SchedulerTheorems.

Section ScheduleTheorems.

Local Open Scope Q_scope.

(** The priority loop writes only under the ids of its sequences, and
    leaves [active_sequences] alone. *)
Lemma assign_priorities_frame (sequences : list Sequence)
    (self : DynamicScheduler.t) :
  let self' := snd (DynamicScheduler.assign_priorities self sequences) in
  DynamicScheduler.active_sequences self'
  = DynamicScheduler.active_sequences self
  /\ forall id, ~ In (Some id) (map seq_id sequences) ->
       DynamicScheduler.sequence_priorities self' !! id
       = DynamicScheduler.sequence_priorities self !! id.
Proof.
  revert self. induction sequences as [| s rest IH]; intros self; cbv zeta.
  - split; [reflexivity | intros; reflexivity].
  - cbn [DynamicScheduler.assign_priorities].
    destruct (seq_id s) as [id0 |] eqn:E.
    + destruct (IH (DynamicScheduler.Build
                      (DynamicScheduler.active_sequences self)
                      (<[id0 := DynamicScheduler._calculate_priority s]>
                         (DynamicScheduler.sequence_priorities self))))
        as [Ea Ep].
      split; [exact Ea |].
      intros id N. cbn [map] in N. rewrite E in N.
      rewrite Ep by (intros I; apply N; now right).
      cbn [DynamicScheduler.sequence_priorities].
      apply lookup_insert_ne. intros ->. apply N. now left.
    + split; [reflexivity | intros; reflexivity].
Qed.

Lemma assign_priorities_ok (sequences : list Sequence)
    (self : DynamicScheduler.t) :
  Forall (fun s => seq_id s <> None) sequences ->
  fst (DynamicScheduler.assign_priorities self sequences) = Py.Ok tt
  /\ (NoDup (map seq_id sequences) ->
      forall s, In s sequences ->
        DynamicScheduler.priority_key
          (snd (DynamicScheduler.assign_priorities self sequences)) s
        = DynamicScheduler._calculate_priority s).
Proof.
  intros F. revert self.
  induction F as [| s rest Hs F IH]; intros self.
  - split; [reflexivity | intros _ s []].
  - cbn [DynamicScheduler.assign_priorities].
    destruct (seq_id s) as [id0 |] eqn:E; [| contradiction].
    set (self1 := DynamicScheduler.Build _ _).
    destruct (IH self1) as [Ok Key].
    split; [exact Ok |].
    intros ND s' [<- | I].
    + cbn [map] in ND. rewrite E in ND. apply NoDup_cons in ND as [NI _].
      unfold DynamicScheduler.priority_key. rewrite E.
      destruct (assign_priorities_frame rest self1) as [_ Ep].
      rewrite Ep by (intros I; apply NI, list_elem_of_In, I).
      subst self1. cbn [DynamicScheduler.sequence_priorities].
      now rewrite lookup_insert_eq.
    + cbn [map] in ND. apply NoDup_cons in ND as [_ ND].
      now apply Key.
Qed.

(** X18.  When every sequence of the batch carries an id,
    [schedule_sequences] returns the batch reordered: a permutation of it,
    in descending order of the stored priority, the sequences of equal
    priority in the order they came in (the sort is stable).  The
    scheduler's [active_sequences] is not touched; and when the ids are
    pairwise distinct, each sequence is ranked by its own computed
    priority. *)
Theorem schedule_sequences_sorted (self : DynamicScheduler.t)
    (sequences : list Sequence) :
  Forall (fun s => seq_id s <> None) sequences ->
  exists scheduled self',
    DynamicScheduler.schedule_sequences self sequences
    = (Py.Ok scheduled, self')
    /\ Permutation scheduled sequences
    /\ StronglySorted
         (fun a b => DynamicScheduler.priority_key self' b
                     <= DynamicScheduler.priority_key self' a) scheduled
    /\ (forall q,
          List.filter
            (fun s => Qeq_bool (DynamicScheduler.priority_key self' s) q)
            scheduled
          = List.filter
              (fun s => Qeq_bool (DynamicScheduler.priority_key self' s) q)
              sequences)
    /\ DynamicScheduler.active_sequences self'
       = DynamicScheduler.active_sequences self
    /\ (NoDup (map seq_id sequences) ->
        forall s, In s sequences ->
          DynamicScheduler.priority_key self' s
          = DynamicScheduler._calculate_priority s).
Proof.
  intros F. unfold DynamicScheduler.schedule_sequences.
  destruct (assign_priorities_ok sequences self F) as [Ok Key].
  destruct (assign_priorities_frame sequences self) as [Ea _].
  destruct (DynamicScheduler.assign_priorities self sequences) as [r self'].
  cbn [fst snd] in *. subst r.
  exists (Py.sorted_reverse (DynamicScheduler.priority_key self') sequences),
    self'.
  split; [reflexivity |].
  split; [apply sorted_reverse_perm |].
  split; [apply sorted_reverse_sorted |].
  split; [intros q; apply sorted_reverse_filter |].
  split; [exact Ea | exact Key].
Qed.

(** X19.  A sequence without ['id'] makes [schedule_sequences] raise
    [KeyError('id')]: nothing is scheduled, although the sequences before
    it have had their priorities stored. *)
Theorem schedule_sequences_missing_id (self : DynamicScheduler.t)
    (before after : list Sequence) (s : Sequence) :
  Forall (fun s => seq_id s <> None) before ->
  seq_id s = None ->
  let r := DynamicScheduler.schedule_sequences self (before ++ s :: after) in
  fst r = Py.Raise (Py.KeyError "id")
  /\ snd r = snd (DynamicScheduler.assign_priorities self before).
Proof.
  intros F E. cbv zeta. unfold DynamicScheduler.schedule_sequences.
  assert (DynamicScheduler.assign_priorities self (before ++ s :: after)
          = (Py.Raise (Py.KeyError "id"),
             snd (DynamicScheduler.assign_priorities self before))) as ->.
  { revert self. induction F as [| s0 rest Hs F IH]; intros self.
    - cbn [app DynamicScheduler.assign_priorities]. now rewrite E.
    - cbn [app DynamicScheduler.assign_priorities].
      destruct (seq_id s0); [apply IH | contradiction]. }
  split; reflexivity.
Qed.

End ScheduleTheorems.

(* ===================================================================== *)
(** * Further properties of the controller ([core.py])                     *)
(* ===================================================================== *)

Section BatchPredictionTheorems.

(** X20.  [_predict_batch_speculation_lengths] returns one length for
    each sequence id, in the order of the ids, and never raises: a
    prediction that fails is replaced by the default length of the
    controller's configuration.  When the adapter's configuration is valid
    and that default lies between the adapter's bounds, every returned
    length lies between them. *)
Theorem predict_batch_lengths (self : DSDecoder.t) (sequence_ids : list string)
    (context_info : option (gmap string (gmap string pyval))) :
  let cfg := SpeculationLengthAdapter.config (DSDecoder.sl_adapter self) in
  let sls :=
    fst (DSDecoder._predict_batch_speculation_lengths self sequence_ids
           context_info) in
  length sls = length sequence_ids
  /\ (valid_config cfg ->
      (min_speculation_length cfg
       <= default_speculation_length
            (adapter_config (DSDecoder.config self))
       <= max_speculation_length cfg)%Z ->
      Forall (fun sl => (min_speculation_length cfg <= sl
                         <= max_speculation_length cfg)%Z) sls).
Proof.
  cbv zeta. revert self.
  induction sequence_ids as [| seq_id rest IH]; intros self.
  - split; [reflexivity | constructor].
  - cbn [DSDecoder._predict_batch_speculation_lengths].
    pose proof (predict_optimal_sl_value (DSDecoder.sl_adapter self) seq_id
                  (Some (DSDecoder.seq_context context_info seq_id))) as Ev.
    destruct (predict_state (DSDecoder.sl_adapter self) seq_id
                (Some (DSDecoder.seq_context context_info seq_id)))
      as [Ec _].
    destruct (SpeculationLengthAdapter.predict_optimal_sl _ _ _) as [r a].
    cbn [fst snd] in Ev, Ec.
    specialize (IH (DSDecoder.with_sl_adapter self a)).
    destruct (DSDecoder._predict_batch_speculation_lengths _ rest context_info)
      as [sls self'].
    cbn [fst snd DSDecoder.with_sl_adapter DSDecoder.sl_adapter
         DSDecoder.config] in *.
    rewrite Ec in IH. destruct IH as [Len In].
    split; [cbn [length]; now rewrite Len |].
    intros V D. constructor; [| now apply In].
    subst r.
    destruct (context_adjusted_sl _ _ _) as [x |]; cbn [Py.bind];
      [apply int_clamp_sl, V | exact D].
Qed.

End BatchPredictionTheorems.

Section EmptyBatchTheorems.

Context `{Models}.

(** X21.  [decode_batch] of an empty batch runs no speculation round: it
    returns the empty list of results whatever bound is put on the number
    of rounds, leaves the controller as it was, and reads the clock
    once. *)
Theorem decode_empty_batch (fuel : nat) (self : DSDecoder.t) (w : world)
    (context_info : option (gmap string (gmap string pyval))) :
  DSDecoder.decode_batch fuel self w [] context_info
  = (DSDecoder.Returned [], self, snd (elapsed w)).
Proof.
  unfold DSDecoder.decode_batch.
  cbn [DSDecoder.index_sequences].
  destruct fuel; cbn [DSDecoder.decode_loop];
    destruct (elapsed w) as [batch_time w']; cbn [DSDecoder.finalize snd];
    unfold DSDecoder._update_global_stats; cbn;
    destruct self as [c sp a b pm act [n1 n2 n3 n4 q] rp];
    cbn; unfold DSDecoder.with_global_stats; cbn;
    rewrite !Z.add_0_r; reflexivity.
Qed.

End EmptyBatchTheorems.

Section OdictKeyFacts.

Context {V : Type}.

Lemma odict_get_In (d : odict.t V) (k : string) (v : V) :
  odict.get d k = Some v -> In (k, v) d.
Proof.
  induction d as [| [k' v'] d IH]; simpl; [discriminate |].
  destruct (String.eqb k' k) eqn:E.
  - apply String.eqb_eq in E. intros [= ->]. subst. now left.
  - intros G. right. now apply IH.
Qed.

Lemma odict_keys_get (d : odict.t V) (k : string) :
  In k (odict.keys d) <-> is_Some (odict.get d k).
Proof.
  unfold odict.keys. split.
  - intros I. apply in_map_iff in I as [[k' v] [E I]]. simpl in E. subst k'.
    eapply odict_get_in, I.
  - intros S. apply odict_get_some_in in S as [v I].
    apply in_map_iff. now exists (k, v).
Qed.

Lemma odict_set_Forall (P : string * V -> Prop) (d : odict.t V) (k : string)
    (v : V) :
  Forall P d -> P (k, v) -> Forall P (odict.set d k v).
Proof.
  intros F Pk. induction F as [| [k' v'] d Px F IH]; simpl.
  - now constructor.
  - destruct (String.eqb k' k); constructor; assumption.
Qed.

Lemma odict_set_keys_in (d : odict.t V) (k x : string) (v : V) :
  In x (odict.keys (odict.set d k v)) -> x = k \/ In x (odict.keys d).
Proof.
  rewrite !odict_keys_get. destruct (decide (k = x)) as [-> | N].
  - now left.
  - rewrite odict_get_set_ne by exact N. now right.
Qed.

Lemma odict_set_NoDup (d : odict.t V) (k : string) (v : V) :
  NoDup (odict.keys d) -> NoDup (odict.keys (odict.set d k v)).
Proof.
  unfold odict.keys.
  induction d as [| [k' v'] d IH]; simpl; intros ND.
  - apply NoDup_singleton.
  - apply NoDup_cons in ND as [NI ND].
    destruct (String.eqb k' k) eqn:E.
    + apply String.eqb_eq in E. subst k'. simpl.
      apply NoDup_cons. now split.
    + simpl. apply NoDup_cons. split; [| now apply IH].
      intros I. apply list_elem_of_In, odict_set_keys_in in I as [-> | I].
      * now rewrite String.eqb_refl in E.
      * apply NI, list_elem_of_In, I.
Qed.

Lemma odict_get_del_ne (d : odict.t V) (k k' : string) :
  k <> k' -> odict.get (odict.del d k) k' = odict.get d k'.
Proof.
  intros N. induction d as [| [k0 v0] d IH]; simpl; [reflexivity |].
  destruct (String.eqb k0 k) eqn:E.
  - apply String.eqb_eq in E. subst k0.
    destruct (String.eqb k k') eqn:E'; [| reflexivity].
    apply String.eqb_eq in E'. contradiction.
  - simpl. destruct (String.eqb k0 k'); [reflexivity | exact IH].
Qed.

Lemma odict_get_del (d : odict.t V) (k k' : string) :
  is_Some (odict.get (odict.del d k) k') -> is_Some (odict.get d k').
Proof.
  induction d as [| [k0 v0] d IH]; simpl; [trivial |].
  destruct (String.eqb k0 k) eqn:E.
  - intros S. destruct (String.eqb k0 k'); [eauto | exact S].
  - simpl. destruct (String.eqb k0 k'); [trivial | exact IH].
Qed.

End OdictKeyFacts.

Section DecodeTheorems.

Context `{Models}.

Lemma index_sequences_keys (sequences : list Sequence)
    (acc d : odict.t Sequence) :
  DSDecoder.index_sequences sequences acc = Py.Ok d ->
  (forall s, In s sequences ->
     exists id, seq_id s = Some id /\ is_Some (odict.get d id))
  /\ (forall id, is_Some (odict.get acc id) -> is_Some (odict.get d id))
  /\ (forall id, is_Some (odict.get d id) ->
        is_Some (odict.get acc id)
        \/ exists s, In s sequences /\ seq_id s = Some id).
Proof.
  revert acc. induction sequences as [| s rest IH]; intros acc; simpl.
  - intros [= <-]. split; [intros s [] |]. split; [trivial | now left].
  - destruct (seq_id s) as [id0 |] eqn:E; [| discriminate].
    intros G. destruct (IH _ G) as (Hin & Hacc & Hd).
    split; [| split].
    + intros s' [<- | I]; [| now apply Hin].
      exists id0. split; [exact E |].
      apply Hacc. rewrite odict_get_set_eq. eauto.
    + intros id S. apply Hacc. now apply odict_set_keeps.
    + intros id S. destruct (Hd id S) as [Sa | [s' [I Es]]].
      * destruct (decide (id0 = id)) as [<- | N].
        -- right. exists s. split; [now left | exact E].
        -- left. now rewrite odict_get_set_ne in Sa.
      * right. exists s'. split; [now right | exact Es].
Qed.

(** A round writes results only for the ids it is given. *)
Lemma process_round_keys (ids : list string) (self : DSDecoder.t)
    (draft_results : odict.t draft_result)
    (verification_results : odict.t verification_result)
    (sls : list Z) (i : nat) (results : odict.t DSDecoder.round_result)
    (id : string) :
  is_Some (odict.get
             (fst (DSDecoder.process_round_from self draft_results
                     verification_results sls i ids results)) id) ->
  In id ids \/ is_Some (odict.get results id).
Proof.
  revert self i results.
  induction ids as [| seq_id rest IH]; intros self i results; [now right |].
  cbn [DSDecoder.process_round_from].
  destruct (odict.get draft_results seq_id) as [d |];
    [destruct (odict.get verification_results seq_id) as [v |] |].
  - destruct (DSDecoder._process_verification_result self seq_id d v _)
      as [r self'].
    intros S. apply IH in S as [I | S]; [left; now right |].
    destruct (decide (seq_id = id)) as [-> | N]; [left; now left |].
    right. now rewrite odict_get_set_ne in S.
  - intros S. apply IH in S as [I | S]; [left; now right | now right].
  - intros S. apply IH in S as [I | S]; [left; now right | now right].
Qed.

Lemma perform_round_keys (self self' : DSDecoder.t) (w w' : world)
    (active : odict.t Sequence) (sls : list Z)
    (results : odict.t DSDecoder.round_result) :
  DSDecoder._perform_speculation_round self w active sls
  = Py.Ok (results, self', w') ->
  forall id, is_Some (odict.get results id) -> is_Some (odict.get active id).
Proof.
  unfold DSDecoder._perform_speculation_round.
  destruct (DSDecoder._generate_draft_tokens w active sls) as [dr w1].
  destruct (DSDecoder._verify_with_target w1 active dr) as [vr w2].
  pose proof (process_round_keys (odict.keys active) self dr vr sls 0%nat [])
    as K.
  destruct (DSDecoder.process_round_from self dr vr sls 0 (odict.keys active)
              []) as [res self1].
  destruct (elapsed w2) as [round_time w3].
  cbn [Py.try_except fst] in *. intros [= <- _ _] id S.
  apply K in S as [I | [? [=]]]. now apply odict_keys_get.
Qed.

Lemma accumulate_round_invariant (ids : list string)
    (round_results : list (string * DSDecoder.round_result))
    (active active' : odict.t Sequence)
    (results results' : odict.t DSDecodeResult.t) :
  (forall k r, In (k, r) round_results -> In k ids) ->
  DSDecoder.accumulate_round round_results active results
  = Py.Ok (active', results') ->
  decode_invariant ids active results ->
  decode_invariant ids active' results'.
Proof.
  revert active results.
  induction round_results as [| [seq_id result] rest IH];
    intros active results K; cbn [DSDecoder.accumulate_round].
  - now intros [= <- <-].
  - set (r0 := default (DSDecodeResult.Build seq_id "" 0 0 0 0 0 None)
                 (odict.get results seq_id)).
    set (r1 := DSDecodeResult.Build _ _ _ _ _ _ _ _).
    intros G (Cov & Act & Res & ND).
    assert (In seq_id ids) as Iid by (eapply K; now left).
    assert (DSDecodeResult.sequence_id r0 = seq_id
            /\ 0 <= DSDecodeResult.speculation_rounds r0) as [Es Er].
    { subst r0. destruct (odict.get results seq_id) as [r |] eqn:E;
        [| split; [reflexivity | simpl; lia]].
      apply odict_get_In in E.
      rewrite List.Forall_forall in Res. destruct (Res _ E) as (_ & E1 & E2).
      simpl in *. split; [exact E1 | lia]. }
    assert (decode_invariant ids active (odict.set results seq_id r1)) as I1.
    { split; [| split; [| split]].
      - intros id I. destruct (Cov id I) as [S | S]; [now left |].
        right. now apply odict_set_keeps.
      - exact Act.
      - apply odict_set_Forall; [exact Res |].
        subst r1. simpl. repeat split; [exact Iid | exact Es | lia].
      - now apply odict_set_NoDup. }
    assert (decode_invariant ids (odict.del active seq_id)
              (odict.set results seq_id r1)) as I2.
    { destruct I1 as (Cov1 & Act1 & Res1 & ND1).
      split; [| split; [| split]]; try assumption.
      - intros id I. destruct (decide (seq_id = id)) as [<- | N].
        + right. rewrite odict_get_set_eq. eauto.
        + rewrite odict_get_del_ne by exact N. now apply Cov1.
      - intros id S. apply Act1. eapply odict_get_del, S. }
    assert (forall k r, In (k, r) rest -> In k ids) as K'
      by (intros k r I; eapply K; right; exact I).
    destruct (DSDecoder.is_complete result).
    + eapply IH; eassumption.
    + destruct (odict.get active seq_id) as [sequence |]; [| discriminate].
      destruct (_ <=? _); eapply IH; eassumption.
Qed.

Lemma decode_loop_invariant (ids : list string) (fuel : nat)
    (self self' : DSDecoder.t) (w w' : world) (active : odict.t Sequence)
    (results results' : odict.t DSDecodeResult.t)
    (context_info : option (gmap string (gmap string pyval))) :
  decode_invariant ids active results ->
  DSDecoder.decode_loop fuel self w active results context_info
  = (DSDecoder.Returned results', self', w') ->
  decode_invariant ids [] results'.
Proof.
  revert self w active results.
  induction fuel as [| fuel IH]; intros self w active results I.
  - destruct active; cbn [DSDecoder.decode_loop]; [| discriminate].
    now intros [= <- _ _].
  - destruct active as [| kv active0] eqn:Ea; cbn [DSDecoder.decode_loop];
      [now intros [= <- _ _] |].
    rewrite <- Ea in *. clear Ea.
    destruct (DSDecoder._predict_batch_speculation_lengths self
                (odict.keys active) context_info) as [sls self1].
    destruct (DSDecoder._perform_speculation_round self1 w active _)
      as [[[rr self2] w2] | e] eqn:Ep; [| discriminate].
    destruct (DSDecoder.accumulate_round rr active results)
      as [[active2 results2] | e] eqn:Eacc; [| discriminate].
    apply IH.
    eapply accumulate_round_invariant; [| exact Eacc | exact I].
    intros k r Ik. destruct I as (_ & Act & _).
    apply Act. eapply perform_round_keys; [exact Ep |].
    eapply odict_get_in, Ik.
Qed.

Lemma finalize_results (self : DSDecoder.t) (batch_time : Q)
    (results : odict.t DSDecodeResult.t) :
  Forall2
    (fun kr r =>
       DSDecodeResult.sequence_id r = DSDecodeResult.sequence_id (snd kr)
       /\ DSDecodeResult.speculation_rounds r
          = DSDecodeResult.speculation_rounds (snd kr)
       /\ DSDecodeResult.total_time r = batch_time
       /\ is_Some (DSDecodeResult.final_metrics r))
    results (fst (DSDecoder.finalize self batch_time results)).
Proof.
  revert self. induction results as [| [k r] rest IH]; intros self.
  - constructor.
  - cbn [DSDecoder.finalize].
    destruct (SpeculationLengthAdapter.get_sequence_stats _ k) as [stats a].
    specialize (IH (DSDecoder.with_sl_adapter self a)).
    destruct (DSDecoder.finalize _ batch_time rest) as [final self'].
    cbn [fst] in *. constructor; [| exact IH].
    simpl. repeat split. eauto.
Qed.

(** X22.  Whenever [decode_batch] returns, it returns exactly one result
    for each sequence id of the batch: every sequence of the batch finds
    the result that carries its id, every result carries the id of a
    sequence of the batch, and no two results carry the same id.  Every
    result counts at least one speculation round, has its final metrics
    filled in, and all results carry the same total time, the time of the
    batch. *)
Theorem decode_batch_complete (fuel : nat) (self self' : DSDecoder.t)
    (w w' : world) (sequences : list Sequence)
    (context_info : option (gmap string (gmap string pyval)))
    (final_results : list DSDecodeResult.t) :
  DSDecoder.decode_batch fuel self w sequences context_info
  = (DSDecoder.Returned final_results, self', w') ->
  (forall s, In s sequences ->
     exists r, In r final_results
               /\ seq_id s = Some (DSDecodeResult.sequence_id r))
  /\ (forall r, In r final_results ->
        (exists s, In s sequences
                   /\ seq_id s = Some (DSDecodeResult.sequence_id r))
        /\ 1 <= DSDecodeResult.speculation_rounds r
        /\ is_Some (DSDecodeResult.final_metrics r))
  /\ NoDup (map DSDecodeResult.sequence_id final_results)
  /\ exists batch_time,
       Forall (fun r => DSDecodeResult.total_time r = batch_time)
         final_results.
Proof.
  unfold DSDecoder.decode_batch.
  destruct (DSDecoder.index_sequences sequences []) as [active | e] eqn:Ei;
    [| discriminate].
  apply index_sequences_keys in Ei as (Hin & _ & Hd).
  destruct (DSDecoder.decode_loop fuel self w active [] context_info)
    as [[[results | e |] self1] w1] eqn:El; try discriminate.
  assert (decode_invariant (odict.keys active) active []) as I0.
  { split; [| split; [| split]].
    - intros id I. left. now apply odict_keys_get.
    - intros id S. now apply odict_keys_get.
    - constructor.
    - constructor. }
  pose proof (decode_loop_invariant _ _ _ _ _ _ _ _ _ _ I0 El)
    as (Cov & _ & Res & ND).
  destruct (elapsed w1) as [batch_time w2].
  pose proof (finalize_results self1 batch_time results) as F.
  destruct (DSDecoder.finalize self1 batch_time results) as [final self2].
  cbn [fst] in F.
  destruct (DSDecoder._update_global_stats self2 final batch_time)
    as [[u | e] self3]; [| discriminate].
  intros [= <- _ _].
  assert (map DSDecodeResult.sequence_id final = odict.keys results) as Ek.
  { clear -F Res. unfold odict.keys.
    induction F as [| kr r rest final (E & _) F IH]; [reflexivity |].
    inversion Res as [| ? ? (_ & Ex & _) Res']; subst.
    simpl. rewrite E, Ex. f_equal. now apply IH. }
  split; [| split; [| split]].
  - intros s I. destruct (Hin s I) as [id [Es S]].
    destruct (Cov id) as [[? [=]] | S']; [now apply odict_keys_get |].
    apply odict_keys_get in S'. rewrite <- Ek in S'.
    apply in_map_iff in S' as [r [Er Ir]].
    exists r. split; [exact Ir | now rewrite Er].
  - intros r I.
    assert (exists kr, In kr results
                       /\ DSDecodeResult.sequence_id r
                          = DSDecodeResult.sequence_id (snd kr)
                       /\ DSDecodeResult.speculation_rounds r
                          = DSDecodeResult.speculation_rounds (snd kr)
                       /\ is_Some (DSDecodeResult.final_metrics r))
      as [kr (Ikr & E1 & E2 & E3)].
    { clear -F I. induction F as [| kr r0 rest final (E1 & E2 & _ & E3) F IH];
        [destruct I |].
      destruct I as [-> | I].
      - exists kr. repeat split; [now left | exact E1 | exact E2 | exact E3].
      - destruct (IH I) as [kr' (I' & P)]. exists kr'. split; [now right | exact P]. }
    rewrite List.Forall_forall in Res.
    destruct (Res kr Ikr) as (Iid & Ex & Er).
    split; [| split; [lia | exact E3]].
    apply odict_keys_get in Iid.
    destruct (Hd _ Iid) as [[? [=]] | [s [Is Es]]].
    exists s. split; [exact Is |]. now rewrite E1, Ex.
  - now rewrite Ek.
  - exists batch_time. clear -F.
    induction F as [| kr r rest final (_ & _ & E & _) F IH]; constructor;
      assumption.
Qed.

End DecodeTheorems.

Section GlobalStatsTheorems.

Lemma sum_tokens_positive (l : list Z) : 0 < fold_left Z.add l 0 -> l <> [].
Proof. intros P ->. simpl in P. lia. Qed.

(** X23.  With a non-negative count of processed sequences,
    [_update_global_stats] never divides by zero: when some token was
    generated the list of results is not empty, so the count it divides by
    is positive.  It adds the number of results to the count, which
    therefore stays non-negative. *)
Theorem update_global_stats_returns (self : DSDecoder.t)
    (results : list DSDecodeResult.t) (batch_time : Q) :
  0 <= DSDecoder.total_sequences_processed (DSDecoder.global_stats self) ->
  let r := DSDecoder._update_global_stats self results batch_time in
  fst r = Py.Ok tt
  /\ DSDecoder.total_sequences_processed (DSDecoder.global_stats (snd r))
     = DSDecoder.total_sequences_processed (DSDecoder.global_stats self)
       + Py.len results.
Proof.
  intros P. cbv zeta. unfold DSDecoder._update_global_stats.
  cbn [DSDecoder.total_sequences_processed DSDecoder.average_speedup
       DSDecoder.total_tokens_generated DSDecoder.total_tokens_accepted
       DSDecoder.total_speculation_rounds].
  destruct (Z.ltb_spec 0
              (fold_left Z.add (map DSDecodeResult.tokens_generated results) 0))
    as [G | G]; [| split; reflexivity].
  apply sum_tokens_positive in G.
  assert (0 < Py.len results) as L
    by (unfold Py.len; destruct results; [contradiction | simpl; lia]).
  destruct (Z.eqb_spec
              (DSDecoder.total_sequences_processed (DSDecoder.global_stats self)
               + Py.len results) 0) as [E | E]; [lia |].
  split; reflexivity.
Qed.

End GlobalStatsTheorems.

(* ===================================================================== *)
(** * The further properties at concrete objects                           *)
(* ===================================================================== *)

Section SignalRuns.

Local Open Scope Q_scope.

(** X1 at the first verification step of a fresh processor. *)
Lemma process_verification_step_results_witness :
  exists self' r,
    @CombinedSignalProcessor.process_verification_step scalar_torch
      fresh_processor "ok" (scalars [1; 2]) (scalars [1; 3]) 2
    = Py.Ok (self', r)
    /\ 0 <= CombinedSignalProcessor.r_stability r <= 1
    /\ 0 <= CombinedSignalProcessor.r_next_acceptance_likelihood r <= 1.
Proof.
  destruct (@process_verification_step_results scalar_torch fresh_processor
              "ok" (scalars [1; 2]) (scalars [1; 3]) 2) as [A _].
  destruct (@CombinedSignalProcessor.process_verification_step scalar_torch
              fresh_processor "ok" (scalars [1; 2]) (scalars [1; 3]) 2)
    as [[self' r] | e] eqn:E; [| vm_compute in E; discriminate].
  exists self', r. split; [reflexivity |].
  destruct (A self' r eq_refl) as (S & _ & L & _). split; assumption.
Defined.

Lemma fresh_processor_nonneg : nonneg_histories fresh_processor.
Proof.
  split; intros sequence_id d E; cbn in E; rewrite lookup_empty in E;
    discriminate.
Qed.

(** X2 at the same step. *)
Lemma process_step_samples_nonneg_witness :
  nonneg_histories fresh_processor
  /\ exists self' r,
       @CombinedSignalProcessor.process_verification_step scalar_torch
         fresh_processor "ok" (scalars [1; 2]) (scalars [1; 3]) 2
       = Py.Ok (self', r)
       /\ nonneg_histories self'.
Proof.
  split; [exact fresh_processor_nonneg |].
  destruct (@CombinedSignalProcessor.process_verification_step scalar_torch
              fresh_processor "ok" (scalars [1; 2]) (scalars [1; 3]) 2)
    as [[self' r] | e] eqn:E; [| vm_compute in E; discriminate].
  exists self', r. split; [reflexivity |].
  apply (@process_step_samples_nonneg scalar_torch fresh_processor self' "ok"
           (scalars [1; 2]) (scalars [1; 3]) 2 r fresh_processor_nonneg E).
Defined.

(** X3 at the same step, seen from the sequence ["b"]. *)
Lemma process_step_other_sequences_witness :
  "b"%string <> "ok"%string
  /\ exists self' r,
       @CombinedSignalProcessor.process_verification_step scalar_torch
         fresh_processor "ok" (scalars [1; 2]) (scalars [1; 3]) 2
       = Py.Ok (self', r)
       /\ CombinedSignalProcessor.get_sequence_metrics self' "b"
          = CombinedSignalProcessor.get_sequence_metrics fresh_processor "b".
Proof.
  assert ("b"%string <> "ok"%string) as N by discriminate.
  split; [exact N |].
  destruct (@CombinedSignalProcessor.process_verification_step scalar_torch
              fresh_processor "ok" (scalars [1; 2]) (scalars [1; 3]) 2)
    as [[self' r] | e] eqn:E; [| vm_compute in E; discriminate].
  exists self', r. split; [reflexivity |].
  apply (@process_step_other_sequences scalar_torch fresh_processor self' "ok"
           "b" (scalars [1; 2]) (scalars [1; 3]) 2 r E N).
Defined.


(** X5 at a history of three rising samples. *)
Lemma get_trend_sound_witness :
  let self := EntropySignal.Build {[ "a"%string := Py.Deque [1; 2; 3] 10 ]} in
  EntropySignal.get_trend self "a" = "increasing"%string /\ 1 < 3.
Proof.
  intros self.
  assert (EntropySignal.get_trend self "a" = "increasing"%string) as T
    by (vm_compute; reflexivity).
  split; [exact T |].
  destruct (get_trend_sound self "a") as (_ & _ & A).
  assert (EntropySignal.entropy_history self !! "a"%string
          = Some (Py.Deque [1; 2; 3] 10)) as E by (vm_compute; reflexivity).
  assert (0 <= 1) as P by lra.
  destruct (A (Py.Deque [1; 2; 3] 10) [] 1 2 3 E eq_refl P) as (I & _).
  exact (I T).
Defined.

End SignalRuns.

Section AdapterRuns.

Local Open Scope Q_scope.

(** X7 after eleven recorded rounds of one sequence. *)
Lemma recent_histories_bounded_witness :
  let ops := repeat (UpdatePerformance "ok" 4 3 4) 11 in
  SpeculationLengthAdapter.init default_AdapterConfig default_SignalConfig
  = Py.Ok fresh_adapter
  /\ exists p,
       SpeculationLengthAdapter.sequence_performance
         (adapter_run ops fresh_adapter) !! "ok"%string = Some p
       /\ (length (Py.items (SpeculationLengthAdapter.recent_acceptance_rates p))
           <= 10)%nat.
Proof.
  intros ops.
  assert (SpeculationLengthAdapter.init default_AdapterConfig
            default_SignalConfig = Py.Ok fresh_adapter) as I
    by (vm_compute; reflexivity).
  split; [exact I |].
  destruct (SpeculationLengthAdapter.sequence_performance
              (adapter_run ops fresh_adapter) !! "ok"%string)
    as [p |] eqn:E; [| vm_compute in E; discriminate].
  exists p. split; [reflexivity |].
  apply (recent_histories_bounded default_AdapterConfig default_SignalConfig
           fresh_adapter ops "ok" p I E).
Defined.

(** X8 at a recorded round of ["ok"], seen from the sequence ["b"]. *)
Lemma adapter_step_other_sequences_witness :
  let op := UpdatePerformance "ok" 4 3 4 in
  "b"%string <> op_sequence op
  /\ fst (SpeculationLengthAdapter.predict_optimal_sl
            (adapter_step fresh_adapter op) "b" None)
     = fst (SpeculationLengthAdapter.predict_optimal_sl fresh_adapter "b" None).
Proof.
  intros op.
  assert ("b"%string <> op_sequence op) as N by discriminate.
  split; [exact N |].
  apply (adapter_step_other_sequences fresh_adapter op "b" None N).
Defined.

(** X9 at the first prediction of a fresh adapter. *)
Lemma predict_repeatable_witness :
  let a' := snd (SpeculationLengthAdapter.predict_optimal_sl fresh_adapter
                   "ok" (Some code_context)) in
  exists n,
    fst (SpeculationLengthAdapter.predict_optimal_sl fresh_adapter "ok"
           (Some code_context)) = Py.Ok n
    /\ SpeculationLengthAdapter.prediction_count
         <$> (SpeculationLengthAdapter.sequence_states a' !! "ok"%string)
       = Some 1%Z.
Proof.
  intros a'.
  destruct (predict_repeatable fresh_adapter "ok" (Some code_context))
    as (_ & C & _).
  destruct (fst (SpeculationLengthAdapter.predict_optimal_sl fresh_adapter
                   "ok" (Some code_context))) as [n | e] eqn:E;
    [| vm_compute in E; discriminate].
  exists n. split; [reflexivity |]. exact (C n eq_refl).
Defined.

(** X10 after one fully accepted round. *)
Lemma adjust_for_history_direction_witness :
  let a := SpeculationLengthAdapter.update_performance fresh_adapter "ok" 4 4
             4 in
  target_acceptance_rate (SpeculationLengthAdapter.config a)
  < np.mean (Py.items (SpeculationLengthAdapter.recent_acceptance_rates
                         (perf_of a "ok")))
  /\ 4 <= fst (SpeculationLengthAdapter._adjust_for_history a "ok" 4).
Proof.
  intros a.
  assert (target_acceptance_rate (SpeculationLengthAdapter.config a)
          < np.mean (Py.items (SpeculationLengthAdapter.recent_acceptance_rates
                                 (perf_of a "ok")))) as T
    by (vm_compute; reflexivity).
  split; [exact T |].
  destruct (adjust_for_history_direction a "ok" 4) as [_ D].
  apply D.
  - intros E. vm_compute in E. discriminate.
  - vm_compute. discriminate.
  - vm_compute. discriminate.
  - vm_compute. reflexivity.
  - exact T.
Defined.


(** X12 after a round with three of four tokens accepted. *)
Lemma acceptance_rates_in_unit_witness :
  let stats :=
    fst (SpeculationLengthAdapter.get_sequence_stats
           (record_rounds fresh_adapter "ok" [(4, 3, 4)]%Z) "ok") in
  sane_perf (perf_of fresh_adapter "ok")
  /\ Forall (fun r => (0 <= snd (fst r) <= snd r)%Z) [(4, 3, 4)]%Z
  /\ 0 <= SpeculationLengthAdapter.st_overall_acceptance_rate stats <= 1.
Proof.
  intros stats.
  assert (sane_perf (perf_of fresh_adapter "ok")) as S.
  { split; [constructor | vm_compute; split; discriminate]. }
  assert (Forall (fun r => (0 <= snd (fst r) <= snd r)%Z) [(4, 3, 4)]%Z) as F
    by (constructor; [simpl; lia | constructor]).
  split; [exact S |]. split; [exact F |].
  apply (acceptance_rates_in_unit fresh_adapter "ok" [(4, 3, 4)]%Z S F).
Defined.

End AdapterRuns.

Section UtilsRuns.

Local Open Scope Q_scope.

(** X13 at a batch of three predictions. *)
Lemma utils_optimize_caps_witness :
  let r := UtilsBatchOptimizer.optimize_batch_speculation_lengths
             (UtilsBatchOptimizer.init 2) [2; 9; 4]%Z None in
  [2; 9; 4]%Z <> []
  /\ (1 <= snd (fst r) <= 8)%Z
  /\ Forall2 Z.le (fst (fst r)) [2; 9; 4]%Z.
Proof.
  intros r.
  assert ([2; 9; 4]%Z <> []) as N by discriminate.
  split; [exact N |].
  destruct (utils_optimize_caps (UtilsBatchOptimizer.init 2) [2; 9; 4]%Z None N)
    as (C & _ & L & _).
  split; [exact C | exact L].
Defined.

(** X14 at the same batch. *)
Lemma utils_optimize_records_witness :
  let self := UtilsBatchOptimizer.init 2 in
  let r := UtilsBatchOptimizer.optimize_batch_speculation_lengths self
             [2; 9; 4]%Z None in
  [2; 9; 4]%Z <> []
  /\ (0 < Py.maxlen (UtilsBatchOptimizer.batch_history self))%nat
  /\ exists record,
       last (Py.items (UtilsBatchOptimizer.batch_history (snd r)))
       = Some record
       /\ 0 <= UtilsBatchOptimizer.variance_reduction record.
Proof.
  intros self r.
  assert ([2; 9; 4]%Z <> []) as N by discriminate.
  assert (0 < Py.maxlen (UtilsBatchOptimizer.batch_history self))%nat as M
    by (vm_compute; lia).
  split; [exact N |]. split; [exact M |].
  destruct (utils_optimize_records self [2; 9; 4]%Z None N M)
    as (record & L & _ & _ & _ & V).
  exists record. split; [exact L | exact V].
Defined.

(** X15 at a result with three of four tokens accepted. *)
Lemma decode_result_rates_witness :
  let r := DSDecodeResult.Build "ok" "a b c d" 4 3 1 1 4 None in
  (0 <= DSDecodeResult.tokens_accepted r <= DSDecodeResult.tokens_generated r)%Z
  /\ 0 <= DSDecodeResult.acceptance_rate r <= 1.
Proof.
  intros r.
  assert (0 <= DSDecodeResult.tokens_accepted r
          <= DSDecodeResult.tokens_generated r)%Z as B by (simpl; lia).
  split; [exact B |].
  apply (decode_result_rates r), B.
Defined.

(** X17 at a history of two rounds, after three rounds. *)
Lemma metrics_invariant_kept_witness :
  let pm0 := PerformanceMetrics.Build 2 (Py.Deque [] 2) 0 ∅
               (PerformanceMetrics.SystemMetrics 0 0 0 0 0)
               (Py.Deque [] 50) (Py.Deque [] 50) (Py.Deque [] 50) in
  let ops := repeat (UpdateRound 2 1 (Some [4; 4]%Z) (Some [3; 4]%Z)) 3 in
  PerformanceMetrics.init 2 = Py.Ok pm0
  /\ metrics_invariant 2 (metrics_run ops pm0)
  /\ stored_round_ids (metrics_run ops pm0) = [2; 3]%Z.
Proof.
  intros pm0 ops.
  assert (PerformanceMetrics.init 2 = Py.Ok pm0) as I by reflexivity.
  split; [exact I |].
  split; [apply (metrics_invariant_kept 2 pm0 ops I) |].
  vm_compute. reflexivity.
Defined.

(** X18 at a batch whose second sequence has the higher priority. *)
Lemma schedule_sequences_sorted_witness :
  let slow := {| seq_id := Some "slow"%string;
                 seq_prompt := Some "hello"%string;
                 seq_max_tokens := Some 600%Z |} in
  Forall (fun s => seq_id s <> None) [slow; seq_ok]
  /\ exists scheduled self',
       DynamicScheduler.schedule_sequences DynamicScheduler.init [slow; seq_ok]
       = (Py.Ok scheduled, self')
       /\ Permutation scheduled [slow; seq_ok]
       /\ fst (DynamicScheduler.schedule_sequences DynamicScheduler.init
                 [slow; seq_ok]) = Py.Ok [seq_ok; slow].
Proof.
  intros slow.
  assert (Forall (fun s => seq_id s <> None) [slow; seq_ok]) as F
    by (repeat constructor; discriminate).
  split; [exact F |].
  destruct (schedule_sequences_sorted DynamicScheduler.init [slow; seq_ok] F)
    as (scheduled & self' & E & P & _).
  exists scheduled, self'. split; [exact E |]. split; [exact P |].
  vm_compute. reflexivity.
Defined.

(** X19 at a batch whose second sequence has no id. *)
Lemma schedule_sequences_missing_id_witness :
  Forall (fun s => seq_id s <> None) [seq_ok]
  /\ seq_id seq_anonymous = None
  /\ fst (DynamicScheduler.schedule_sequences DynamicScheduler.init
            ([seq_ok] ++ seq_anonymous :: [seq_bad]))
     = Py.Raise (Py.KeyError "id").
Proof.
  assert (Forall (fun s => seq_id s <> None) [seq_ok]) as F
    by (repeat constructor; discriminate).
  assert (seq_id seq_anonymous = None) as E by reflexivity.
  split; [exact F |]. split; [exact E |].
  apply (schedule_sequences_missing_id DynamicScheduler.init [seq_ok]
           [seq_bad] seq_anonymous F E).
Defined.

End UtilsRuns.

Section DecoderRuns.

Local Open Scope Z_scope.

(** X20 at two new sequences of a fresh controller. *)
Lemma predict_batch_lengths_witness :
  let sls :=
    fst (DSDecoder._predict_batch_speculation_lengths fresh_decoder
           ["a"; "b"]%string None) in
  valid_config default_AdapterConfig
  /\ length sls = 2%nat
  /\ Forall (fun sl => 1 <= sl <= 8) sls.
Proof.
  intros sls.
  assert (valid_config default_AdapterConfig) as V by (split; simpl; lia).
  split; [exact V |].
  destruct (predict_batch_lengths fresh_decoder ["a"; "b"]%string None)
    as [L R].
  split; [exact L |].
  apply R; [exact V | simpl; lia].
Defined.

(** X22 at a batch of one sequence that completes in its first round. *)
Lemma decode_batch_complete_witness :
  exists final_results self' w',
    @DSDecoder.decode_batch scalar_torch failing_draft_models 3 fresh_decoder
      tt [seq_ok] None
    = (DSDecoder.Returned final_results, self', w')
    /\ (forall s, In s [seq_ok] ->
          exists r, In r final_results
                    /\ seq_id s = Some (DSDecodeResult.sequence_id r))
    /\ NoDup (map DSDecodeResult.sequence_id final_results).
Proof.
  destruct (@DSDecoder.decode_batch scalar_torch failing_draft_models 3
              fresh_decoder tt [seq_ok] None)
    as [[[final_results | e |] self'] w'] eqn:E;
    [| vm_compute in E; discriminate | vm_compute in E; discriminate].
  exists final_results, self', w'. split; [reflexivity |].
  destruct (@decode_batch_complete scalar_torch failing_draft_models 3
              fresh_decoder self' tt w' [seq_ok] None final_results E)
    as (A & _ & N & _).
  split; [exact A | exact N].
Defined.

(** X23 at a fresh controller and one result. *)
Lemma update_global_stats_returns_witness :
  let results := [DSDecodeResult.Build "ok" "a b c d" 4 4 1 1 4 None] in
  0 <= DSDecoder.total_sequences_processed
         (DSDecoder.global_stats fresh_decoder)
  /\ fst (DSDecoder._update_global_stats fresh_decoder results 1) = Py.Ok tt.
Proof.
  intros results.
  assert (0 <= DSDecoder.total_sequences_processed
                 (DSDecoder.global_stats fresh_decoder)) as P by (simpl; lia).
  split; [exact P |].
  apply (update_global_stats_returns fresh_decoder results 1 P).
Defined.

End DecoderRuns.

(* ===================================================================== *)
(** * The simulated models                                                 *)
(* ===================================================================== *)

Section SimulationTheorems.

Context `{Torch}.

Local Open Scope Q_scope.

Lemma range_len (n : Z) : Py.len (Simulation.range n) = Z.max 0 n.
Proof. unfold Py.len, Simulation.range. rewrite length_seqZ. lia. Qed.

(** X24.  The simulated draft model never proposes more tokens than it
    is asked for: it proposes [max(0, speculation_length)] tokens, or three
    when more than three are asked for and it takes the prompt for
    creative writing. *)
Theorem simulated_draft_length (sequence : Sequence) (speculation_length : Z) :
  let tokens :=
    Simulation._simulate_draft_generation sequence speculation_length in
  (Py.len tokens <= Z.max 0 speculation_length)%Z
  /\ (Py.len tokens = Z.max 0 speculation_length
      \/ (Py.len tokens = 3%Z /\ (3 < speculation_length)%Z)).
Proof.
  cbv zeta. unfold Simulation._simulate_draft_generation.
  assert (forall (f : Z -> string) n,
            Py.len (map f (Simulation.range n)) = Z.max 0 n) as L.
  { intros f n. rewrite <- range_len. unfold Py.len. now rewrite length_map. }
  destruct (Simulation.contains "code" _);
    [rewrite L; split; [lia | now left] |].
  destruct (Simulation.contains "creative" _); rewrite L.
  - split; [lia |].
    destruct (Z.le_gt_cases speculation_length 3); [left | right]; lia.
  - split; [lia | now left].
Qed.

Lemma simulated_rate_bounds (x : Q) :
  (1 # 10) <= Py.max (1 # 10) (Py.min (9 # 10) x) <= (9 # 10).
Proof.
  destruct (py_max_cases (1 # 10) (Py.min (9 # 10) x)) as [[-> L] | [-> L]];
    [lra |].
  destruct (py_min_cases (9 # 10) x) as [[E L'] | [E L']]; rewrite E in *; lra.
Qed.

Lemma simulated_accepted_count (noise coin : Q) (randn : nat -> tensor)
    (sequence : Sequence) (draft : draft_result) :
  (1 <= vr_accepted_tokens
          (Simulation._simulate_target_verification noise coin randn sequence
             draft)
   <= Z.max 1 (Py.len (dr_tokens draft)))%Z.
Proof.
  unfold Simulation._simulate_target_verification.
  cbn [vr_accepted_tokens].
  set (rate := Py.max (1 # 10) (Py.min (9 # 10) _)).
  pose proof (simulated_rate_bounds
                ((if Simulation.contains "code"
                       (Simulation.lower (default ""%string (seq_prompt sequence)))
                  then 7 # 10
                  else if Simulation.contains "creative"
                            (Simulation.lower
                               (default ""%string (seq_prompt sequence)))
                       then 4 # 10 else 6 # 10) + noise)) as [Lo Hi].
  fold rate in Lo, Hi.
  assert (0 <= inject_Z (Py.len (dr_tokens draft))) as P
    by (change 0 with (inject_Z 0); rewrite <- Zle_Qle; unfold Py.len; lia).
  assert (0 <= inject_Z (Py.len (dr_tokens draft)) * rate) as NN
    by (apply Qmult_le_0_compat; lra).
  assert (inject_Z (Py.len (dr_tokens draft)) * rate
          <= inject_Z (Py.len (dr_tokens draft))) as Le by nra.
  rewrite (py_int_floor _ NN). split; [lia |].
  apply Z.max_lub; [lia |].
  apply Z.le_trans with (Py.len (dr_tokens draft)); [| lia].
  rewrite <- (Qfloor_Z (Py.len (dr_tokens draft))) at 2.
  now apply Qfloor_resp_le.
Qed.

(** X25.  The simulated target model accepts at least one token and at
    most as many as the draft holds, or one when the draft is empty: an
    empty draft is answered with one accepted token and an empty text.  It
    returns one target logit per draft token. *)
Theorem simulated_verification_counts (noise coin : Q)
    (randn : nat -> tensor) (sequence : Sequence) (draft : draft_result) :
  let v := Simulation._simulate_target_verification noise coin randn sequence
             draft in
  (1 <= vr_accepted_tokens v <= Z.max 1 (Py.len (dr_tokens draft)))%Z
  /\ length (vr_target_logits v) = length (dr_tokens draft)
  /\ (dr_tokens draft = [] ->
      vr_accepted_tokens v = 1%Z /\ vr_accepted_text v = ""%string).
Proof.
  cbv zeta. split; [apply simulated_accepted_count | split].
  - unfold Simulation._simulate_target_verification.
    cbn [vr_target_logits]. now rewrite length_map, length_seq.
  - unfold Simulation._simulate_target_verification.
    cbn [vr_accepted_tokens vr_accepted_text].
    set (rate := Py.max (1 # 10) (Py.min (9 # 10) _)). clearbody rate.
    intros E. rewrite E. split; reflexivity.
Qed.

End SimulationTheorems.

Section SimulatedRoundTheorems.

Context `{Torch}.

Local Open Scope Q_scope.

(** X26.  With the simulated target model the acceptance rate that
    [_process_verification_result] reports for a round always lies in
    [0, 1], also for an empty draft (where one token counts as accepted
    out of none) and when the signal processing fails. *)
Theorem simulated_round_acceptance (self : DSDecoder.t) (sequence_id : string)
    (noise coin : Q) (randn : nat -> tensor) (sequence : Sequence)
    (draft : draft_result) (speculation_length : Z) :
  let v := Simulation._simulate_target_verification noise coin randn sequence
             draft in
  let result :=
    fst (DSDecoder._process_verification_result self sequence_id draft v
           speculation_length) in
  exists x, DSDecoder.rr_acceptance_rate result = Some x /\ 0 <= x <= 1.
Proof.
  cbv zeta.
  destruct (simulated_accepted_count noise coin randn sequence draft)
    as [Lo Hi].
  set (v := Simulation._simulate_target_verification noise coin randn sequence
              draft) in *.
  assert (0 <= inject_Z (vr_accepted_tokens v)
               / inject_Z (Z.max (Py.len (dr_tokens draft)) 1) <= 1) as R.
  { assert (0 < inject_Z (Z.max (Py.len (dr_tokens draft)) 1)) as P
      by (change 0 with (inject_Z 0); rewrite <- Zlt_Qlt; lia).
    split.
    - apply Qle_shift_div_l; [exact P |].
      rewrite Qmult_0_l. change 0 with (inject_Z 0). rewrite <- Zle_Qle. lia.
    - apply Qle_shift_div_r; [exact P |].
      rewrite Qmult_1_l, <- Zle_Qle. lia. }
  unfold DSDecoder._process_verification_result.
  destruct (dr_logits draft) as [| d ds];
    [cbn; eexists; split; [reflexivity | exact R] |].
  destruct (vr_target_logits v) as [| t ts];
    [cbn; eexists; split; [reflexivity | exact R] |].
  destruct (CombinedSignalProcessor.process_verification_step _ _ _ _ _)
    as [[sp r] |]; cbn.
  - eexists. split; [reflexivity | exact R].
  - eexists. split; [reflexivity | lra].
Qed.

End SimulatedRoundTheorems.
